(** * GDScript code-smell analyzer: shallow embedding and verified properties

    The development follows the JavaScript sources of the analyzer:
    the code model (CodeLine, Method, Class, GDScriptProject), five of the
    detectors (LongMethod, RefusedBequest, Comments, DuplicateCode,
    GlobalState), the threshold reads of all twenty detectors, the
    configuration object (AnalysisConfig) and the orchestrating use case
    (AnalyzeProjectUseCase.analyzeProject).  Strings are byte strings, Sets
    are lists of their members in insertion order, a call that can throw
    returns a [JS.completion]. *)

From Stdlib Require Import QArith Qround Ascii String.
From stdpp Require Import base option list strings gmap.

Local Open Scope string_scope.
Local Open Scope list_scope.

(** ** JavaScript values and string primitives *)

Module JS.

(** Threshold values are numbers or booleans; a missing key reads as
    [undefined].  Numbers are taken as rationals: the numbers the detectors
    compute are quotients of two array lengths, and for these and the built-in
    literals they are compared with (0.2, 0.3, 0.5, 0.6, 0.7) the rational
    comparison and the double-precision one agree.  NaN is only the result of
    [toNumber]. *)
Inductive value : Type :=
| Undefined
| Bool (b : bool)
| Num (q : Q).

Definition ofNat (n : nat) : Q := inject_Z (Z.of_nat n).

(** ToBoolean *)
Definition truthy (v : value) : bool :=
  match v with
  | Undefined => false
  | Bool b => b
  | Num q => negb (Qeq_bool q 0)
  end.

(** [a || b] *)
Definition or (a b : value) : value := if truthy a then a else b.

(** ToNumber; [None] stands for NaN. *)
Definition toNumber (v : value) : option Q :=
  match v with
  | Undefined => None
  | Bool true => Some 1%Q
  | Bool false => Some 0%Q
  | Num q => Some q
  end.

(** [n === v] for a number [n]: a value of another type is never equal. *)
Definition strictEqNum (n : Q) (v : value) : bool :=
  match v with
  | Num q => Qeq_bool n q
  | _ => false
  end.

Definition Qlt_bool (x y : Q) : bool := negb (Qle_bool y x).

(** [a < b], [a > b], [a >= b] on values: false as soon as a side is NaN. *)
Definition lt (a b : value) : bool :=
  match toNumber a, toNumber b with
  | Some x, Some y => Qlt_bool x y
  | _, _ => false
  end.
Definition gt (a b : value) : bool := lt b a.
Definition ge (a b : value) : bool :=
  match toNumber a, toNumber b with
  | Some x, Some y => Qle_bool y x
  | _, _ => false
  end.

(** [obj.key] on a plain object used as a map. *)
Definition get (obj : gmap string value) (key : string) : value :=
  default Undefined (obj !! key).

(** String.prototype.startsWith / includes *)
Definition startsWith (s p : string) : bool := String.prefix p s.

Fixpoint includes (s sub : string) : bool :=
  String.prefix sub s ||
  match s with
  | EmptyString => false
  | String _ s' => includes s' sub
  end.

(** String.prototype.trim, on the ASCII white space characters. *)
Fixpoint trimStart (s : string) : string :=
  match s with
  | String a s' => if Ascii.is_space a then trimStart s' else s
  | EmptyString => EmptyString
  end.
Definition trimEnd (s : string) : string :=
  String.rev (trimStart (String.rev s)).
Definition trim (s : string) : string := trimEnd (trimStart s).

(** String.prototype.toLowerCase, on ASCII letters. *)
Definition lowerAscii (a : ascii) : ascii :=
  let n := Ascii.nat_of_ascii a in
  if (65 <=? n)%nat && (n <=? 90)%nat then Ascii.ascii_of_nat (n + 32) else a.
Fixpoint toLowerCase (s : string) : string :=
  match s with
  | EmptyString => EmptyString
  | String a s' => String (lowerAscii a) (toLowerCase s')
  end.

(** Array.prototype.join *)
Fixpoint join (sep : string) (l : list string) : string :=
  match l with
  | [] => ""
  | [x] => x
  | x :: l' => x +:+ sep +:+ join sep l'
  end.

(** [new Set(iterable)] and [set.has(x)].  A set is the list of its members
    in insertion order; membership is equality of values (for an object,
    being the same object). *)
Section SetOf.
Context {A : Type} `{EqDecision A}.
Definition has (s : list A) (x : A) : bool := bool_decide (x ∈ s).
Fixpoint addAll (acc l : list A) : list A :=
  match l with
  | [] => acc
  | x :: l' => addAll (if has acc x then acc else acc ++ [x]) l'
  end.
Definition newSet (l : list A) : list A := addAll [] l.
End SetOf.

(** A call either returns or throws an Error with a message. *)
Inductive completion (A : Type) : Type :=
| Normal (a : A)
| Throw (message : string).
Arguments Normal {A} a.
Arguments Throw {A} message.

End JS.

(** ** Code model *)

Module Identifier.
Record t := { value : string }.
#[global] Instance eq_dec : EqDecision t.
Proof. solve_decision. Defined.
Definition toString (i : t) : string := value i.
Definition equals (a b : t) : bool := bool_decide (value a = value b).

(** The constructor: a string that is empty or all white space is refused;
    the value is stored as given. *)
Definition from (value : string) : JS.completion t :=
  if String.eqb (JS.trim value) ""
  then JS.Throw "Identifier must be a non-empty string"
  else JS.Normal {| value := value |}.
End Identifier.

Module CodeLine.
Record t := { content : string; lineNumber : option nat }.
#[global] Instance eq_dec : EqDecision t.
Proof. solve_decision. Defined.

(** The constructor stores the trimmed text. *)
Definition from (text : string) (n : option nat) : t :=
  {| content := JS.trim text; lineNumber := n |}.

Definition contains (l : t) (sub : string) : bool := JS.includes (content l) sub.
Definition isComment (l : t) : bool :=
  JS.startsWith (content l) "#" || JS.startsWith (JS.trim (content l)) "//".
Definition hasYieldOrAwait (l : t) : bool :=
  contains l "yield" || contains l "await".
Definition length (l : t) : nat := String.length (content l).
Definition toString (l : t) : string := content l.
Definition equals (a b : t) : bool := String.eqb (content a) (content b).
End CodeLine.

(** The Parameter entity. *)
Module Param.
Record t := { name : Identifier.t; type : string; defaultValue : option string }.
#[global] Instance eq_dec : EqDecision t.
Proof. solve_decision. Defined.
End Param.

Module Method.
(** [calls] holds (caller, callee) pairs and [accessedFields] the accessed
    field keys, both as the strings the detectors compare them with. *)
Record t := {
  name : Identifier.t;
  parameters : list Param.t;
  lines : list CodeLine.t;
  calls : list (string * string);
  accessedFields : list string
}.
#[global] Instance eq_dec : EqDecision t.
Proof. solve_decision. Defined.

Definition decisionKeywords : list string :=
  ["if"; "elif"; "while"; "for"; "match"; "and"; "or"].

(** The inner loop over the keywords: stops at the first one found. *)
Fixpoint hitsKeyword (l : CodeLine.t) (kws : list string) : bool :=
  match kws with
  | [] => false
  | kw :: kws' => if CodeLine.contains l kw then true else hitsKeyword l kws'
  end.

(** The outer loop, threading the running [complexity]. *)
Fixpoint complexityLoop (complexity : nat) (ls : list CodeLine.t) : nat :=
  match ls with
  | [] => complexity
  | l :: ls' =>
      complexityLoop
        (if hitsKeyword l decisionKeywords then S complexity else complexity) ls'
  end.

Definition calculateCyclomaticComplexity (m : t) : nat :=
  complexityLoop 1 (lines m).

Definition getYieldCount (m : t) : nat :=
  length (filter (λ l, CodeLine.hasYieldOrAwait l = true) (lines m)).

Definition loc (m : t) : nat := length (lines m).
Definition cyclomaticComplexity (m : t) : nat := calculateCyclomaticComplexity m.

Definition isGetterOrSetter (m : t) : bool :=
  let content := JS.join " " (map CodeLine.content (lines m)) in
  (loc m <=? 3)%nat &&
  (JS.includes content "return " || JS.includes content "= ") &&
  (JS.startsWith (Identifier.toString (name m)) "get_" ||
   JS.startsWith (Identifier.toString (name m)) "set_").

Definition callsMethod (m : t) (calleeName : string) : bool :=
  existsb (λ call : string * string, String.eqb call.2 calleeName) (calls m).

Definition accessesField (m : t) (className fieldName : string) : bool :=
  JS.has (accessedFields m) (className +:+ "." +:+ fieldName).
End Method.

Module Class.
(** [ref] stands for the identity of the object: two Class objects with the
    same content are still two members of a Set, and they differ in [ref].
    [methods], [fields] and [exportedVars] list the members of the
    respective Sets. *)
Record t := {
  ref : nat;
  name : Identifier.t;
  fields : list Identifier.t;
  methods : list Method.t;
  parent : option Identifier.t;
  autoload : bool;
  exportedVars : list Identifier.t;
  filePath : option string
}.
#[global] Instance eq_dec : EqDecision t.
Proof. solve_decision. Defined.

Definition getTotalLOC (c : t) : nat :=
  foldl (λ total method, total + Method.loc method) 0 (methods c).

Definition getMethod (c : t) (methodName : string) : option Method.t :=
  List.find (λ method, bool_decide (Identifier.toString (Method.name method) = methodName))
            (methods c).

Definition getMethodNames (c : t) : list string :=
  map (λ method, Identifier.toString (Method.name method)) (methods c).

Definition hasMethod (c : t) (methodName : string) : bool :=
  existsb (String.eqb methodName) (getMethodNames c).

Definition isParentOf (c childClass : t) : bool :=
  match parent childClass with
  | Some p => Identifier.equals p (name c)
  | None => false
  end.

Definition hasExportedVars (c : t) : bool := (0 <? length (exportedVars c))%nat.

(** The body of the two loops of [calculateLCOM] for one pair of methods:
    whether [sharedFields] ends up non-empty. *)
Definition sharesField (c : t) (method1 method2 : Method.t) : bool :=
  let sharedFields :=
    JS.newSet
      (map Identifier.toString
         (filter (λ field,
                    Method.accessesField method1 (Identifier.toString (name c))
                                         (Identifier.toString field) &&
                    Method.accessesField method2 (Identifier.toString (name c))
                                         (Identifier.toString field) = true)
                 (fields c))) in
  (0 <? length sharedFields)%nat.

(** [for i ... for j = i + 1 ...], threading [sharedFieldPairs] and
    [totalPairs]. *)
Fixpoint lcomInner (c : t) (method1 : Method.t) (rest : list Method.t)
    (sharedFieldPairs totalPairs : nat) : nat * nat :=
  match rest with
  | [] => (sharedFieldPairs, totalPairs)
  | method2 :: rest' =>
      lcomInner c method1 rest'
        (if sharesField c method1 method2 then S sharedFieldPairs else sharedFieldPairs)
        (S totalPairs)
  end.
Fixpoint lcomLoop (c : t) (methodsArray : list Method.t)
    (sharedFieldPairs totalPairs : nat) : nat * nat :=
  match methodsArray with
  | [] => (sharedFieldPairs, totalPairs)
  | method1 :: rest =>
      let '(shared, total) := lcomInner c method1 rest sharedFieldPairs totalPairs in
      lcomLoop c rest shared total
  end.

Definition calculateLCOM (c : t) : Z :=
  if (length (methods c) <=? 1)%nat then 0%Z
  else
    let '(sharedFieldPairs, totalPairs) := lcomLoop c (methods c) 0 0 in
    let P := (Z.of_nat totalPairs - Z.of_nat sharedFieldPairs)%Z in
    let Q := Z.of_nat sharedFieldPairs in
    Z.max (P - Q) 0.
End Class.

Module GDScriptProject.
(** Scenes and signals are kept by name only, where the code keeps objects
    by identity; no detector modelled here reads them. *)
Record t := {
  classes : list Class.t;
  scenes : list string;
  autoloads : list Class.t;
  signals : list string;
  name : option string
}.

(** The loop of [validate] over the autoloads. *)
Fixpoint validateLoop (classes autoloads : list Class.t) : JS.completion unit :=
  match autoloads with
  | [] => JS.Normal tt
  | autoload :: rest =>
      if negb (JS.has classes autoload) || negb (Class.autoload autoload)
      then JS.Throw ("Autoload class " +:+ Identifier.toString (Class.name autoload)
                     +:+ " must be in classes and have autoload=true")
      else validateLoop classes rest
  end.

Definition validate (p : t) : JS.completion unit :=
  validateLoop (classes p) (autoloads p).

(** [buildClassHierarchy] looks each parent up and then does nothing. *)
Definition buildClassHierarchy (p : t) : unit := tt.

(** The constructor.  No [name] property is ever assigned. *)
Definition new (classes : list Class.t) (scenes : list string)
    (autoloads : list Class.t) (signals : list string) : JS.completion t :=
  let this := {| classes := JS.newSet classes;
                 scenes := JS.newSet scenes;
                 autoloads := JS.newSet autoloads;
                 signals := JS.newSet signals;
                 name := None |} in
  match validate this with
  | JS.Throw e => JS.Throw e
  | JS.Normal _ => let _ := buildClassHierarchy this in JS.Normal this
  end.

Definition getRegularClasses (p : t) : list Class.t :=
  JS.newSet (filter (λ c, JS.has (autoloads p) c = false) (classes p)).

Definition findClass (p : t) (name : string) : option Class.t :=
  List.find (λ c, String.eqb (Identifier.toString (Class.name c)) name) (classes p).

Definition getTotalLOC (p : t) : nat :=
  foldl (λ total class_, total + Class.getTotalLOC class_) 0 (classes p).

Record Statistics := {
  totalClasses : nat;
  totalScenes : nat;
  stat_autoloads : nat;
  totalLOC : nat;
  averageLOCPeerClass : Q
}.

Definition getStatistics (p : t) : Statistics :=
  {| totalClasses := length (classes p);
     totalScenes := length (scenes p);
     stat_autoloads := length (autoloads p);
     totalLOC := getTotalLOC p;
     averageLOCPeerClass :=
       if (0 <? length (classes p))%nat
       then (JS.ofNat (getTotalLOC p) / JS.ofNat (length (classes p)))%Q else 0%Q |}.
End GDScriptProject.

(** ** Detector contract *)

Inductive Severity : Type := Low | Medium | High | Critical.
#[global] Instance Severity_eq_dec : EqDecision Severity.
Proof. solve_decision. Defined.

Module CodeSmellResult.
(** The location and details payloads are left out: no property below
    reads them. *)
Record t := {
  smellName : string;
  detected : bool;
  severity : option Severity
}.

Definition getSeverityLevel (r : t) : nat :=
  match severity r with
  | Some Low => 1 | Some Medium => 2 | Some High => 3 | Some Critical => 4
  | None => 0
  end.
Definition isDetected (r : t) : bool := detected r.
End CodeSmellResult.

Module Context.
(** The context object handed to [detect]: any property may be missing. *)
Record t := {
  method : option Method.t;
  ownerClass : option Class.t;
  class_ : option Class.t;
  project : option GDScriptProject.t;
  filePath : option string
}.
End Context.

Abbreviation thresholds_t := (gmap string JS.value).

Module LongMethodDetector.
Definition getName : string := "LongMethod".

Definition detect (context : Context.t) (thresholds : thresholds_t)
    : JS.completion (option CodeSmellResult.t) :=
  match Context.method context with
  | None => JS.Normal None
  | Some method =>
      let maxLines := JS.or (JS.get thresholds "maxLines") (JS.Num 50) in
      let maxComplexity := JS.or (JS.get thresholds "maxComplexity") (JS.Num 10) in
      let maxYields := JS.or (JS.get thresholds "maxYields") (JS.Num 7) in
      let loc := Method.loc method in
      let complexity := Method.cyclomaticComplexity method in
      let yieldCount := Method.getYieldCount method in
      let isDetected :=
        JS.gt (JS.Num (JS.ofNat loc)) maxLines ||
        JS.gt (JS.Num (JS.ofNat complexity)) maxComplexity ||
        JS.gt (JS.Num (JS.ofNat yieldCount)) maxYields in
      let severity :=
        if isDetected then
          Some (if (200 <? loc)%nat || (30 <? complexity)%nat then Critical
                else if (100 <? loc)%nat || (20 <? complexity)%nat then High
                else if (50 <? loc)%nat || (10 <? complexity)%nat then Medium
                else Low)
        else None in
      JS.Normal (Some {| CodeSmellResult.smellName := getName;
                         CodeSmellResult.detected := isDetected;
                         CodeSmellResult.severity := severity |})
  end.
End LongMethodDetector.

Module RefusedBequestDetector.
Definition getName : string := "RefusedBequest".

Record EmptyOverride := { eo_method : string; eo_loc : nat }.

Record Analysis := {
  usageRatio : Q;
  usedMethods : list string;
  totalParentMethods : nat;
  overriddenEmpty : list EmptyOverride
}.

(** The text of [`${subclass.parent}`]. *)
Definition parentText (subclass : Class.t) : string :=
  match Class.parent subclass with
  | Some p => Identifier.toString p
  | None => "null"
  end.

Definition isMethodUsedBySubclass (parentMethod : Method.t) (subclass : Class.t) : bool :=
  let pname := Identifier.toString (Method.name parentMethod) in
  existsb (λ method,
    existsb (λ call : string * string,
      let callee := call.2 in
      String.eqb callee (parentText subclass +:+ "." +:+ pname) ||
      String.eqb callee ("super." +:+ pname) ||
      String.eqb callee pname)
      (Method.calls method))
    (Class.methods subclass).

Definition isMethodOverridden (parentMethod : Method.t) (subclass : Class.t) : bool :=
  bool_decide (is_Some (Class.getMethod subclass
                          (Identifier.toString (Method.name parentMethod)))).

Definition isEmptyOverride (method : Method.t) : bool :=
  if (Method.loc method <=? 2)%nat then
    let content :=
      JS.trim (JS.toLowerCase (JS.join " " (map CodeLine.content (Method.lines method)))) in
    String.eqb content "" ||
    String.eqb content "pass" ||
    JS.includes content "super." ||
    JS.includes content "super(" ||
    JS.includes content ".call("
  else false.

(** The loop over the parent's methods, threading the two arrays it
    pushes to. *)
Fixpoint usageLoop (subclass : Class.t) (parentMethods : list Method.t)
    (usedMethods : list string) (overriddenEmpty : list EmptyOverride)
    : list string * list EmptyOverride :=
  match parentMethods with
  | [] => (usedMethods, overriddenEmpty)
  | parentMethod :: rest =>
      let pname := Identifier.toString (Method.name parentMethod) in
      let isUsed := isMethodUsedBySubclass parentMethod subclass in
      let isOverridden := isMethodOverridden parentMethod subclass in
      let usedMethods' := if isUsed then usedMethods ++ [pname] else usedMethods in
      let overriddenEmpty' :=
        if isOverridden then
          match Class.getMethod subclass pname with
          | Some overriddenMethod =>
              if isEmptyOverride overriddenMethod
              then overriddenEmpty ++
                   [{| eo_method := pname; eo_loc := Method.loc overriddenMethod |}]
              else overriddenEmpty
          | None => overriddenEmpty
          end
        else overriddenEmpty in
      usageLoop subclass rest usedMethods' overriddenEmpty'
  end.

Definition findParent (subclass : Class.t) (project : GDScriptProject.t) : option Class.t :=
  List.find (λ c, match Class.parent subclass with
                  | Some p => Identifier.equals (Class.name c) p
                  | None => false
                  end)
            (GDScriptProject.classes project).

Definition analyzeInheritanceUsage (subclass : Class.t) (project : GDScriptProject.t)
    : Analysis :=
  match findParent subclass project with
  | None =>
      {| usageRatio := 1.0; usedMethods := []; totalParentMethods := 0;
         overriddenEmpty := [] |}
  | Some parentClass =>
      let '(used, empty) := usageLoop subclass (Class.methods parentClass) [] [] in
      let size := length (Class.methods parentClass) in
      {| usageRatio := if (0 <? size)%nat
                       then (JS.ofNat (length used) / JS.ofNat size)%Q else 0%Q;
         usedMethods := used;
         totalParentMethods := size;
         overriddenEmpty := empty |}
  end.

Definition detect (context : Context.t) (thresholds : thresholds_t)
    : JS.completion (option CodeSmellResult.t) :=
  match Context.class_ context with
  | None => JS.Normal None
  | Some class_ =>
      match Class.parent class_ with
      | None => JS.Normal None
      | Some _ =>
          let usageRatioT := JS.or (JS.get thresholds "usageRatio") (JS.Num 0.3) in
          let overriddenEmptyT := JS.or (JS.get thresholds "overriddenEmpty") (JS.Num 0) in
          match Context.project context with
          | None => JS.Throw "Cannot read properties of undefined (reading 'classes')"
          | Some project =>
              let analysis := analyzeInheritanceUsage class_ project in
              let nEmpty := length (overriddenEmpty analysis) in
              let isDetected :=
                JS.lt (JS.Num (usageRatio analysis)) usageRatioT ||
                JS.gt (JS.Num (JS.ofNat nEmpty)) overriddenEmptyT in
              let severity :=
                if isDetected then
                  Some (if JS.Qlt_bool (usageRatio analysis) 0.2 || (5 <? nEmpty)%nat
                        then High
                        else if JS.Qlt_bool (usageRatio analysis) 0.3 || (3 <? nEmpty)%nat
                        then Medium
                        else Low)
                else None in
              JS.Normal (Some {| CodeSmellResult.smellName := getName;
                                 CodeSmellResult.detected := isDetected;
                                 CodeSmellResult.severity := severity |})
          end
      end
  end.
End RefusedBequestDetector.

Module CommentsDetector.
Definition getName : string := "Comments".

Record Analysis := {
  commentLines : nat;
  codeLines : nat;
  totalLines : nat;
  commentDensity : Q;
  commentRatio : Q
}.

Definition isCommentLine (content : string) : bool := JS.startsWith content "#".

(** The loop of [analyzeMethodComments], threading the two counters. *)
Fixpoint countLoop (ls : list CodeLine.t) (commentLines codeLines : nat) : nat * nat :=
  match ls with
  | [] => (commentLines, codeLines)
  | line :: rest =>
      let content := JS.trim (CodeLine.content line) in
      if String.eqb content "" then countLoop rest commentLines codeLines
      else if isCommentLine content then countLoop rest (S commentLines) codeLines
      else countLoop rest commentLines (S codeLines)
  end.

(** The two quotients are exact here and doubles in the code; they compare
    alike with the built-in 0.5 and 0.7, not with every configured value. *)
Definition summarize (commentLines codeLines : nat) : Analysis :=
  let totalLines := commentLines + codeLines in
  {| commentLines := commentLines;
     codeLines := codeLines;
     totalLines := totalLines;
     commentDensity := if (0 <? totalLines)%nat
                       then (JS.ofNat commentLines / JS.ofNat totalLines)%Q else 0%Q;
     commentRatio := if (0 <? codeLines)%nat
                     then (JS.ofNat commentLines / JS.ofNat codeLines)%Q else 0%Q |}.

Definition analyzeMethodComments (method : Method.t) : Analysis :=
  let '(commentLines, codeLines) := countLoop (Method.lines method) 0 0 in
  summarize commentLines codeLines.

Definition analyzeClassComments (class_ : Class.t) : Analysis :=
  let '(totalCommentLines, totalCodeLines) :=
    foldl (λ '(tc, td) method,
             let a := analyzeMethodComments method in
             (tc + commentLines a, td + codeLines a))
          (0, 0) (Class.methods class_) in
  summarize totalCommentLines totalCodeLines.

(** [context.method || context.class]: the target is a Method (it has
    [lines]) or a Class (it has none). *)
Inductive Target : Type :=
| OfMethod (method : Method.t)
| OfClass (class_ : Class.t).

Definition analyzeComments (target : Target) : Analysis :=
  match target with
  | OfMethod method => analyzeMethodComments method
  | OfClass class_ => analyzeClassComments class_
  end.

Definition detect (context : Context.t) (thresholds : thresholds_t)
    : JS.completion (option CodeSmellResult.t) :=
  let target :=
    match Context.method context with
    | Some method => Some (OfMethod method)
    | None => OfClass <$> Context.class_ context
    end in
  match target with
  | None => JS.Normal None
  | Some target =>
      let maxCommentDensity :=
        JS.or (JS.get thresholds "maxCommentDensity") (JS.Num 0.5) in
      let analysis := analyzeComments target in
      let isDetected :=
        JS.gt (JS.Num (commentDensity analysis)) maxCommentDensity &&
        (10 <? codeLines analysis)%nat in
      let severity :=
        if isDetected then
          Some (if JS.Qlt_bool 0.7 (commentDensity analysis) then Medium else Low)
        else None in
      JS.Normal (Some {| CodeSmellResult.smellName := getName;
                         CodeSmellResult.detected := isDetected;
                         CodeSmellResult.severity := severity |})
  end.
End CommentsDetector.

Module DuplicateCodeDetector.
Definition getName : string := "DuplicateCode".

Record Location := { loc_class : string; loc_method : string }.
Record Block := { location : Location; lines : list string }.
(** An entry of [duplicates], without the [content] preview of the blocks. *)
Record Duplicate := {
  block1 : Location; lines1 : nat;
  block2 : Location; lines2 : nat;
  similarity : Q
}.

Definition extractCodeBlocks (project : GDScriptProject.t) : list Block :=
  flat_map (λ class_,
    map (λ method,
           {| location := {| loc_class := Identifier.toString (Class.name class_);
                             loc_method := Identifier.toString (Method.name method) |};
              lines := map CodeLine.content (Method.lines method) |})
        (Class.methods class_))
    (GDScriptProject.classes project).

(** The loop over [set1], threading [matches]. *)
Fixpoint matchLoop (set1 set2 : list string) (matches : nat) : nat :=
  match set1 with
  | [] => matches
  | line :: rest =>
      matchLoop rest set2 (if JS.has set2 line then S matches else matches)
  end.

Definition countMatchingLines (lines1 lines2 : list string) : nat :=
  let set1 := JS.newSet (map JS.trim lines1) in
  let set2 := JS.newSet (map JS.trim lines2) in
  matchLoop set1 set2 0.

Definition calculateSimilarity (lines1 lines2 : list string) : Q :=
  if (length lines1 =? 0)%nat && (length lines2 =? 0)%nat then 1.0%Q
  else if (length lines1 =? 0)%nat || (length lines2 =? 0)%nat then 0.0%Q
  else
    let matchingLines := countMatchingLines lines1 lines2 in
    let maxLength := Nat.max (length lines1) (length lines2) in
    (JS.ofNat matchingLines / JS.ofNat maxLength)%Q.

(** [Math.round(x * 100) / 100], on the exact quotient; the code rounds the
    double product, which can fall on the other side of a half.  Only the
    [similarity] field of a reported pair holds this value. *)
Definition round2 (x : Q) : Q :=
  (inject_Z (Qfloor (x * 100 + 0.5)) / 100)%Q.

(** The body of the two nested loops for one pair of blocks: the entry
    pushed to [duplicates], if any. *)
Definition comparePair (minLines minSimilarity : JS.value) (b1 b2 : Block)
    : option Duplicate :=
  if JS.ge (JS.Num (JS.ofNat (length (lines b1)))) minLines &&
     JS.ge (JS.Num (JS.ofNat (length (lines b2)))) minLines
  then
    let sim := calculateSimilarity (lines b1) (lines b2) in
    if JS.ge (JS.Num sim) minSimilarity && JS.Qlt_bool 0 sim
    then Some {| block1 := location b1; lines1 := length (lines b1);
                 block2 := location b2; lines2 := length (lines b2);
                 similarity := round2 sim |}
    else None
  else None.

(** [for i ... for j = i + 1 ...] over the blocks. *)
Fixpoint pairLoop (minLines minSimilarity : JS.value) (codeBlocks : list Block)
    : list Duplicate :=
  match codeBlocks with
  | [] => []
  | b1 :: rest =>
      omap (comparePair minLines minSimilarity b1) rest ++
      pairLoop minLines minSimilarity rest
  end.

Definition findDuplicates (project : GDScriptProject.t)
    (minLines minSimilarity : JS.value) : list Duplicate :=
  pairLoop minLines minSimilarity (extractCodeBlocks project).

Definition detect (context : Context.t) (thresholds : thresholds_t)
    : JS.completion (option CodeSmellResult.t) :=
  match Context.project context with
  | None => JS.Normal None
  | Some project =>
      let threshold := JS.or (JS.get thresholds "similarityThreshold") (JS.Num 6) in
      let minLines := JS.or (JS.get thresholds "minLines") (JS.Num 5) in
      let minSimilarity := JS.or (JS.get thresholds "minSimilarity") (JS.Num 0.6) in
      let duplicates := findDuplicates project minLines minSimilarity in
      let n := length duplicates in
      let isDetected := (0 <? n)%nat in
      let severity :=
        if isDetected then
          Some (if (10 <? n)%nat then Critical
                else if (5 <? n)%nat then High
                else if (2 <? n)%nat then Medium
                else Low)
        else None in
      JS.Normal (Some {| CodeSmellResult.smellName := getName;
                         CodeSmellResult.detected := isDetected;
                         CodeSmellResult.severity := severity |})
  end.
End DuplicateCodeDetector.

Module GlobalStateDetector.
Definition getName : string := "GlobalState".

Record AutoloadDetail := {
  ad_name : string; fieldCount : nat; methodCount : nat; totalLOC : nat
}.
Record GodAutoload := {
  ga_name : string; ga_totalLOC : nat; ga_methodCount : nat; reason : string
}.
Record Analysis := {
  totalGlobalVars : nat;
  godAutoloads : list GodAutoload;
  autoloadDetails : list AutoloadDetail
}.

(** The loop over the autoloads, threading the two arrays it pushes to. *)
Fixpoint autoloadLoop (autoloads : list Class.t)
    (autoloadDetails : list AutoloadDetail) (godAutoloads : list GodAutoload)
    : list AutoloadDetail * list GodAutoload :=
  match autoloads with
  | [] => (autoloadDetails, godAutoloads)
  | autoload :: rest =>
      let fieldCount := length (Class.fields autoload) in
      let methodCount := length (Class.methods autoload) in
      let totalLOC := Class.getTotalLOC autoload in
      let name := Identifier.toString (Class.name autoload) in
      let autoloadDetails' :=
        autoloadDetails ++
        [{| ad_name := name; fieldCount := fieldCount;
            methodCount := methodCount; totalLOC := totalLOC |}] in
      let godAutoloads' :=
        if (400 <? totalLOC)%nat || (20 <? methodCount)%nat
        then godAutoloads ++
             [{| ga_name := name; ga_totalLOC := totalLOC; ga_methodCount := methodCount;
                 reason := if (400 <? totalLOC)%nat then "Too many lines of code"
                           else "Too many methods" |}]
        else godAutoloads in
      autoloadLoop rest autoloadDetails' godAutoloads'
  end.

Definition analyzeGlobalState (project : GDScriptProject.t) : Analysis :=
  let '(details, gods) := autoloadLoop (GDScriptProject.autoloads project) [] [] in
  {| totalGlobalVars := foldl (λ sum a, sum + fieldCount a) 0 details;
     godAutoloads := gods;
     autoloadDetails := details |}.

Definition detect (context : Context.t) (thresholds : thresholds_t)
    : JS.completion (option CodeSmellResult.t) :=
  match Context.project context with
  | None => JS.Normal None
  | Some project =>
      let maxAutoloads := JS.or (JS.get thresholds "maxAutoloads") (JS.Num 5) in
      let maxGlobalVars := JS.or (JS.get thresholds "maxGlobalVars") (JS.Num 20) in
      let analysis := analyzeGlobalState project in
      let size := length (GDScriptProject.autoloads project) in
      let nGods := length (godAutoloads analysis) in
      let isDetected :=
        JS.gt (JS.Num (JS.ofNat size)) maxAutoloads ||
        JS.gt (JS.Num (JS.ofNat (totalGlobalVars analysis))) maxGlobalVars ||
        (0 <? nGods)%nat in
      let severity :=
        if isDetected then
          Some (if (0 <? nGods)%nat then Critical
                else if (8 <? size)%nat || (40 <? totalGlobalVars analysis)%nat then High
                else if (5 <? size)%nat || (20 <? totalGlobalVars analysis)%nat then Medium
                else Low)
        else None in
      JS.Normal (Some {| CodeSmellResult.smellName := getName;
                         CodeSmellResult.detected := isDetected;
                         CodeSmellResult.severity := severity |})
  end.
End GlobalStateDetector.

Module DataClassDetector.
Definition getName : string := "DataClass".

Record Behavior := { bm_name : string; bm_loc : nat; bm_complexity : nat }.
Record Analysis := {
  behaviorMethods : list Behavior;
  publicFields : list string;
  isDataClass : bool
}.

Definition isAccessorMethod (method : Method.t) : bool :=
  let methodName := JS.toLowerCase (Identifier.toString (Method.name method)) in
  if JS.startsWith methodName "get_" || JS.startsWith methodName "set_" ||
     JS.startsWith methodName "is_" || JS.startsWith methodName "has_"
  then true
  else if (Method.loc method <=? 3)%nat then
    let content :=
      JS.toLowerCase (JS.join " " (map CodeLine.content (Method.lines method))) in
    if JS.includes content "return " && negb (JS.includes content "calculate") &&
       negb (JS.includes content "process")
    then true else false
  else false.

Definition analyzeDataClass (class_ : Class.t) : Analysis :=
  let publicFields := map Identifier.toString (Class.fields class_) in
  let behaviorMethods :=
    map (λ method, {| bm_name := Identifier.toString (Method.name method);
                      bm_loc := Method.loc method;
                      bm_complexity := Method.cyclomaticComplexity method |})
        (filter (λ method, isAccessorMethod method = false) (Class.methods class_)) in
  {| behaviorMethods := behaviorMethods;
     publicFields := publicFields;
     isDataClass := (length behaviorMethods =? 0)%nat &&
                    ((0 <? length publicFields)%nat ||
                     (3 <? length (Class.fields class_))%nat) |}.

Definition detect (context : Context.t) (thresholds : thresholds_t)
    : JS.completion (option CodeSmellResult.t) :=
  match Context.class_ context with
  | None => JS.Normal None
  | Some class_ =>
      let behaviorMethodsT := JS.or (JS.get thresholds "behaviorMethods") (JS.Num 0) in
      let publicFieldsT := JS.or (JS.get thresholds "publicFields") (JS.Num 0) in
      let analysis := analyzeDataClass class_ in
      let isDetected :=
        JS.strictEqNum (JS.ofNat (length (behaviorMethods analysis))) behaviorMethodsT &&
        (JS.gt (JS.Num (JS.ofNat (length (publicFields analysis)))) publicFieldsT ||
         (3 <? length (Class.fields class_))%nat) in
      let severity :=
        if isDetected then
          Some (if (5 <? length (publicFields analysis))%nat then Medium else Low)
        else None in
      JS.Normal (Some {| CodeSmellResult.smellName := getName;
                         CodeSmellResult.detected := isDetected;
                         CodeSmellResult.severity := severity |})
  end.
End DataClassDetector.

Module MiddleManDetector.
Definition getName : string := "MiddleMan".

Record Delegating := { dm_name : string; dm_loc : nat; dm_target : option string }.
Record Analysis := {
  delegationRatio : Q;
  delegatingMethods : list Delegating;
  delegationTargets : list (string * nat)
}.

(** With exactly one call, the loop returns at that call when its caller is
    not the class, and falls through otherwise. *)
Definition isDelegatingMethod (method : Method.t) (class_ : Class.t) : bool :=
  if (3 <? Method.loc method)%nat then false
  else if negb (length (Method.calls method) =? 1)%nat then false
  else existsb (λ call : string * string,
                  negb (String.eqb call.1 (Identifier.toString (Class.name class_))))
               (Method.calls method).

(** [callee.split('.')] has two parts or more exactly when [callee] holds a
    dot, and its first part is then the text before the first dot. *)
Fixpoint beforeDot (callee : string) : option string :=
  match callee with
  | EmptyString => None
  | String a rest =>
      if Ascii.eqb a "."%char then Some EmptyString
      else String a <$> beforeDot rest
  end.

Fixpoint getDelegationTargetLoop (calls : list (string * string)) : option string :=
  match calls with
  | [] => None
  | call :: rest =>
      match beforeDot call.2 with
      | Some target => Some target
      | None => getDelegationTargetLoop rest
      end
  end.
Definition getDelegationTarget (method : Method.t) : option string :=
  getDelegationTargetLoop (Method.calls method).

(** [map.set(target, (map.get(target) || 0) + 1)] on a Map kept as the list
    of its entries in insertion order. *)
Fixpoint bump (target : string) (entries : list (string * nat)) : list (string * nat) :=
  match entries with
  | [] => [(target, 1%nat)]
  | (k, n) :: rest =>
      if String.eqb k target then (k, S n) :: rest else (k, n) :: bump target rest
  end.

Fixpoint delegationLoop (class_ : Class.t) (methods : list Method.t)
    (delegatingMethods : list Delegating) (delegationTargets : list (string * nat))
    : list Delegating * list (string * nat) :=
  match methods with
  | [] => (delegatingMethods, delegationTargets)
  | method :: rest =>
      if isDelegatingMethod method class_ then
        let target := getDelegationTarget method in
        delegationLoop class_ rest
          (delegatingMethods ++
           [{| dm_name := Identifier.toString (Method.name method);
               dm_loc := Method.loc method; dm_target := target |}])
          (match target with
           | Some t => if String.eqb t "" then delegationTargets else bump t delegationTargets
           | None => delegationTargets
           end)
      else delegationLoop class_ rest delegatingMethods delegationTargets
  end.

Definition analyzeDelegation (class_ : Class.t) : Analysis :=
  let '(delegating, targets) := delegationLoop class_ (Class.methods class_) [] [] in
  {| delegationRatio :=
       if (0 <? length (Class.methods class_))%nat
       then (JS.ofNat (length delegating) / JS.ofNat (length (Class.methods class_)))%Q
       else 0%Q;
     delegatingMethods := delegating;
     delegationTargets := targets |}.

Definition detect (context : Context.t) (thresholds : thresholds_t)
    : JS.completion (option CodeSmellResult.t) :=
  match Context.class_ context with
  | None => JS.Normal None
  | Some class_ =>
      let maxDelegationRatio :=
        JS.or (JS.get thresholds "maxDelegationRatio") (JS.Num 0.5) in
      let analysis := analyzeDelegation class_ in
      let isDetected := JS.gt (JS.Num (delegationRatio analysis)) maxDelegationRatio in
      let severity :=
        if isDetected then
          Some (if JS.Qlt_bool 0.8 (delegationRatio analysis) then High
                else if JS.Qlt_bool 0.5 (delegationRatio analysis) then Medium
                else Low)
        else None in
      JS.Normal (Some {| CodeSmellResult.smellName := getName;
                         CodeSmellResult.detected := isDetected;
                         CodeSmellResult.severity := severity |})
  end.
End MiddleManDetector.

(** The threshold reads opening each detector's [detect], all of the shape
    [thresholds.key || builtin]: per detector name, the keys it reads and the
    built-in value of each. *)
Module DetectorThresholds.
Definition builtins : list (string * list (string * JS.value)) :=
  [ ("LongMethod", [("maxLines", JS.Num 50); ("maxComplexity", JS.Num 10);
                    ("maxYields", JS.Num 7)]);
    ("LargeClass", [("maxFields", JS.Num 15); ("maxMethods", JS.Num 20);
                    ("maxLOC", JS.Num 400); ("maxExports", JS.Num 10)]);
    ("DuplicateCode", [("similarityThreshold", JS.Num 6); ("minLines", JS.Num 5);
                       ("minSimilarity", JS.Num 0.6)]);
    ("LongParameterList", [("maxParams", JS.Num 4); ("maxRelatedParams", JS.Num 3)]);
    ("DivergentChange", [("maxReasons", JS.Num 3)]);
    ("ShotgunSurgery", [("maxClasses", JS.Num 3)]);
    ("FeatureEnvy", [("envyRatio", JS.Num 2.0)]);
    ("DataClumps", [("minClumpSize", JS.Num 3); ("minOccurrences", JS.Num 3)]);
    ("PrimitiveObsession", [("maxMagicNumbers", JS.Num 5); ("maxMagicStrings", JS.Num 5);
                            ("maxStringGetNodes", JS.Num 3); ("maxUntypedVars", JS.Num 3)]);
    ("SwitchStatements", [("maxSwitches", JS.Num 2); ("maxCases", JS.Num 5)]);
    ("LazyClass", [("minLOC", JS.Num 20); ("minMethods", JS.Num 2);
                   ("minResponsibilities", JS.Num 1)]);
    ("SpeculativeGenerality", [("unusedMethods", JS.Num 0); ("unusedParameters", JS.Num 0)]);
    ("TemporaryField", [("conditionalUsage", JS.Bool false); ("nullChecks", JS.Num 0)]);
    ("MessageChains", [("maxChainLength", JS.Num 3)]);
    ("MiddleMan", [("maxDelegationRatio", JS.Num 0.5)]);
    ("InappropriateIntimacy", [("bidirectionalDependency", JS.Bool false);
                               ("sharedIntimacy", JS.Num 0)]);
    ("DataClass", [("behaviorMethods", JS.Num 0); ("publicFields", JS.Num 0)]);
    ("RefusedBequest", [("usageRatio", JS.Num 0.3); ("overriddenEmpty", JS.Num 0)]);
    ("Comments", [("maxCommentDensity", JS.Num 0.5)]);
    ("GlobalState", [("maxAutoloads", JS.Num 5); ("maxGlobalVars", JS.Num 20)]) ].

(** [thresholds.key || builtin] *)
Definition read (thresholds : thresholds_t) (key : string) (builtin : JS.value) : JS.value :=
  JS.or (JS.get thresholds key) builtin.

Definition keysOf (detector : string) : list (string * JS.value) :=
  default [] (snd <$> List.find (λ e, String.eqb e.1 detector) builtins).

(** The values a detector works with, in the order it reads them. *)
Definition effective (detector : string) (thresholds : thresholds_t)
    : list (string * JS.value) :=
  map (λ kd, (kd.1, read thresholds kd.1 kd.2)) (keysOf detector).
End DetectorThresholds.

(** ** Configuration *)

Module AnalysisConfig.
(** The object handed to the constructor (the parsed YAML document):
    threshold keys at top level, an optional [enabledDetectors] array and an
    optional [output] object. *)
Record RawOutput := {
  raw_format : option string;
  raw_directory : option string;
  raw_includeDetails : JS.value;
  raw_groupBySeverity : JS.value
}.
Record Raw := {
  props : gmap string JS.value;
  raw_enabledDetectors : option (list string);
  raw_output : option RawOutput
}.

Record Output := {
  format : string;
  directory : string;
  includeDetails : bool;
  groupBySeverity : JS.value
}.
Record t := {
  thresholds : gmap string JS.value;
  enabledDetectors : list string;
  output : Output
}.

Definition thresholdDefaults : list (string * JS.value) :=
  [ ("maxLines", JS.Num 50); ("maxComplexity", JS.Num 10); ("maxYields", JS.Num 7);
    ("maxFields", JS.Num 15); ("maxMethods", JS.Num 20); ("maxLOC", JS.Num 400);
    ("maxExports", JS.Num 10);
    ("similarityThreshold", JS.Num 6); ("minLines", JS.Num 5);
    ("minSimilarity", JS.Num 0.6);
    ("maxParams", JS.Num 4); ("maxRelatedParams", JS.Num 3);
    ("maxReasons", JS.Num 3);
    ("maxClasses", JS.Num 3);
    ("envyRatio", JS.Num 2.0);
    ("minClumpSize", JS.Num 3); ("minOccurrences", JS.Num 3);
    ("maxMagicNumbers", JS.Num 5); ("maxMagicStrings", JS.Num 5);
    ("maxStringGetNodes", JS.Num 3); ("maxUntypedVars", JS.Num 3);
    ("maxSwitches", JS.Num 2); ("maxCases", JS.Num 5);
    ("minLOC", JS.Num 20); ("minMethods", JS.Num 2); ("minResponsibilities", JS.Num 1);
    ("unusedMethods", JS.Num 0); ("unusedParameters", JS.Num 0);
    ("conditionalUsage", JS.Bool false); ("nullChecks", JS.Num 0);
    ("maxChainLength", JS.Num 3);
    ("maxDelegationRatio", JS.Num 0.5);
    ("bidirectionalDependency", JS.Bool false); ("sharedIntimacy", JS.Num 0);
    ("behaviorMethods", JS.Num 0); ("publicFields", JS.Num 0);
    ("usageRatio", JS.Num 0.3); ("overriddenEmpty", JS.Num 0);
    ("maxCommentDensity", JS.Num 0.5);
    ("maxAutoloads", JS.Num 5); ("maxGlobalVars", JS.Num 20) ].

Definition allDetectors : list string :=
  [ "LongMethod"; "LargeClass"; "DuplicateCode"; "LongParameterList";
    "DivergentChange"; "ShotgunSurgery"; "FeatureEnvy"; "DataClumps";
    "PrimitiveObsession"; "SwitchStatements"; "LazyClass"; "SpeculativeGenerality";
    "TemporaryField"; "MessageChains"; "MiddleMan"; "InappropriateIntimacy";
    "DataClass"; "RefusedBequest"; "Comments"; "GlobalState" ].

(** [s || fallback] on an optional string: the empty string is falsy. *)
Definition strOr (s : option string) (fallback : string) : string :=
  match s with
  | Some v => if String.eqb v "" then fallback else v
  | None => fallback
  end.

(** The constructor: it reads, fills in defaults, and never throws. *)
Definition new (config : Raw) : JS.completion t :=
  JS.Normal
    {| thresholds :=
         list_to_map (map (λ kd, (kd.1, JS.or (JS.get (props config) kd.1) kd.2))
                          thresholdDefaults);
       enabledDetectors := default allDetectors (raw_enabledDetectors config);
       output :=
         {| format := strOr (raw_output config ≫= raw_format) "json";
            directory := strOr (raw_output config ≫= raw_directory) "./analysis-results";
            includeDetails :=
              match raw_includeDetails <$> raw_output config with
              | Some (JS.Bool false) => false
              | _ => true
              end;
            groupBySeverity :=
              JS.or (default JS.Undefined (raw_groupBySeverity <$> raw_output config))
                    (JS.Bool false) |} |}.

Definition fromYAML (yamlConfig : Raw) : JS.completion t := new yamlConfig.

Definition emptyRaw : Raw :=
  {| props := ∅; raw_enabledDetectors := None; raw_output := None |}.
Definition getDefaultConfig : JS.completion t := new emptyRaw.

Definition isDetectorEnabled (c : t) (detectorName : string) : bool :=
  existsb (String.eqb detectorName) (enabledDetectors c).

Definition detectorThresholds : list (string * list string) :=
  [ ("LongMethod", ["maxLines"; "maxComplexity"; "maxYields"]);
    ("LargeClass", ["maxFields"; "maxMethods"; "maxLOC"; "maxExports"]);
    ("DuplicateCode", ["similarityThreshold"; "minLines"; "minSimilarity"]);
    ("LongParameterList", ["maxParams"; "maxRelatedParams"]);
    ("DivergentChange", ["maxReasons"]);
    ("ShotgunSurgery", ["maxClasses"]);
    ("FeatureEnvy", ["envyRatio"]);
    ("DataClumps", ["minClumpSize"; "minOccurrences"]);
    ("PrimitiveObsession", ["maxMagicNumbers"; "maxMagicStrings"; "maxStringGetNodes";
                            "maxUntypedVars"]);
    ("SwitchStatements", ["maxSwitches"; "maxCases"]);
    ("LazyClass", ["minLOC"; "minMethods"; "minResponsibilities"]);
    ("SpeculativeGenerality", ["unusedMethods"; "unusedParameters"]);
    ("TemporaryField", ["conditionalUsage"; "nullChecks"]);
    ("MessageChains", ["maxChainLength"]);
    ("MiddleMan", ["maxDelegationRatio"]);
    ("InappropriateIntimacy", ["bidirectionalDependency"; "sharedIntimacy"]);
    ("DataClass", ["behaviorMethods"; "publicFields"]);
    ("RefusedBequest", ["usageRatio"; "overriddenEmpty"]);
    ("Comments", ["maxCommentDensity"]);
    ("GlobalState", ["maxAutoloads"; "maxGlobalVars"]) ].

Definition getDetectorThresholds (c : t) (detectorName : string) : thresholds_t :=
  let relevantThresholds :=
    default [] (snd <$> List.find (λ e, String.eqb e.1 detectorName) detectorThresholds) in
  foldl (λ result threshold, <[threshold := JS.get (thresholds c) threshold]> result)
        ∅ relevantThresholds.

(** [getThreshold]: the detector name is not used; a falsy value gives null,
    here [None]. *)
Definition getThreshold (c : t) (detectorName thresholdName : string) : option JS.value :=
  let v := JS.get (thresholds c) thresholdName in
  if JS.truthy v then Some v else None.
End AnalysisConfig.

(** ** Orchestrator *)

Module CodeSmellDetector.
(** A detector as the orchestrator sees it: a name and a [detect] that
    returns a result, returns null, or throws. *)
Record t := {
  getName : string;
  detect : Context.t → thresholds_t → JS.completion (option CodeSmellResult.t)
}.
End CodeSmellDetector.

Module AnalyzeProjectUseCase.
Import JS.

(** What a run of [analyzeProject] mutates: its [results] array and the
    console.  Both keep what was written before a throw. *)
Record State := { results : list CodeSmellResult.t; console : list string }.

Definition M (A : Type) : Type := State → completion A * State.

Definition ret {A} (a : A) : M A := λ s, (Normal a, s).
Definition bind {A B} (m : M A) (k : A → M B) : M B :=
  λ s, match m s with
       | (Normal a, s') => k a s'
       | (Throw e, s') => (Throw e, s')
       end.
Definition throw {A} (e : string) : M A := λ s, (Throw e, s).
Definition lift {A} (c : completion A) : M A := λ s, (c, s).
Definition tryCatch {A} (body : M A) (handler : string → M A) : M A :=
  λ s, match body s with
       | (Normal a, s') => (Normal a, s')
       | (Throw e, s') => handler e s'
       end.
Definition push (r : CodeSmellResult.t) : M unit :=
  λ s, (Normal tt, {| results := results s ++ [r]; console := console s |}).
Definition consoleError (line : string) : M unit :=
  λ s, (Normal tt, {| results := results s; console := console s ++ [line] |}).
Definition getResults : M (list CodeSmellResult.t) := λ s, (Normal (results s), s).

#[export] Instance M_ret : MRet M := @ret.
#[export] Instance M_bind : MBind M := λ A B k m, bind m k.

(** [for (const x of xs) body] *)
Fixpoint forEach {X} (xs : list X) (body : X → M unit) : M unit :=
  match xs with
  | [] => ret tt
  | x :: rest => body x ;; forEach rest body
  end.

Section Run.
Variable detectors : list CodeSmellDetector.t.
Variable config : AnalysisConfig.t.
Variable project : GDScriptProject.t.

(** The guarded body shared by the three scans: [what] is the text of
    the log line after the detector's name. *)
Definition runDetector (detector : CodeSmellDetector.t) (context : Context.t)
    (what : string) : M unit :=
  let name := CodeSmellDetector.getName detector in
  if AnalysisConfig.isDetectorEnabled config name then
    tryCatch
      (let thresholds := AnalysisConfig.getDetectorThresholds config name in
       result ← lift (CodeSmellDetector.detect detector context thresholds);
       match result with
       | Some r => push r
       | None => ret tt
       end)
      (λ message, consoleError ("Error in " +:+ name +:+ what +:+ ": " +:+ message))
  else ret tt.

Definition methodContext (class_ : Class.t) (method : Method.t) : Context.t :=
  {| Context.method := Some method; Context.ownerClass := Some class_;
     Context.class_ := None; Context.project := None;
     Context.filePath := Class.filePath class_ |}.

Definition classContext (class_ : Class.t) : Context.t :=
  {| Context.method := None; Context.ownerClass := None;
     Context.class_ := Some class_; Context.project := Some project;
     Context.filePath := Class.filePath class_ |}.

Definition projectContext : Context.t :=
  {| Context.method := None; Context.ownerClass := None;
     Context.class_ := None; Context.project := Some project;
     Context.filePath := None |}.

Definition scanMethods : M unit :=
  forEach (GDScriptProject.classes project) (λ class_,
    forEach (Class.methods class_) (λ method,
      forEach detectors (λ detector,
        runDetector detector (methodContext class_ method)
          (" for method " +:+ Identifier.toString (Method.name method))))).

Definition scanClasses : M unit :=
  forEach (GDScriptProject.classes project) (λ class_,
    forEach detectors (λ detector,
      runDetector detector (classContext class_)
        (" for class " +:+ Identifier.toString (Class.name class_)))).

Definition scanProject : M unit :=
  forEach detectors (λ detector,
    runDetector detector projectContext " for project").

Definition analyzeProjectM : M (list CodeSmellResult.t) :=
  tryCatch (scanMethods ;; scanClasses ;; scanProject)
           (λ message,
              consoleError ("Error in analyzeProject: " +:+ message) ;; throw message) ;;
  getResults.

(** [const results = []] and a console that already shows [log]. *)
Definition analyzeProject (log : list string)
    : completion (list CodeSmellResult.t) * State :=
  analyzeProjectM {| results := []; console := log |}.
End Run.

Definition countFiles (project : GDScriptProject.t) : nat :=
  length (GDScriptProject.classes project) + length (GDScriptProject.scenes project).

Definition countMethods (project : GDScriptProject.t) : nat :=
  foldl (λ total class_, total + length (Class.methods class_)) 0
        (GDScriptProject.classes project).
End AnalyzeProjectUseCase.

(** ** Result aggregation *)

Module AnalysisResult.
(** The metadata (time stamp, duration, counts handed in by the caller) is
    left out.  Smell names are the names of detectors, none of which is the
    name of a member of Object.prototype. *)
Record t := {
  project : GDScriptProject.t;
  results : list CodeSmellResult.t;
  config : option AnalysisConfig.t
}.

Definition getDetectedSmells (a : t) : list CodeSmellResult.t :=
  filter (λ result, CodeSmellResult.isDetected result = true) (results a).

Definition getSmellsBySeverity (a : t) (severity : Severity) : list CodeSmellResult.t :=
  filter (λ result, CodeSmellResult.severity result = Some severity) (results a).

(** [grouped[name].push(result)], creating the array at the first result of
    a name; the object is the list of its entries in insertion order. *)
Fixpoint pushTo (name : string) (result : CodeSmellResult.t)
    (grouped : list (string * list CodeSmellResult.t))
    : list (string * list CodeSmellResult.t) :=
  match grouped with
  | [] => [(name, [result])]
  | (k, rs) :: rest =>
      if String.eqb k name then (k, rs ++ [result]) :: rest
      else (k, rs) :: pushTo name result rest
  end.

Definition getSmellsByType (a : t) : list (string * list CodeSmellResult.t) :=
  foldl (λ grouped result, pushTo (CodeSmellResult.smellName result) result grouped)
        [] (results a).

Record BySeverity := { nCritical : nat; nHigh : nat; nMedium : nat; nLow : nat }.
Record Summary := {
  totalSmells : nat;
  bySeverity : BySeverity;
  byType : list (string * nat);
  projectStats : GDScriptProject.Statistics
}.

Definition getSummary (a : t) : Summary :=
  let detected := getDetectedSmells a in
  {| totalSmells := length detected;
     bySeverity :=
       {| nCritical := length (getSmellsBySeverity a Critical);
          nHigh := length (getSmellsBySeverity a High);
          nMedium := length (getSmellsBySeverity a Medium);
          nLow := length (getSmellsBySeverity a Low) |};
     byType :=
       map (λ entry : string * list CodeSmellResult.t,
              (entry.1,
               length (filter (λ r, CodeSmellResult.isDetected r = true) entry.2)))
           (getSmellsByType a);
     projectStats := GDScriptProject.getStatistics (project a) |}.

Definition from (project : GDScriptProject.t) (results : list CodeSmellResult.t)
    (config : option AnalysisConfig.t) : t :=
  {| project := project; results := results; config := config |}.
End AnalysisResult.

(** ** Vocabulary of the statements *)

(** A count [n] exceeds a threshold value: the value converts to a number
    that lies strictly below [n]. *)
Definition exceeds (n : nat) (limit : JS.value) : Prop :=
  ∃ q, JS.toNumber limit = Some q ∧ (q < JS.ofNat n)%Q.

(** A context that carries [method], whatever else it carries. *)
Definition contextOfMethod (method : Method.t) (owner class_ : option Class.t)
    (project : option GDScriptProject.t) (file : option string) : Context.t :=
  {| Context.method := Some method; Context.ownerClass := owner;
     Context.class_ := class_; Context.project := project; Context.filePath := file |}.

(** Sample lines and methods used to run the definitions. *)
Definition mkLine (text : string) : CodeLine.t := CodeLine.from text None.
Definition mkMethod (name : string) (texts : list string) : Method.t :=
  {| Method.name := {| Identifier.value := name |};
     Method.parameters := [];
     Method.lines := map mkLine texts;
     Method.calls := [];
     Method.accessedFields := [] |}.
Definition mkClass (ref : nat) (name : string) (methods : list Method.t)
    (parent : option string) (autoload : bool) : Class.t :=
  {| Class.ref := ref;
     Class.name := {| Identifier.value := name |};
     Class.fields := [];
     Class.methods := methods;
     Class.parent := (λ p, {| Identifier.value := p |}) <$> parent;
     Class.autoload := autoload;
     Class.exportedVars := [];
     Class.filePath := None |}.
Definition mkProject (classes autoloads : list Class.t) : GDScriptProject.t :=
  {| GDScriptProject.classes := classes; GDScriptProject.scenes := [];
     GDScriptProject.autoloads := autoloads; GDScriptProject.signals := [];
     GDScriptProject.name := None |}.

(** The contexts the orchestrator builds for a project and for a class. *)
Definition contextOfProject (project : GDScriptProject.t) : Context.t :=
  AnalyzeProjectUseCase.projectContext project.
Definition contextOfClass (class_ : Class.t) (project : GDScriptProject.t) : Context.t :=
  AnalyzeProjectUseCase.classContext project class_.

(** Two methods with the same six-line body in which two statements
    alternate. *)
Definition alternatingBody : list string :=
  ["count += 1"; "notify_changed()"; "count += 1";
   "notify_changed()"; "count += 1"; "notify_changed()"].
Definition alternatingProject : GDScriptProject.t :=
  mkProject [mkClass 0 "Counter" [mkMethod "bump" alternatingBody;
                                  mkMethod "bump_again" alternatingBody] None false] [].

(** Two methods with the same body of six distinct lines, and a third one
    that shares three of the six lines. *)
Definition distinctBody : list string :=
  ["var total = 0"; "total += base"; "total += bonus"; "total *= scale";
   "notify_scored()"; "return total"].
Definition halfSharedBody : list string :=
  ["var total = 0"; "total += base"; "total -= penalty"; "total /= scale";
   "print(total)"; "return total"].
Definition copiedProject : GDScriptProject.t :=
  mkProject [mkClass 0 "Score" [mkMethod "score_a" distinctBody;
                                mkMethod "score_b" distinctBody] None false] [].
Definition blockOf (method : string) (texts : list string) : DuplicateCodeDetector.Block :=
  {| DuplicateCodeDetector.location :=
       {| DuplicateCodeDetector.loc_class := "Score";
          DuplicateCodeDetector.loc_method := method |};
     DuplicateCodeDetector.lines := texts |}.

(** The trimmed lines two blocks have in common. *)
Definition sharedLines (b1 b2 : DuplicateCodeDetector.Block) : list string :=
  list_intersection (map JS.trim (DuplicateCodeDetector.lines b1))
                    (map JS.trim (DuplicateCodeDetector.lines b2)).

(** A parent with ten methods and a subclass whose only method calls two of
    them. *)
Definition baseClass : Class.t :=
  mkClass 0 "Base"
    (map (λ n, mkMethod n ["pass"])
         ["m0"; "m1"; "m2"; "m3"; "m4"; "m5"; "m6"; "m7"; "m8"; "m9"])
    None false.
Definition childClass : Class.t :=
  mkClass 1 "Child"
    [ {| Method.name := {| Identifier.value := "run" |};
         Method.parameters := [];
         Method.lines := map mkLine ["var a = m0()"; "var b = m1()"; "return a + b"];
         Method.calls := [("run", "super.m0"); ("run", "m1")];
         Method.accessedFields := [] |} ]
    (Some "Base") false.
Definition refusedProject : GDScriptProject.t := mkProject [baseClass; childClass] [].

(** The parent methods the subclass uses. *)
Definition usedParentMethods (subclass parentClass : Class.t) : list Method.t :=
  filter (λ pm, RefusedBequestDetector.isMethodUsedBySubclass pm subclass = true)
         (Class.methods parentClass).

(** No method of the parent has an empty override in the subclass. *)
Definition noEmptyOverride (subclass parentClass : Class.t) : Prop :=
  Forall (λ pm, ∀ om,
            Class.getMethod subclass (Identifier.toString (Method.name pm)) = Some om →
            RefusedBequestDetector.isEmptyOverride om = false)
         (Class.methods parentClass).

(** The lines the Comments detector looks at: those of the method, or those
    of all the methods of the class. *)
Definition targetLines (target : CommentsDetector.Target) : list CodeLine.t :=
  match target with
  | CommentsDetector.OfMethod method => Method.lines method
  | CommentsDetector.OfClass class_ => flat_map Method.lines (Class.methods class_)
  end.

Definition isBlank (l : CodeLine.t) : Prop := JS.trim (CodeLine.content l) = "".
Definition isHashLine (l : CodeLine.t) : Prop :=
  JS.startsWith (JS.trim (CodeLine.content l)) "#" = true.

(** Comment lines, code lines and non-blank lines of a line sequence. *)
Definition commentCount (ls : list CodeLine.t) : nat :=
  length (filter (λ l, ¬ isBlank l ∧ isHashLine l) ls).
Definition codeCount (ls : list CodeLine.t) : nat :=
  length (filter (λ l, ¬ isBlank l ∧ ¬ isHashLine l) ls).
Definition nonBlankCount (ls : list CodeLine.t) : nat :=
  length (filter (λ l, ¬ isBlank l) ls).

(** commentLines / (commentLines + codeLines) *)
Definition densityOf (ls : list CodeLine.t) : Q :=
  (JS.ofNat (commentCount ls) / JS.ofNat (commentCount ls + codeCount ls))%Q.

(** A context the Comments detector takes [target] from. *)
Definition contextOfTarget (target : CommentsDetector.Target) (owner other : option Class.t)
    (project : option GDScriptProject.t) (file : option string) : Context.t :=
  match target with
  | CommentsDetector.OfMethod method =>
      {| Context.method := Some method; Context.ownerClass := owner;
         Context.class_ := other; Context.project := project; Context.filePath := file |}
  | CommentsDetector.OfClass class_ =>
      {| Context.method := None; Context.ownerClass := owner;
         Context.class_ := Some class_; Context.project := project;
         Context.filePath := file |}
  end.

(** Eight comment lines over four lines of code. *)
Definition commentedMethod : Method.t :=
  mkMethod "heal"
    ["# restore health"; "# amount is clamped"; "# to the maximum"; "# of the unit";
     "# see balance sheet"; "# do not call twice"; "# per frame"; "# returns new value";
     "health += amount"; "health = min(health, max_health)"; "notify_changed()";
     "return health"].

(** The entry pushed to [autoloadDetails] for an autoload. *)
Definition detailOf (autoload : Class.t) : GlobalStateDetector.AutoloadDetail :=
  {| GlobalStateDetector.ad_name := Identifier.toString (Class.name autoload);
     GlobalStateDetector.fieldCount := length (Class.fields autoload);
     GlobalStateDetector.methodCount := length (Class.methods autoload);
     GlobalStateDetector.totalLOC := Class.getTotalLOC autoload |}.

(** A god autoload: more than 400 lines of code or more than 20 methods. *)
Definition isGodAutoload (autoload : Class.t) : Prop :=
  (400 < Class.getTotalLOC autoload)%nat ∨ (20 < length (Class.methods autoload))%nat.

(** The fields of all the autoloads together. *)
Definition aggregateFieldCount (autoloads : list Class.t) : nat :=
  sum_list (map (λ a, length (Class.fields a)) autoloads).

(** Six small autoloads, and one autoload with 25 methods. *)
Definition smallAutoload (ref : nat) (name : string) : Class.t :=
  {| Class.ref := ref;
     Class.name := {| Identifier.value := name |};
     Class.fields := [ {| Identifier.value := "state" |}; {| Identifier.value := "dirty" |} ];
     Class.methods := [mkMethod "reset" ["state = null"; "dirty = false"]];
     Class.parent := None;
     Class.autoload := true;
     Class.exportedVars := [];
     Class.filePath := None |}.
Definition sixAutoloads : list Class.t :=
  [ smallAutoload 0 "Audio"; smallAutoload 1 "Save"; smallAutoload 2 "Input";
    smallAutoload 3 "Events"; smallAutoload 4 "Settings"; smallAutoload 5 "Scenes" ].
Definition sixAutoloadProject : GDScriptProject.t := mkProject sixAutoloads sixAutoloads.
Definition godAutoload : Class.t :=
  mkClass 7 "Game" (map (λ n, mkMethod n ["pass"]) (replicate 25 "step")) None true.
Definition godProject : GDScriptProject.t := mkProject [godAutoload] [godAutoload].

(** An autoload that breaks the invariant of the project: it is not one of
    the classes, or its autoload flag is off. *)
Definition badAutoload (classes : list Class.t) (autoload : Class.t) : Prop :=
  autoload ∉ classes ∨ Class.autoload autoload = false.

(** Sample classes for the constructor: a flagged autoload, an unflagged
    class, and a flagged one that is left out of the classes. *)
Definition audioClass : Class.t := smallAutoload 0 "Audio".
Definition playerClass : Class.t := mkClass 1 "Player" [] None false.
Definition strayClass : Class.t := smallAutoload 2 "Stray".

(** *** Vocabulary for the orchestrator *)

(** One detector invocation of a run: the detector, the context it is given
    and the scope text of its log line. *)
Record Invocation := {
  inv_detector : CodeSmellDetector.t;
  inv_context : Context.t;
  inv_what : string
}.

(** The invocations of a run in the order they are made: per class and
    method every detector, then per class every detector, then every detector
    once on the project. *)
Definition invocations (detectors : list CodeSmellDetector.t)
    (project : GDScriptProject.t) : list Invocation :=
  flat_map (λ class_,
    flat_map (λ method,
      map (λ d, {| inv_detector := d;
                   inv_context := AnalyzeProjectUseCase.methodContext class_ method;
                   inv_what := " for method " +:+ Identifier.toString (Method.name method) |})
          detectors)
      (Class.methods class_))
    (GDScriptProject.classes project) ++
  flat_map (λ class_,
    map (λ d, {| inv_detector := d;
                 inv_context := AnalyzeProjectUseCase.classContext project class_;
                 inv_what := " for class " +:+ Identifier.toString (Class.name class_) |})
        detectors)
    (GDScriptProject.classes project) ++
  map (λ d, {| inv_detector := d;
               inv_context := AnalyzeProjectUseCase.projectContext project;
               inv_what := " for project" |})
      detectors.

Definition enabled (config : AnalysisConfig.t) (i : Invocation) : bool :=
  AnalysisConfig.isDetectorEnabled config (CodeSmellDetector.getName (inv_detector i)).

(** What the detector does in an invocation, taken by itself. *)
Definition outcome (config : AnalysisConfig.t) (i : Invocation)
    : JS.completion (option CodeSmellResult.t) :=
  CodeSmellDetector.detect (inv_detector i) (inv_context i)
    (AnalysisConfig.getDetectorThresholds config (CodeSmellDetector.getName (inv_detector i))).

(** What an invocation adds to the results: its result when the detector is
    enabled and returns one, nothing when it returns null or throws. *)
Definition contribution (config : AnalysisConfig.t) (i : Invocation)
    : list CodeSmellResult.t :=
  if enabled config i then
    match outcome config i with
    | JS.Normal (Some r) => [r]
    | JS.Normal None => []
    | JS.Throw _ => []
    end
  else [].

(** What an invocation adds to the console: a line when it throws. *)
Definition logged (config : AnalysisConfig.t) (i : Invocation) : list string :=
  if enabled config i then
    match outcome config i with
    | JS.Normal _ => []
    | JS.Throw message =>
        ["Error in " +:+ CodeSmellDetector.getName (inv_detector i) +:+ inv_what i
         +:+ ": " +:+ message]
    end
  else [].

(** A state with more results and more console lines. *)
Definition appended (rs : list CodeSmellResult.t) (ls : list string)
    (s : AnalyzeProjectUseCase.State) : AnalyzeProjectUseCase.State :=
  {| AnalyzeProjectUseCase.results := AnalyzeProjectUseCase.results s ++ rs;
     AnalyzeProjectUseCase.console := AnalyzeProjectUseCase.console s ++ ls |}.

(** A loop body that returns normally and only appends. *)
Definition emits {X} (body : X → AnalyzeProjectUseCase.M unit)
    (rs : X → list CodeSmellResult.t) (ls : X → list string) : Prop :=
  ∀ x s, body x s = (JS.Normal tt, appended (rs x) (ls x) s).

(** Detectors to run the orchestrator on: three of the catalog, and a
    subclass that names itself but inherits the base [detect], which throws. *)
Definition longMethod : CodeSmellDetector.t :=
  {| CodeSmellDetector.getName := LongMethodDetector.getName;
     CodeSmellDetector.detect := LongMethodDetector.detect |}.
Definition refusedBequest : CodeSmellDetector.t :=
  {| CodeSmellDetector.getName := RefusedBequestDetector.getName;
     CodeSmellDetector.detect := RefusedBequestDetector.detect |}.
Definition globalState : CodeSmellDetector.t :=
  {| CodeSmellDetector.getName := GlobalStateDetector.getName;
     CodeSmellDetector.detect := GlobalStateDetector.detect |}.
Definition unimplemented : CodeSmellDetector.t :=
  {| CodeSmellDetector.getName := "LargeClass";
     CodeSmellDetector.detect := λ _ _,
       JS.Throw "CodeSmellDetector.detect() must be implemented by subclass" |}.

(** The configuration built from an object, for one that is accepted. *)
Definition configOf (raw : AnalysisConfig.Raw) : AnalysisConfig.t :=
  match AnalysisConfig.new raw with
  | JS.Normal c => c
  | JS.Throw _ =>
      {| AnalysisConfig.thresholds := ∅; AnalysisConfig.enabledDetectors := [];
         AnalysisConfig.output :=
           {| AnalysisConfig.format := ""; AnalysisConfig.directory := "";
              AnalysisConfig.includeDetails := false;
              AnalysisConfig.groupBySeverity := JS.Undefined |} |}
  end.
Definition defaultConfig : AnalysisConfig.t := configOf AnalysisConfig.emptyRaw.

(** A project of one class with one short method. *)
Definition tinyProject : GDScriptProject.t :=
  mkProject [mkClass 0 "Player" [mkMethod "jump" ["velocity.y = -speed"; "play_sound()"]]
                     None false] [].

(** A configuration document that enables a detector that does not exist. *)
Definition unknownDetectorRaw : AnalysisConfig.Raw :=
  {| AnalysisConfig.props := ∅;
     AnalysisConfig.raw_enabledDetectors := Some ["LongMethod"; "NoSuchDetector"];
     AnalysisConfig.raw_output := None |}.

(** A falsy threshold value as a configuration can hold it: 0 or false. *)
Definition zeroOrFalse (v : JS.value) : Prop := v = JS.Num 0 ∨ v = JS.Bool false.

(** A simple method of ten lines. *)
Definition tenLineMethod : Method.t :=
  mkMethod "setup"
    ["var a = 1"; "var b = 2"; "var c = 3"; "var d = 4"; "var e = 5";
     "var g = 6"; "var h = 7"; "var i = 8"; "var j = 9"; "return a"].

(** *** Vocabulary for the further properties *)

(** A string made of white space only (the empty string included). *)
Fixpoint allSpaces (s : string) : bool :=
  match s with
  | EmptyString => true
  | String a rest => Ascii.is_space a && allSpaces rest
  end.

(** A string that does not begin with white space. *)
Definition headOK (s : string) : Prop :=
  match s with
  | EmptyString => True
  | String a _ => Ascii.is_space a = false
  end.

(** The other modelled detectors as the orchestrator sees them, and the
    seven together in catalog order. *)
Definition duplicateCode : CodeSmellDetector.t :=
  {| CodeSmellDetector.getName := DuplicateCodeDetector.getName;
     CodeSmellDetector.detect := DuplicateCodeDetector.detect |}.
Definition comments : CodeSmellDetector.t :=
  {| CodeSmellDetector.getName := CommentsDetector.getName;
     CodeSmellDetector.detect := CommentsDetector.detect |}.
Definition dataClass : CodeSmellDetector.t :=
  {| CodeSmellDetector.getName := DataClassDetector.getName;
     CodeSmellDetector.detect := DataClassDetector.detect |}.
Definition middleMan : CodeSmellDetector.t :=
  {| CodeSmellDetector.getName := MiddleManDetector.getName;
     CodeSmellDetector.detect := MiddleManDetector.detect |}.
Definition modelledDetectors : list CodeSmellDetector.t :=
  [longMethod; duplicateCode; middleMan; dataClass; refusedBequest; comments; globalState].

(** A result as the detectors build it: named after the detector, with a
    severity exactly when flagged. *)
Definition wellFormed (name : string) (r : CodeSmellResult.t) : Prop :=
  CodeSmellResult.smellName r = name ∧
  (CodeSmellResult.severity r = None ↔ CodeSmellResult.detected r = false).

(** A short method that awaits, and a longer, branching one. *)
Definition awaitingMethod : Method.t :=
  mkMethod "fade" ["await tween.finished"; "hide()"].
Definition branchingMethod : Method.t :=
  mkMethod "update"
    ["if dead:"; "return"; "for e in enemies:"; "if e.near(self) and e.hostile:";
     "await e.attack()"; "while stunned:"; "await wait()"; "move()"].

(** A class that extends an engine class, which is no class of the project,
    and a class that extends an empty class of the project. *)
Definition nodeChild : Class.t :=
  mkClass 3 "Enemy" [mkMethod "hit" ["hp -= 1"]] (Some "Node2D") false.
Definition emptyBase : Class.t := mkClass 4 "Marker" [] None false.
Definition markerChild : Class.t :=
  mkClass 5 "Flag" [mkMethod "raise" ["up = true"]] (Some "Marker") false.
Definition markerProject : GDScriptProject.t :=
  mkProject [emptyBase; markerChild; nodeChild] [].

(** Twelve comment lines over eleven lines of code. *)
Definition overCommentedMethod : Method.t :=
  mkMethod "tick"
    ["# 1"; "# 2"; "# 3"; "# 4"; "# 5"; "# 6"; "# 7"; "# 8"; "# 9"; "# 10"; "# 11"; "# 12";
     "a = 1"; "b = 2"; "c = 3"; "d = 4"; "e = 5"; "f = 6"; "g = 7"; "h = 8"; "i = 9";
     "j = 10"; "k = 11"].

(** The methods of a class that MiddleMan counts as delegating. *)
Definition delegatingOf (class_ : Class.t) : list Method.t :=
  filter (λ m, MiddleManDetector.isDelegatingMethod m class_ = true) (Class.methods class_).

(** A class of three fields and two accessors, and a class whose three
    methods each pass one call on to another class. *)
Definition statsClass : Class.t :=
  {| Class.ref := 8;
     Class.name := {| Identifier.value := "Stats" |};
     Class.fields := [ {| Identifier.value := "hp" |}; {| Identifier.value := "mp" |};
                       {| Identifier.value := "xp" |} ];
     Class.methods := [mkMethod "get_hp" ["return hp"]; mkMethod "set_hp" ["hp = value"]];
     Class.parent := None;
     Class.autoload := false;
     Class.exportedVars := [];
     Class.filePath := None |}.
Definition forwarding (name target : string) : Method.t :=
  {| Method.name := {| Identifier.value := name |};
     Method.parameters := [];
     Method.lines := [mkLine "return target.call()"];
     Method.calls := [("Audio", target)];
     Method.accessedFields := [] |}.
Definition facadeClass : Class.t :=
  mkClass 9 "Facade"
    [forwarding "play" "Audio.play"; forwarding "stop" "Audio.stop";
     forwarding "save" "Save.write"] None false.

(** A configuration document that sets one threshold to zero and another
    to a value of its own. *)
Definition overridingRaw : AnalysisConfig.Raw :=
  {| AnalysisConfig.props := <["maxLines" := JS.Num 0]> {["maxAutoloads" := JS.Num 3]};
     AnalysisConfig.raw_enabledDetectors := None;
     AnalysisConfig.raw_output := None |}.

(** [grouped[name]] on the object that [getSmellsByType] returns, and a
    list read as a property that is missing when the list is empty. *)
Definition groupOf (name : string) (grouped : list (string * list CodeSmellResult.t))
    : option (list CodeSmellResult.t) :=
  snd <$> List.find (λ entry : string * list CodeSmellResult.t, String.eqb entry.1 name)
                    grouped.
Definition nonEmpty {A} (l : list A) : option (list A) :=
  match l with [] => None | _ => Some l end.

(** Results of three detectors, two of them flagged. *)
Definition mixedResults : list CodeSmellResult.t :=
  [ {| CodeSmellResult.smellName := "LongMethod"; CodeSmellResult.detected := true;
       CodeSmellResult.severity := Some High |};
    {| CodeSmellResult.smellName := "Comments"; CodeSmellResult.detected := false;
       CodeSmellResult.severity := None |};
    {| CodeSmellResult.smellName := "LongMethod"; CodeSmellResult.detected := false;
       CodeSmellResult.severity := None |};
    {| CodeSmellResult.smellName := "GlobalState"; CodeSmellResult.detected := true;
       CodeSmellResult.severity := Some Critical |} ].

(** A text of ASCII characters only: on such a text the white space of
    [trim] is the white space of the embedding. *)
Fixpoint asciiText (s : string) : bool :=
  match s with
  | EmptyString => true
  | String a s' => (Ascii.nat_of_ascii a <? 128)%nat && asciiText s'
  end.

(** Results named after detectors of the catalog: no name is the name of a
    member of Object.prototype or an array index. *)
Definition catalogResults (rs : list CodeSmellResult.t) : Prop :=
  Forall (λ r, CodeSmellResult.smellName r ∈ AnalysisConfig.allDetectors) rs.

(** The index pairs (i, j) with i < j < n, in the order in which the two
    nested loops of findDuplicates visit them. *)
Definition indexPairs (n : nat) : list (nat * nat) :=
  flat_map (λ i, map (λ j, (i, j)) (seq (S i) (n - S i))) (seq 0 n).

(** * Properties *)

(** ** Facts about the JavaScript primitives *)

Section JSFacts.
Import JS.

Lemma Qlt_bool_iff (x y : Q) : Qlt_bool x y = true ↔ (x < y)%Q.
Proof.
  unfold Qlt_bool. rewrite negb_true_iff. split.
  - intros H. apply Qnot_le_lt. intros Hle.
    apply Qle_bool_iff in Hle. congruence.
  - intros H. destruct (Qle_bool y x) eqn:E; [|done].
    apply Qle_bool_iff in E. by apply Qlt_not_le in H.
Qed.

Lemma Qlt_bool_false_iff (x y : Q) : Qlt_bool x y = false ↔ (y <= x)%Q.
Proof.
  unfold Qlt_bool. rewrite negb_false_iff. apply Qle_bool_iff.
Qed.

Lemma ofNat_lt (a b : nat) : (ofNat a < ofNat b)%Q ↔ (a < b)%nat.
Proof. unfold ofNat. rewrite <- Zlt_Qlt. lia. Qed.

Lemma ofNat_le (a b : nat) : (ofNat a <= ofNat b)%Q ↔ (a <= b)%nat.
Proof. unfold ofNat. rewrite <- Zle_Qle. lia. Qed.

(** [n > limit] holds exactly when [limit] converts to a number below [n]. *)
Lemma gt_Num_iff (x : Q) (limit : value) :
  gt (Num x) limit = true ↔ ∃ q, toNumber limit = Some q ∧ (q < x)%Q.
Proof.
  unfold gt, lt. simpl. destruct (toNumber limit) as [q|].
  - rewrite Qlt_bool_iff. split; [eauto|]. by intros (? & [= <-] & ?).
  - split; [done|]. by intros (? & ? & ?).
Qed.

Lemma lt_Num_iff (x : Q) (limit : value) :
  lt (Num x) limit = true ↔ ∃ q, toNumber limit = Some q ∧ (x < q)%Q.
Proof.
  unfold lt. simpl. destruct (toNumber limit) as [q|].
  - rewrite Qlt_bool_iff. split; [eauto|]. by intros (? & [= <-] & ?).
  - split; [done|]. by intros (? & ? & ?).
Qed.

(** A falsy left operand of [||] gives the right one. *)
Lemma or_falsy (v d : value) : truthy v = false → or v d = d.
Proof. unfold or. by intros ->. Qed.

Lemma or_truthy (v d : value) : truthy v = true → or v d = v.
Proof. unfold or. by intros ->. Qed.

Lemma get_insert_eq (o : gmap string value) k v : get (<[k:=v]> o) k = v.
Proof. unfold get. by rewrite lookup_insert_eq. Qed.

Lemma get_delete_eq (o : gmap string value) k : get (delete k o) k = Undefined.
Proof. unfold get. by rewrite lookup_delete_eq. Qed.

Lemma get_insert_ne (o : gmap string value) k k' v :
  k ≠ k' → get (<[k:=v]> o) k' = get o k'.
Proof. intros. unfold get. by rewrite lookup_insert_ne. Qed.

Lemma get_delete_ne (o : gmap string value) k k' :
  k ≠ k' → get (delete k o) k' = get o k'.
Proof. intros. unfold get. by rewrite lookup_delete_ne. Qed.

Section Sets.
Context {A : Type} `{EqDecision A}.
Implicit Types (l acc s : list A) (x : A).

Lemma has_true s x : has s x = true ↔ x ∈ s.
Proof. unfold has. apply bool_decide_eq_true. Qed.

Lemma has_false s x : has s x = false ↔ x ∉ s.
Proof. unfold has. apply bool_decide_eq_false. Qed.

Lemma elem_of_addAll l : ∀ acc x, x ∈ addAll acc l ↔ x ∈ acc ∨ x ∈ l.
Proof.
  induction l as [|y l IH]; intros acc x; simpl.
  - rewrite elem_of_nil. tauto.
  - rewrite IH, elem_of_cons. destruct (has acc y) eqn:E.
    + apply has_true in E. intuition (subst; auto).
    + rewrite elem_of_app, list_elem_of_singleton. tauto.
Qed.

Lemma NoDup_addAll l : ∀ acc, NoDup acc → NoDup (addAll acc l).
Proof.
  induction l as [|y l IH]; intros acc Hacc; simpl; [done|].
  apply IH. destruct (has acc y) eqn:E; [done|].
  apply has_false in E. apply NoDup_app. split_and!; [done| |apply NoDup_singleton].
  intros z Hz ->%list_elem_of_singleton. done.
Qed.

Lemma elem_of_newSet l x : x ∈ newSet l ↔ x ∈ l.
Proof. unfold newSet. rewrite elem_of_addAll, elem_of_nil. tauto. Qed.

Lemma NoDup_newSet l : NoDup (newSet l).
Proof. apply NoDup_addAll, NoDup_nil_2. Qed.

Lemma has_newSet l x : has (newSet l) x = has l x.
Proof. unfold has. apply bool_decide_ext, elem_of_newSet. Qed.

(** Building a set from distinct values keeps them all, in order. *)
Lemma addAll_NoDup l : ∀ acc, NoDup (acc ++ l) → addAll acc l = acc ++ l.
Proof.
  induction l as [|y l IH]; intros acc Hnd; simpl.
  - by rewrite app_nil_r.
  - assert (has acc y = false) as ->.
    { apply has_false. apply NoDup_app in Hnd as (_ & Hd & _).
      intros Hy. apply (Hd y Hy). left. }
    rewrite IH; rewrite <- app_assoc; done.
Qed.

Lemma newSet_NoDup l : NoDup l → newSet l = l.
Proof. intros. unfold newSet. by rewrite addAll_NoDup. Qed.
End Sets.
End JSFacts.

Example trim_example : JS.trim "  return x  " = "return x".
Proof. reflexivity. Qed.

Example includes_example :
  JS.includes "if x and y:" "and" = true ∧ JS.includes "pass" "if" = false.
Proof. split; reflexivity. Qed.

Example newSet_example : JS.newSet ["a"; "b"; "a"; "c"; "b"] = ["a"; "b"; "c"].
Proof. reflexivity. Qed.

(** ** LongMethod *)

Lemma hitsKeyword_existsb (l : CodeLine.t) (kws : list string) :
  Method.hitsKeyword l kws = existsb (CodeLine.contains l) kws.
Proof.
  induction kws as [|kw kws IH]; simpl; [done|].
  rewrite IH. by destruct (CodeLine.contains l kw).
Qed.

(** The complexity loop adds one per line holding a decision keyword. *)
Lemma complexityLoop_count (ls : list CodeLine.t) (c : nat) :
  Method.complexityLoop c ls =
  c + length (filter (λ l, Method.hitsKeyword l Method.decisionKeywords = true) ls).
Proof.
  revert c. induction ls as [|l ls IH]; intros c.
  - simpl. lia.
  - cbn [Method.complexityLoop]. rewrite IH, filter_cons.
    destruct (Method.hitsKeyword l Method.decisionKeywords) eqn:E.
    + rewrite decide_True by done. cbn [length]. lia.
    + rewrite decide_False by done. done.
Qed.

Lemma cyclomaticComplexity_count (m : Method.t) :
  Method.cyclomaticComplexity m =
  1 + length (filter (λ l, existsb (CodeLine.contains l) Method.decisionKeywords = true)
                     (Method.lines m)).
Proof.
  unfold Method.cyclomaticComplexity, Method.calculateCyclomaticComplexity.
  rewrite complexityLoop_count. do 2 f_equal.
Qed.

Example complexity_once_per_line :
  Method.cyclomaticComplexity
    (mkMethod "f" ["if a and b or c:"; "x = 1"; "for i in items:"; "return x"]) = 3.
Proof. reflexivity. Qed.

(** C1. For every method and every threshold mapping, LongMethod returns a
    result, and the result is flagged exactly when the lines of code exceed
    the effective maxLines, or the cyclomatic complexity exceeds the effective
    maxComplexity, or the yield/await count exceeds the effective maxYields. *)
Theorem LongMethod_detected_iff (method : Method.t) (owner class_ : option Class.t)
    (project : option GDScriptProject.t) (file : option string)
    (thresholds : thresholds_t) :
  ∃ r, LongMethodDetector.detect (contextOfMethod method owner class_ project file)
         thresholds = JS.Normal (Some r) ∧
       (CodeSmellResult.detected r = true ↔
          exceeds (Method.loc method)
                  (DetectorThresholds.read thresholds "maxLines" (JS.Num 50)) ∨
          exceeds (Method.cyclomaticComplexity method)
                  (DetectorThresholds.read thresholds "maxComplexity" (JS.Num 10)) ∨
          exceeds (Method.getYieldCount method)
                  (DetectorThresholds.read thresholds "maxYields" (JS.Num 7))).
Proof.
  unfold LongMethodDetector.detect, contextOfMethod. simpl.
  eexists. split; [reflexivity|]. simpl.
  unfold exceeds, DetectorThresholds.read.
  rewrite !orb_true_iff, !gt_Num_iff. tauto.
Qed.

(** ** Block similarity *)

Section Similarity.
Import DuplicateCodeDetector.

Lemma matchLoop_count (set1 set2 : list string) (n : nat) :
  matchLoop set1 set2 n = n + length (filter (λ x, x ∈ set2) set1).
Proof.
  revert n. induction set1 as [|x set1 IH]; intros n.
  - simpl. lia.
  - cbn [matchLoop]. rewrite IH, filter_cons. destruct (JS.has set2 x) eqn:E.
    + apply has_true in E. rewrite decide_True by done. cbn [length]. lia.
    + apply has_false in E. rewrite decide_False by done. done.
Qed.

(** Two duplicate-free lists have as many members of the first in the
    second as members of the second in the first. *)
Lemma common_length (s1 s2 : list string) :
  NoDup s1 → NoDup s2 →
  length (filter (λ x, x ∈ s2) s1) = length (filter (λ x, x ∈ s1) s2).
Proof.
  intros H1 H2. apply Permutation_length, NoDup_Permutation.
  - by apply NoDup_filter.
  - by apply NoDup_filter.
  - intros x. rewrite !list_elem_of_filter. tauto.
Qed.

Lemma countMatchingLines_comm (lines1 lines2 : list string) :
  countMatchingLines lines1 lines2 = countMatchingLines lines2 lines1.
Proof.
  unfold countMatchingLines. rewrite !matchLoop_count. f_equal.
  apply common_length; apply NoDup_newSet.
Qed.

(** On duplicate-free trimmed lines the count is the number of lines of
    the first block that occur in the second. *)
Lemma countMatchingLines_NoDup (lines1 lines2 : list string) :
  NoDup (map JS.trim lines1) → NoDup (map JS.trim lines2) →
  countMatchingLines lines1 lines2 =
  length (filter (λ x, x ∈ map JS.trim lines2) (map JS.trim lines1)).
Proof.
  intros H1 H2. unfold countMatchingLines.
  rewrite matchLoop_count, !newSet_NoDup by done. done.
Qed.
End Similarity.

Example similarity_half :
  (DuplicateCodeDetector.calculateSimilarity ["a"; " b"; "c"; "d"] ["b "; "x"; "a"; "y"]
   == 0.5)%Q.
Proof. reflexivity. Qed.

(** C4. Block similarity is symmetric in its two line sequences; it is 1.0
    for two empty sequences and 0.0 when exactly one of them is empty. *)
Theorem calculateSimilarity_symmetric :
  (∀ a b : list string,
     DuplicateCodeDetector.calculateSimilarity a b =
     DuplicateCodeDetector.calculateSimilarity b a) ∧
  (DuplicateCodeDetector.calculateSimilarity [] [] == 1)%Q ∧
  (∀ (x : string) (a : list string),
     (DuplicateCodeDetector.calculateSimilarity (x :: a) [] == 0)%Q ∧
     (DuplicateCodeDetector.calculateSimilarity [] (x :: a) == 0)%Q).
Proof.
  split_and!.
  - intros a b. unfold DuplicateCodeDetector.calculateSimilarity.
    rewrite (andb_comm (length b =? 0)%nat), (orb_comm (length b =? 0)%nat).
    by rewrite countMatchingLines_comm, Nat.max_comm.
  - reflexivity.
  - intros x a. split; reflexivity.
Qed.

(** ** DuplicateCode *)

Section Duplicates.
Import DuplicateCodeDetector.

(** A pair of blocks, the first before the second, for which the loop body
    pushes an entry, leaves that entry in the result. *)
Lemma pairLoop_elem (ml ms : JS.value) (blocks : list Block) :
  ∀ (i j : nat) (b1 b2 : Block) (d : Duplicate),
    blocks !! i = Some b1 → blocks !! j = Some b2 → (i < j)%nat →
    comparePair ml ms b1 b2 = Some d →
    d ∈ pairLoop ml ms blocks.
Proof.
  induction blocks as [|b blocks IH]; intros i j b1 b2 d Hi Hj Hlt Hd.
  - done.
  - cbn [pairLoop]. apply elem_of_app. destruct i as [|i].
    + left. simpl in Hi. injection Hi as ->.
      destruct j as [|j]; [lia|]. simpl in Hj.
      apply list_elem_of_omap. exists b2. split; [|done].
      by eapply list_elem_of_lookup_2.
    + right. destruct j as [|j]; [lia|]. simpl in Hi, Hj.
      eapply (IH i j); eauto. lia.
Qed.

Lemma effective_DuplicateCode_default (thresholds : thresholds_t) :
  DetectorThresholds.effective "DuplicateCode" thresholds =
  DetectorThresholds.effective "DuplicateCode" ∅ →
  DetectorThresholds.read thresholds "minLines" (JS.Num 5) = JS.Num 5 ∧
  DetectorThresholds.read thresholds "minSimilarity" (JS.Num 0.6) = JS.Num 0.6.
Proof.
  unfold DetectorThresholds.effective. cbn [DetectorThresholds.keysOf].
  intros H. vm_compute DetectorThresholds.keysOf in H.
  cbn [map fst snd] in H. injection H as _ H5 H6. split; assumption.
Qed.

(** The similarity of two blocks of distinct lines of equal length [n] that
    share the lines [shared]. *)
Lemma calculateSimilarity_shared (ls1 ls2 shared : list string) (n : nat) :
  NoDup (map JS.trim ls1) → NoDup (map JS.trim ls2) → NoDup shared →
  length ls1 = S n → length ls2 = S n →
  (∀ x, x ∈ shared ↔ x ∈ map JS.trim ls1 ∧ x ∈ map JS.trim ls2) →
  calculateSimilarity ls1 ls2 = (JS.ofNat (length shared) / JS.ofNat (S n))%Q.
Proof.
  intros H1 H2 Hs L1 L2 Hshared. unfold calculateSimilarity.
  rewrite L1, L2. cbn [Nat.eqb andb orb].
  rewrite countMatchingLines_NoDup, Nat.max_id by done.
  enough (length (filter (λ x, x ∈ map JS.trim ls2) (map JS.trim ls1)) = length shared)
    as -> by done.
  apply Permutation_length, NoDup_Permutation; [by apply NoDup_filter|done|].
  intros x. rewrite list_elem_of_filter, Hshared. tauto.
Qed.

(** The similarity of a block of distinct lines with itself. *)
Lemma calculateSimilarity_self (ls : list string) (n : nat) :
  NoDup (map JS.trim ls) → length ls = S n →
  calculateSimilarity ls ls = (JS.ofNat (S n) / JS.ofNat (S n))%Q.
Proof.
  intros Hnd Hlen.
  rewrite (calculateSimilarity_shared ls ls (map JS.trim ls) n); try done.
  - by rewrite length_map, Hlen.
  - intros x. tauto.
Qed.
End Duplicates.

Example alternating_similarity :
  (DuplicateCodeDetector.calculateSimilarity alternatingBody alternatingBody == 1 # 3)%Q.
Proof. reflexivity. Qed.

(** C5, as stated, fails: two methods with the same six-line body in which
    two statements alternate have similarity 1/3, and the detector reports
    nothing. *)
Lemma DuplicateCode_identical_bodies_counterexample :
  ∃ b1 b2 : DuplicateCodeDetector.Block,
    DuplicateCodeDetector.extractCodeBlocks alternatingProject = [b1; b2] ∧
    DuplicateCodeDetector.lines b1 = DuplicateCodeDetector.lines b2 ∧
    length (DuplicateCodeDetector.lines b1) = 6 ∧
    ¬ (DuplicateCodeDetector.calculateSimilarity
         (DuplicateCodeDetector.lines b1) (DuplicateCodeDetector.lines b2) == 1)%Q ∧
    DuplicateCodeDetector.detect (contextOfProject alternatingProject) ∅ =
      JS.Normal (Some {| CodeSmellResult.smellName := "DuplicateCode";
                         CodeSmellResult.detected := false;
                         CodeSmellResult.severity := None |}).
Proof.
  eexists _, _. split; [reflexivity|]. split_and!.
  - reflexivity.
  - reflexivity.
  - vm_compute. discriminate.
  - vm_compute. reflexivity.
Qed.

(** C5, amended. With the default minLines and minSimilarity: two methods of
    a project whose bodies are the same six lines, pairwise distinct after
    trimming, have similarity 1.0 and the detector reports a finding; two
    blocks of six pairwise distinct lines each that share exactly three lines
    have similarity 0.5 and the pair yields no finding. *)
Theorem DuplicateCode_six_distinct_lines
    (context : Context.t) (project : GDScriptProject.t) (thresholds : thresholds_t) :
  Context.project context = Some project →
  DetectorThresholds.effective "DuplicateCode" thresholds =
    DetectorThresholds.effective "DuplicateCode" ∅ →
  (∀ (i j : nat) (b1 b2 : DuplicateCodeDetector.Block),
     DuplicateCodeDetector.extractCodeBlocks project !! i = Some b1 →
     DuplicateCodeDetector.extractCodeBlocks project !! j = Some b2 →
     (i < j)%nat →
     DuplicateCodeDetector.lines b1 = DuplicateCodeDetector.lines b2 →
     length (DuplicateCodeDetector.lines b1) = 6 →
     NoDup (map JS.trim (DuplicateCodeDetector.lines b1)) →
     (DuplicateCodeDetector.calculateSimilarity
        (DuplicateCodeDetector.lines b1) (DuplicateCodeDetector.lines b2) == 1)%Q ∧
     ∃ r, DuplicateCodeDetector.detect context thresholds = JS.Normal (Some r) ∧
          CodeSmellResult.detected r = true) ∧
  (∀ b1 b2 : DuplicateCodeDetector.Block,
     length (DuplicateCodeDetector.lines b1) = 6 →
     length (DuplicateCodeDetector.lines b2) = 6 →
     NoDup (map JS.trim (DuplicateCodeDetector.lines b1)) →
     NoDup (map JS.trim (DuplicateCodeDetector.lines b2)) →
     length (sharedLines b1 b2) = 3 →
     (DuplicateCodeDetector.calculateSimilarity
        (DuplicateCodeDetector.lines b1) (DuplicateCodeDetector.lines b2) == 0.5)%Q ∧
     DuplicateCodeDetector.comparePair
       (DetectorThresholds.read thresholds "minLines" (JS.Num 5))
       (DetectorThresholds.read thresholds "minSimilarity" (JS.Num 0.6)) b1 b2 = None).
Proof.
  intros Hctx [HminLines HminSim]%effective_DuplicateCode_default. split.
  - intros i j b1 b2 Hi Hj Hlt Heq Hlen Hnd.
    assert (DuplicateCodeDetector.calculateSimilarity
              (DuplicateCodeDetector.lines b1) (DuplicateCodeDetector.lines b2)
            = (JS.ofNat 6 / JS.ofNat 6)%Q) as Hsim.
    { rewrite <- Heq. by apply calculateSimilarity_self. }
    split; [by rewrite Hsim|].
    unfold DuplicateCodeDetector.detect. rewrite Hctx.
    unfold DetectorThresholds.read in HminLines, HminSim. rewrite HminLines, HminSim.
    eexists. split; [reflexivity|]. cbn [CodeSmellResult.detected].
    apply Nat.ltb_lt. unfold DuplicateCodeDetector.findDuplicates.
    assert (∃ d, DuplicateCodeDetector.comparePair (JS.Num 5) (JS.Num 0.6) b1 b2 = Some d)
      as [d Hd].
    { unfold DuplicateCodeDetector.comparePair. rewrite Hsim, <- Heq, Hlen. eauto. }
    pose proof (pairLoop_elem _ _ _ _ _ _ _ _ Hi Hj Hlt Hd) as Hin.
    destruct (DuplicateCodeDetector.pairLoop _ _ _); [by apply elem_of_nil in Hin|].
    simpl. lia.
  - intros b1 b2 L1 L2 N1 N2 Ls.
    assert (DuplicateCodeDetector.calculateSimilarity
              (DuplicateCodeDetector.lines b1) (DuplicateCodeDetector.lines b2)
            = (JS.ofNat 3 / JS.ofNat 6)%Q) as Hsim.
    { rewrite (calculateSimilarity_shared _ _ (sharedLines b1 b2) 5); try done.
      - by rewrite Ls.
      - by apply NoDup_list_intersection.
      - intros x. apply list_elem_of_intersection. }
    split; [by rewrite Hsim|].
    unfold DetectorThresholds.read in HminLines, HminSim.
    unfold DetectorThresholds.read. rewrite HminLines, HminSim.
    unfold DuplicateCodeDetector.comparePair. rewrite Hsim, L1, L2. reflexivity.
Qed.

Lemma DuplicateCode_six_distinct_lines_witness :
  ((DuplicateCodeDetector.calculateSimilarity
      (DuplicateCodeDetector.lines (blockOf "score_a" distinctBody))
      (DuplicateCodeDetector.lines (blockOf "score_b" distinctBody)) == 1)%Q ∧
   ∃ r, DuplicateCodeDetector.detect (contextOfProject copiedProject) ∅ = JS.Normal (Some r) ∧
        CodeSmellResult.detected r = true) ∧
  ((DuplicateCodeDetector.calculateSimilarity
      (DuplicateCodeDetector.lines (blockOf "score_a" distinctBody))
      (DuplicateCodeDetector.lines (blockOf "other" halfSharedBody)) == 0.5)%Q ∧
   DuplicateCodeDetector.comparePair
     (DetectorThresholds.read ∅ "minLines" (JS.Num 5))
     (DetectorThresholds.read ∅ "minSimilarity" (JS.Num 0.6))
     (blockOf "score_a" distinctBody) (blockOf "other" halfSharedBody) = None).
Proof.
  destruct (DuplicateCode_six_distinct_lines
              (contextOfProject copiedProject) copiedProject ∅ eq_refl eq_refl)
    as [Hsame Hhalf].
  split.
  - apply (Hsame 0%nat 1%nat (blockOf "score_a" distinctBody)
                 (blockOf "score_b" distinctBody));
      first [reflexivity | lia | apply (bool_decide_unpack _); vm_compute; exact I].
  - apply (Hhalf (blockOf "score_a" distinctBody) (blockOf "other" halfSharedBody));
      first [reflexivity | apply (bool_decide_unpack _); vm_compute; exact I].
Defined.

(** ** RefusedBequest *)

Section Refused.
Import RefusedBequestDetector.

Lemma usageLoop_used (subclass : Class.t) (pms : list Method.t) :
  ∀ used empty,
    (usageLoop subclass pms used empty).1 =
    used ++ map (λ pm, Identifier.toString (Method.name pm))
                (filter (λ pm, isMethodUsedBySubclass pm subclass = true) pms).
Proof.
  induction pms as [|pm pms IH]; intros used empty.
  - simpl. by rewrite app_nil_r.
  - cbn [usageLoop]. rewrite IH, filter_cons.
    destruct (isMethodUsedBySubclass pm subclass) eqn:E.
    + rewrite decide_True by done. by rewrite <- app_assoc.
    + rewrite decide_False by done. done.
Qed.

Lemma usageLoop_no_empty (subclass : Class.t) (pms : list Method.t) :
  Forall (λ pm, ∀ om,
            Class.getMethod subclass (Identifier.toString (Method.name pm)) = Some om →
            isEmptyOverride om = false) pms →
  ∀ used empty, (usageLoop subclass pms used empty).2 = empty.
Proof.
  induction 1 as [|pm pms Hpm _ IH]; intros used empty; [done|].
  cbn [usageLoop]. rewrite IH.
  destruct (isMethodOverridden pm subclass); [|done].
  destruct (Class.getMethod subclass _) as [om|] eqn:E; [|done].
  by rewrite (Hpm om eq_refl).
Qed.

Lemma findParent_Some (subclass parentClass : Class.t) (project : GDScriptProject.t) :
  findParent subclass project = Some parentClass → is_Some (Class.parent subclass).
Proof.
  unfold findParent. destruct (Class.parent subclass); [eauto|].
  intros H. apply find_some in H as [_ H]. done.
Qed.

Lemma effective_RefusedBequest_default (thresholds : thresholds_t) :
  DetectorThresholds.effective "RefusedBequest" thresholds =
  DetectorThresholds.effective "RefusedBequest" ∅ →
  DetectorThresholds.read thresholds "usageRatio" (JS.Num 0.3) = JS.Num 0.3 ∧
  DetectorThresholds.read thresholds "overriddenEmpty" (JS.Num 0) = JS.Num 0.
Proof.
  unfold DetectorThresholds.effective.
  intros H. vm_compute DetectorThresholds.keysOf in H.
  cbn [map fst snd] in H. injection H as H1 H2. split; assumption.
Qed.
End Refused.

(** C2, as stated, fails: a subclass using 2 of the 10 methods of its parent,
    without empty overrides, is flagged with severity Medium, not High. *)
Lemma RefusedBequest_one_fifth_counterexample :
  RefusedBequestDetector.findParent childClass refusedProject = Some baseClass ∧
  length (Class.methods baseClass) = 10 ∧
  length (usedParentMethods childClass baseClass) = 2 ∧
  RefusedBequestDetector.overriddenEmpty
    (RefusedBequestDetector.analyzeInheritanceUsage childClass refusedProject) = [] ∧
  RefusedBequestDetector.detect (contextOfClass childClass refusedProject) ∅ =
    JS.Normal (Some {| CodeSmellResult.smellName := "RefusedBequest";
                       CodeSmellResult.detected := true;
                       CodeSmellResult.severity := Some Medium |}) ∧
  Some Medium ≠ Some High.
Proof. split_and!; [reflexivity..|discriminate]. Qed.

(** C2, amended. With the default thresholds, a subclass whose parent has 10
    methods of which it uses exactly 2 (usage ratio 0.2), and which has no
    empty override, is flagged with severity Medium.  Severity High is given
    exactly when the usage ratio is strictly below 0.2 or there are more than
    5 empty overrides. *)
Theorem RefusedBequest_one_fifth_is_Medium
    (context : Context.t) (class_ : Class.t) (project : GDScriptProject.t)
    (thresholds : thresholds_t) :
  Context.class_ context = Some class_ →
  Context.project context = Some project →
  DetectorThresholds.effective "RefusedBequest" thresholds =
    DetectorThresholds.effective "RefusedBequest" ∅ →
  (∀ parentClass,
     RefusedBequestDetector.findParent class_ project = Some parentClass →
     length (Class.methods parentClass) = 10 →
     length (usedParentMethods class_ parentClass) = 2 →
     noEmptyOverride class_ parentClass →
     RefusedBequestDetector.detect context thresholds =
       JS.Normal (Some {| CodeSmellResult.smellName := "RefusedBequest";
                          CodeSmellResult.detected := true;
                          CodeSmellResult.severity := Some Medium |})) ∧
  (∀ r,
     RefusedBequestDetector.detect context thresholds = JS.Normal (Some r) →
     let analysis := RefusedBequestDetector.analyzeInheritanceUsage class_ project in
     CodeSmellResult.severity r = Some High ↔
       (RefusedBequestDetector.usageRatio analysis < 0.2)%Q ∨
       (5 < length (RefusedBequestDetector.overriddenEmpty analysis))%nat).
Proof.
  intros Hc Hp [Hr He]%effective_RefusedBequest_default.
  unfold DetectorThresholds.read in Hr, He. split.
  - intros parentClass Hfind Hlen Hused Hempty.
    unfold RefusedBequestDetector.detect. rewrite Hc, Hp.
    destruct (findParent_Some _ _ _ Hfind) as [pid ->].
    rewrite Hr, He.
    unfold RefusedBequestDetector.analyzeInheritanceUsage. rewrite Hfind.
    destruct (RefusedBequestDetector.usageLoop class_ (Class.methods parentClass) [] [])
      as [used empty] eqn:Hloop.
    pose proof (usageLoop_used class_ (Class.methods parentClass) [] []) as Hu.
    pose proof (usageLoop_no_empty class_ (Class.methods parentClass) Hempty [] []) as Hn.
    rewrite Hloop in Hu, Hn. simpl in Hu, Hn. subst used empty.
    cbn [RefusedBequestDetector.usageRatio RefusedBequestDetector.overriddenEmpty].
    rewrite length_map. fold (usedParentMethods class_ parentClass).
    rewrite Hused, Hlen. reflexivity.
  - intros r. unfold RefusedBequestDetector.detect. rewrite Hc, Hp.
    destruct (Class.parent class_) as [pid|]; [|done]. rewrite Hr, He.
    set (analysis := RefusedBequestDetector.analyzeInheritanceUsage class_ project).
    set (ratio := RefusedBequestDetector.usageRatio analysis).
    set (n := length (RefusedBequestDetector.overriddenEmpty analysis)).
    intros [= <-]. cbn zeta. cbn [CodeSmellResult.severity].
    change (JS.lt (JS.Num ratio) (JS.Num 0.3)) with (JS.Qlt_bool ratio 0.3).
    change (JS.gt (JS.Num (JS.ofNat n)) (JS.Num 0)) with (JS.Qlt_bool (JS.ofNat 0) (JS.ofNat n)).
    split.
    + destruct (JS.Qlt_bool ratio 0.3 || JS.Qlt_bool (JS.ofNat 0) (JS.ofNat n)); [|done].
      destruct (JS.Qlt_bool ratio 0.2 || (5 <? n)%nat) eqn:E.
      * intros _. apply orb_true_iff in E as [E|E].
        -- left. by apply Qlt_bool_iff.
        -- right. by apply Nat.ltb_lt.
      * by destruct (JS.Qlt_bool ratio 0.3 || (3 <? n)%nat).
    + intros Hhigh.
      assert (JS.Qlt_bool ratio 0.2 || (5 <? n)%nat = true) as ->.
      { apply orb_true_iff. destruct Hhigh as [H|H].
        - left. by apply Qlt_bool_iff.
        - right. by apply Nat.ltb_lt. }
      assert (JS.Qlt_bool ratio 0.3 || JS.Qlt_bool (JS.ofNat 0) (JS.ofNat n) = true) as ->.
      { apply orb_true_iff. destruct Hhigh as [H|H].
        - left. apply Qlt_bool_iff. by apply (Qlt_trans _ 0.2).
        - right. apply Qlt_bool_iff, ofNat_lt. lia. }
      done.
Qed.

Lemma RefusedBequest_one_fifth_is_Medium_witness :
  RefusedBequestDetector.detect (contextOfClass childClass refusedProject) ∅ =
    JS.Normal (Some {| CodeSmellResult.smellName := "RefusedBequest";
                       CodeSmellResult.detected := true;
                       CodeSmellResult.severity := Some Medium |}) ∧
  ¬ ((RefusedBequestDetector.usageRatio
        (RefusedBequestDetector.analyzeInheritanceUsage childClass refusedProject) < 0.2)%Q ∨
     (5 < length (RefusedBequestDetector.overriddenEmpty
                    (RefusedBequestDetector.analyzeInheritanceUsage childClass
                       refusedProject)))%nat).
Proof.
  destruct (RefusedBequest_one_fifth_is_Medium
              (contextOfClass childClass refusedProject) childClass refusedProject ∅
              eq_refl eq_refl eq_refl) as [Hmedium Hhigh].
  assert (RefusedBequestDetector.detect (contextOfClass childClass refusedProject) ∅ =
            JS.Normal (Some {| CodeSmellResult.smellName := "RefusedBequest";
                               CodeSmellResult.detected := true;
                               CodeSmellResult.severity := Some Medium |})) as Hrun.
  { apply (Hmedium baseClass); try reflexivity.
    unfold noEmptyOverride. simpl. repeat constructor; intros om H; discriminate H. }
  split; [exact Hrun|].
  intros Hguard. apply (Hhigh _ Hrun) in Hguard. discriminate Hguard.
Defined.

(** ** Comments *)

Section Comments.
Import CommentsDetector.

Lemma countLoop_counts (ls : list CodeLine.t) :
  ∀ c d, countLoop ls c d = (c + commentCount ls, d + codeCount ls).
Proof.
  unfold commentCount, codeCount.
  induction ls as [|l ls IH]; intros c d.
  - simpl. f_equal; lia.
  - cbn [countLoop]. rewrite !filter_cons. unfold isCommentLine.
    destruct (String.eqb_spec (JS.trim (CodeLine.content l)) "") as [E|E].
    + rewrite IH, !decide_False by (unfold isBlank; tauto). done.
    + destruct (decide (isHashLine l)) as [Hh|Hh].
      * rewrite decide_True, decide_False by (unfold isBlank; tauto).
        unfold isHashLine in Hh. rewrite Hh, IH.
        cbn [length]. f_equal; lia.
      * rewrite decide_False, decide_True by (unfold isBlank; tauto).
        unfold isHashLine in Hh. apply not_true_is_false in Hh. rewrite Hh, IH.
        cbn [length]. f_equal; lia.
Qed.

Lemma commentCount_app (l1 l2 : list CodeLine.t) :
  commentCount (l1 ++ l2) = commentCount l1 + commentCount l2.
Proof. unfold commentCount. by rewrite filter_app, length_app. Qed.

Lemma codeCount_app (l1 l2 : list CodeLine.t) :
  codeCount (l1 ++ l2) = codeCount l1 + codeCount l2.
Proof. unfold codeCount. by rewrite filter_app, length_app. Qed.

Lemma analyzeMethodComments_counts (method : Method.t) :
  analyzeMethodComments method =
  summarize (commentCount (Method.lines method)) (codeCount (Method.lines method)).
Proof. unfold analyzeMethodComments. by rewrite countLoop_counts. Qed.

Lemma classFold_counts (methods : list Method.t) :
  ∀ c d,
    foldl (λ '(tc, td) method,
             let a := analyzeMethodComments method in
             (tc + commentLines a, td + codeLines a)) (c, d) methods =
    (c + commentCount (flat_map Method.lines methods),
     d + codeCount (flat_map Method.lines methods)).
Proof.
  induction methods as [|m methods IH]; intros c d.
  - simpl. f_equal; unfold commentCount, codeCount; simpl; lia.
  - cbn [foldl flat_map]. rewrite analyzeMethodComments_counts. cbn [commentLines codeLines summarize].
    rewrite IH, commentCount_app, codeCount_app. f_equal; lia.
Qed.

Lemma analyzeComments_counts (target : Target) :
  analyzeComments target =
  summarize (commentCount (targetLines target)) (codeCount (targetLines target)).
Proof.
  destruct target as [method|class_]; simpl.
  - apply analyzeMethodComments_counts.
  - unfold analyzeClassComments. by rewrite classFold_counts.
Qed.

Lemma summarize_density (c d : nat) :
  (commentDensity (summarize c d) == JS.ofNat c / JS.ofNat (c + d))%Q.
Proof.
  cbn [summarize commentDensity]. destruct (0 <? c + d)%nat eqn:E; [reflexivity|].
  apply Nat.ltb_ge in E. assert (c = 0%nat) as -> by lia. assert (d = 0%nat) as -> by lia.
  reflexivity.
Qed.

(** Non-blank lines are the comment lines and the code lines. *)
Lemma nonBlankCount_split (ls : list CodeLine.t) :
  nonBlankCount ls = (commentCount ls + codeCount ls)%nat.
Proof.
  unfold nonBlankCount, commentCount, codeCount.
  induction ls as [|l ls IH]; [done|].
  rewrite !filter_cons. destruct (decide (¬ isBlank l)) as [Hb|Hb].
  - destruct (decide (isHashLine l)) as [Hh|Hh].
    + rewrite decide_True, decide_False by tauto. cbn [length]. lia.
    + rewrite decide_False, decide_True by tauto. cbn [length]. lia.
  - rewrite !decide_False by tauto. done.
Qed.
End Comments.

(** C3, as stated, fails: a method of eight comment lines and four code lines
    has density 2/3 over twelve non-blank lines, and is not flagged. *)
Lemma Comments_nonblank_floor_counterexample :
  (0.5 < densityOf (Method.lines commentedMethod))%Q ∧
  (10 < nonBlankCount (Method.lines commentedMethod))%nat ∧
  CommentsDetector.detect (contextOfMethod commentedMethod None None None None) ∅ =
    JS.Normal (Some {| CodeSmellResult.smellName := "Comments";
                       CodeSmellResult.detected := false;
                       CodeSmellResult.severity := None |}).
Proof.
  split_and!.
  - vm_compute. reflexivity.
  - vm_compute. lia.
  - vm_compute. reflexivity.
Qed.

Lemma effective_Comments_default (thresholds : thresholds_t) :
  DetectorThresholds.effective "Comments" thresholds =
  DetectorThresholds.effective "Comments" ∅ →
  DetectorThresholds.read thresholds "maxCommentDensity" (JS.Num 0.5) = JS.Num 0.5.
Proof.
  unfold DetectorThresholds.effective.
  intros H. vm_compute DetectorThresholds.keysOf in H.
  cbn [map fst snd] in H. by injection H as H1.
Qed.

(** C3, amended. With the default maxCommentDensity, the Comments detector
    flags its target exactly when the comment density,
    commentLines / (commentLines + codeLines) with blank lines ignored, exceeds
    0.5 and there are more than 10 code lines, that is, non-blank lines that
    are not comments.  A flagged target gets severity Medium when the density
    exceeds 0.7 and Low otherwise. *)
Theorem Comments_detected_iff (target : CommentsDetector.Target)
    (owner other : option Class.t) (project : option GDScriptProject.t)
    (file : option string) (thresholds : thresholds_t) :
  DetectorThresholds.effective "Comments" thresholds =
    DetectorThresholds.effective "Comments" ∅ →
  ∃ r, CommentsDetector.detect (contextOfTarget target owner other project file)
         thresholds = JS.Normal (Some r) ∧
       (CodeSmellResult.detected r = true ↔
          (0.5 < densityOf (targetLines target))%Q ∧
          (10 < codeCount (targetLines target))%nat) ∧
       (CodeSmellResult.detected r = true →
          ((0.7 < densityOf (targetLines target))%Q →
             CodeSmellResult.severity r = Some Medium) ∧
          ((densityOf (targetLines target) <= 0.7)%Q →
             CodeSmellResult.severity r = Some Low)) ∧
       (CodeSmellResult.detected r = false → CodeSmellResult.severity r = None).
Proof.
  intros Hread%effective_Comments_default.
  set (ls := targetLines target).
  assert (CommentsDetector.detect (contextOfTarget target owner other project file) thresholds
          = JS.Normal (Some
              (let analysis := CommentsDetector.summarize (commentCount ls) (codeCount ls) in
               let isDetected :=
                 JS.gt (JS.Num (CommentsDetector.commentDensity analysis)) (JS.Num 0.5) &&
                 (10 <? CommentsDetector.codeLines analysis)%nat in
               {| CodeSmellResult.smellName := "Comments";
                  CodeSmellResult.detected := isDetected;
                  CodeSmellResult.severity :=
                    if isDetected
                    then Some (if JS.Qlt_bool 0.7 (CommentsDetector.commentDensity analysis)
                               then Medium else Low)
                    else None |}))) as ->.
  { unfold CommentsDetector.detect. subst ls. unfold DetectorThresholds.read in Hread.
    destruct target; cbn [contextOfTarget Context.method Context.class_ fmap option_fmap option_map];
      by rewrite analyzeComments_counts, Hread. }
  eexists. split; [reflexivity|]. cbn zeta. cbn [CodeSmellResult.detected CodeSmellResult.severity].
  pose proof (summarize_density (commentCount ls) (codeCount ls)) as Hd.
  fold (densityOf ls) in Hd.
  set (dens := CommentsDetector.commentDensity _) in *.
  cbn [CommentsDetector.codeLines CommentsDetector.summarize].
  split_and!.
  - rewrite andb_true_iff, gt_Num_iff, Nat.ltb_lt.
    split.
    + intros [(q & [= <-] & Hlt) Hc]. split; [|done]. by rewrite <- Hd.
    + intros [Hlt Hc]. split; [|done]. exists 0.5%Q. split; [done|]. by rewrite Hd.
  - intros ->. split; intros H.
    + rewrite <- Hd in H. apply Qlt_bool_iff in H. by rewrite H.
    + rewrite <- Hd in H. apply Qlt_bool_false_iff in H. by rewrite H.
  - by intros ->.
Qed.

Lemma Comments_detected_iff_witness :
  ∃ r, CommentsDetector.detect (contextOfMethod commentedMethod None None None None) ∅ =
         JS.Normal (Some r) ∧
       CodeSmellResult.detected r = false ∧
       CodeSmellResult.severity r = None.
Proof.
  destruct (Comments_detected_iff (CommentsDetector.OfMethod commentedMethod)
              None None None None ∅ eq_refl) as (r & Hrun & Hiff & _ & Hnone).
  exists r. split; [exact Hrun|].
  assert (CodeSmellResult.detected r = false) as Hfalse.
  { apply not_true_is_false. intros [_ Hcode]%Hiff. vm_compute in Hcode. lia. }
  split; [exact Hfalse | exact (Hnone Hfalse)].
Defined.

(** ** GlobalState *)

Section GlobalState.
Import GlobalStateDetector.

Lemma autoloadLoop_details (autoloads : list Class.t) :
  ∀ details gods,
    (autoloadLoop autoloads details gods).1 = details ++ map detailOf autoloads.
Proof.
  induction autoloads as [|a autoloads IH]; intros details gods.
  - simpl. by rewrite app_nil_r.
  - cbn [autoloadLoop]. rewrite IH, <- app_assoc. done.
Qed.

Lemma autoloadLoop_no_god (autoloads : list Class.t) :
  Forall (λ a, ¬ isGodAutoload a) autoloads →
  ∀ details gods, (autoloadLoop autoloads details gods).2 = gods.
Proof.
  induction 1 as [|a autoloads Ha _ IH]; intros details gods; [done|].
  cbn [autoloadLoop]. rewrite IH.
  destruct (400 <? Class.getTotalLOC a)%nat eqn:E1.
  { apply Nat.ltb_lt in E1. destruct Ha. by left. }
  destruct (20 <? length (Class.methods a))%nat eqn:E2.
  { apply Nat.ltb_lt in E2. destruct Ha. by right. }
  done.
Qed.

Lemma autoloadLoop_gods_grow (autoloads : list Class.t) :
  ∀ details gods,
    (length gods ≤ length (autoloadLoop autoloads details gods).2)%nat.
Proof.
  induction autoloads as [|a autoloads IH]; intros details gods; [done|].
  cbn [autoloadLoop]. etrans; [|apply IH].
  destruct (_ || _); [rewrite length_app; simpl|]; lia.
Qed.

Lemma autoloadLoop_god (autoloads : list Class.t) (autoload : Class.t) :
  autoload ∈ autoloads → isGodAutoload autoload →
  ∀ details gods, (0 < length (autoloadLoop autoloads details gods).2)%nat.
Proof.
  intros Hin Hgod. induction autoloads as [|a autoloads IH]; intros details gods.
  - by apply elem_of_nil in Hin.
  - cbn [autoloadLoop]. apply elem_of_cons in Hin as [<-|Hin].
    + eapply Nat.lt_le_trans; [|apply autoloadLoop_gods_grow].
      assert ((400 <? Class.getTotalLOC autoload)%nat ||
              (20 <? length (Class.methods autoload))%nat = true) as ->.
      { apply orb_true_iff. rewrite !Nat.ltb_lt. exact Hgod. }
      rewrite length_app. simpl. lia.
    + by apply IH.
Qed.

Lemma totalGlobalVars_sum (autoloads : list Class.t) :
  ∀ n, foldl (λ sum a, sum + fieldCount a) n (map detailOf autoloads) =
       (n + aggregateFieldCount autoloads)%nat.
Proof.
  unfold aggregateFieldCount.
  induction autoloads as [|a autoloads IH]; intros n; simpl; [lia|].
  rewrite IH. lia.
Qed.

Lemma analyzeGlobalState_total (project : GDScriptProject.t) :
  totalGlobalVars (analyzeGlobalState project) =
  aggregateFieldCount (GDScriptProject.autoloads project).
Proof.
  unfold analyzeGlobalState.
  pose proof (autoloadLoop_details (GDScriptProject.autoloads project) [] []) as Hd.
  destruct (autoloadLoop _ _ _) as [details gods]. simpl in Hd. subst details.
  cbn [totalGlobalVars]. by rewrite totalGlobalVars_sum.
Qed.

Lemma analyzeGlobalState_no_god (project : GDScriptProject.t) :
  Forall (λ a, ¬ isGodAutoload a) (GDScriptProject.autoloads project) →
  godAutoloads (analyzeGlobalState project) = [].
Proof.
  intros H. unfold analyzeGlobalState.
  pose proof (autoloadLoop_no_god _ H [] []) as Hg.
  destruct (autoloadLoop _ _ _) as [details gods]. done.
Qed.

Lemma analyzeGlobalState_god (project : GDScriptProject.t) (autoload : Class.t) :
  autoload ∈ GDScriptProject.autoloads project → isGodAutoload autoload →
  (0 < length (godAutoloads (analyzeGlobalState project)))%nat.
Proof.
  intros Hin Hgod. unfold analyzeGlobalState.
  pose proof (autoloadLoop_god _ _ Hin Hgod [] []) as Hg.
  destruct (autoloadLoop _ _ _) as [details gods]. done.
Qed.

Lemma effective_GlobalState_default (thresholds : thresholds_t) :
  DetectorThresholds.effective "GlobalState" thresholds =
  DetectorThresholds.effective "GlobalState" ∅ →
  DetectorThresholds.read thresholds "maxAutoloads" (JS.Num 5) = JS.Num 5 ∧
  DetectorThresholds.read thresholds "maxGlobalVars" (JS.Num 20) = JS.Num 20.
Proof.
  unfold DetectorThresholds.effective.
  intros H. vm_compute DetectorThresholds.keysOf in H.
  cbn [map fst snd] in H. injection H as H1 H2. split; assumption.
Qed.
End GlobalState.

Example six_autoloads_run :
  GlobalStateDetector.detect (contextOfProject sixAutoloadProject) ∅ =
    JS.Normal (Some {| CodeSmellResult.smellName := "GlobalState";
                       CodeSmellResult.detected := true;
                       CodeSmellResult.severity := Some Medium |}).
Proof. reflexivity. Qed.

(** C6. With the default thresholds, a project with 6 autoloads, none of them
    with more than 400 lines of code or more than 20 methods, and with at most
    20 autoload fields in total, is flagged with severity Medium.  Whatever
    the thresholds and the number of autoloads, a project with an autoload of
    25 methods is flagged with severity Critical. *)
Theorem GlobalState_six_autoloads_and_god :
  (∀ (context : Context.t) (project : GDScriptProject.t) (thresholds : thresholds_t),
     Context.project context = Some project →
     DetectorThresholds.effective "GlobalState" thresholds =
       DetectorThresholds.effective "GlobalState" ∅ →
     length (GDScriptProject.autoloads project) = 6 →
     Forall (λ a, ¬ isGodAutoload a) (GDScriptProject.autoloads project) →
     (aggregateFieldCount (GDScriptProject.autoloads project) ≤ 20)%nat →
     GlobalStateDetector.detect context thresholds =
       JS.Normal (Some {| CodeSmellResult.smellName := "GlobalState";
                          CodeSmellResult.detected := true;
                          CodeSmellResult.severity := Some Medium |})) ∧
  (∀ (context : Context.t) (project : GDScriptProject.t) (thresholds : thresholds_t)
     (autoload : Class.t),
     Context.project context = Some project →
     autoload ∈ GDScriptProject.autoloads project →
     length (Class.methods autoload) = 25 →
     GlobalStateDetector.detect context thresholds =
       JS.Normal (Some {| CodeSmellResult.smellName := "GlobalState";
                          CodeSmellResult.detected := true;
                          CodeSmellResult.severity := Some Critical |})).
Proof.
  split.
  - intros context project thresholds Hctx [Ha Hv]%effective_GlobalState_default
      Hsix Hnogod Hfields.
    unfold GlobalStateDetector.detect. rewrite Hctx.
    unfold DetectorThresholds.read in Ha, Hv. rewrite Ha, Hv.
    rewrite analyzeGlobalState_no_god, analyzeGlobalState_total, Hsix by done.
    assert (JS.gt (JS.Num (JS.ofNat (aggregateFieldCount (GDScriptProject.autoloads project))))
                  (JS.Num 20) = false) as Hgt.
    { apply not_true_is_false. intros (q & [= <-] & Hq)%gt_Num_iff.
      change 20%Q with (JS.ofNat 20) in Hq. apply ofNat_lt in Hq. lia. }
    assert ((40 <? aggregateFieldCount (GDScriptProject.autoloads project))%nat = false)
      as H40 by (apply Nat.ltb_ge; lia).
    rewrite Hgt. cbn [length]. rewrite H40. reflexivity.
  - intros context project thresholds autoload Hctx Hin H25.
    unfold GlobalStateDetector.detect. rewrite Hctx.
    assert (isGodAutoload autoload) as Hgod by (right; lia).
    pose proof (analyzeGlobalState_god project autoload Hin Hgod) as Hpos.
    apply Nat.ltb_lt in Hpos. rewrite Hpos, !orb_true_r. reflexivity.
Qed.

Lemma GlobalState_six_autoloads_and_god_witness :
  GlobalStateDetector.detect (contextOfProject sixAutoloadProject) ∅ =
    JS.Normal (Some {| CodeSmellResult.smellName := "GlobalState";
                       CodeSmellResult.detected := true;
                       CodeSmellResult.severity := Some Medium |}) ∧
  GlobalStateDetector.detect (contextOfProject godProject) ∅ =
    JS.Normal (Some {| CodeSmellResult.smellName := "GlobalState";
                       CodeSmellResult.detected := true;
                       CodeSmellResult.severity := Some Critical |}).
Proof.
  destruct GlobalState_six_autoloads_and_god as [Hsix Hgod]. split.
  - apply (Hsix (contextOfProject sixAutoloadProject) sixAutoloadProject ∅);
      try reflexivity.
    + cbv [sixAutoloadProject sixAutoloads mkProject GDScriptProject.autoloads].
      repeat (apply Forall_cons_2; [unfold isGodAutoload; cbn; lia|]). apply Forall_nil_2.
    + vm_compute. lia.
  - apply (Hgod (contextOfProject godProject) godProject ∅ godAutoload);
      try reflexivity.
    apply list_elem_of_here.
Defined.

(** ** Project construction *)

Section Construction.
Import GDScriptProject.

Lemma validateLoop_Normal (classes autoloads : list Class.t) :
  validateLoop classes autoloads = JS.Normal tt ↔
  Forall (λ a, a ∈ classes ∧ Class.autoload a = true) autoloads.
Proof.
  induction autoloads as [|a autoloads IH]; cbn [validateLoop].
  - split; [intros _; apply Forall_nil_2 | done].
  - rewrite Forall_cons. destruct (JS.has classes a) eqn:Hin; cbn [negb orb].
    + apply has_true in Hin. destruct (Class.autoload a); cbn [negb].
      * rewrite IH. tauto.
      * split; [done | by intros [[_ ?] _]].
    + apply has_false in Hin. split; [done | by intros [[? _] _]].
Qed.

Lemma validateLoop_Throw (classes autoloads : list Class.t) :
  (∃ message, validateLoop classes autoloads = JS.Throw message) ↔
  Exists (badAutoload classes) autoloads.
Proof.
  unfold badAutoload.
  induction autoloads as [|a autoloads IH]; cbn [validateLoop].
  - rewrite Exists_nil. split; [by intros [? ?] | done].
  - rewrite Exists_cons. destruct (JS.has classes a) eqn:Hin; cbn [negb orb].
    + apply has_true in Hin. destruct (Class.autoload a); cbn [negb].
      * rewrite IH. split; [tauto|]. intros [[?|?]|?]; done.
      * split; [intros _; left; by right | eauto].
    + apply has_false in Hin. split; [intros _; left; by left | eauto].
Qed.
End Construction.

Example project_constructed :
  ∃ p, GDScriptProject.new [audioClass; playerClass; audioClass] [] [audioClass] [] =
         JS.Normal p ∧
       GDScriptProject.classes p = [audioClass; playerClass].
Proof. eexists. split; reflexivity. Qed.

Example project_rejected_missing :
  GDScriptProject.new [audioClass; playerClass] [] [audioClass; strayClass] [] =
    JS.Throw "Autoload class Stray must be in classes and have autoload=true".
Proof. reflexivity. Qed.

Example project_rejected_unflagged :
  GDScriptProject.new [audioClass; playerClass] [] [playerClass] [] =
    JS.Throw "Autoload class Player must be in classes and have autoload=true".
Proof. reflexivity. Qed.

(** C7. Constructing a project throws exactly when some autoload is not one
    of the classes or has its autoload flag off, and returns a project exactly
    when every autoload is one of the classes and has the flag on. *)
Theorem GDScriptProject_new_checks_autoloads
    (classes autoloads : list Class.t) (scenes signals : list string) :
  ((∃ message, GDScriptProject.new classes scenes autoloads signals = JS.Throw message) ↔
     ∃ a, a ∈ autoloads ∧ badAutoload classes a) ∧
  ((∃ p, GDScriptProject.new classes scenes autoloads signals = JS.Normal p) ↔
     ∀ a, a ∈ autoloads → a ∈ classes ∧ Class.autoload a = true).
Proof.
  unfold GDScriptProject.new, GDScriptProject.validate.
  cbn [GDScriptProject.classes GDScriptProject.autoloads].
  pose proof (validateLoop_Normal (JS.newSet classes) (JS.newSet autoloads)) as HN.
  pose proof (validateLoop_Throw (JS.newSet classes) (JS.newSet autoloads)) as HT.
  rewrite Forall_forall in HN. rewrite Exists_exists in HT. unfold badAutoload in *.
  setoid_rewrite elem_of_newSet in HN. setoid_rewrite elem_of_newSet in HT.
  rewrite <- HN, <- HT.
  destruct (GDScriptProject.validateLoop _ _) as [[]|message]; split.
  - split; [by intros [? ?] | by intros [? ?]].
  - split; [done | eauto].
  - split; [eauto | eauto].
  - split; [by intros [? ?] | done].
Qed.

Lemma GDScriptProject_new_checks_autoloads_witness :
  (∃ message,
     GDScriptProject.new [audioClass; playerClass] [] [audioClass; strayClass] [] =
     JS.Throw message) ∧
  (∃ p, GDScriptProject.new [audioClass; playerClass] [] [audioClass] [] = JS.Normal p).
Proof.
  split.
  - apply (GDScriptProject_new_checks_autoloads
             [audioClass; playerClass] [audioClass; strayClass] [] []).
    exists strayClass. split.
    + apply list_elem_of_further, list_elem_of_here.
    + left. apply (bool_decide_unpack _). vm_compute. exact I.
  - apply (GDScriptProject_new_checks_autoloads [audioClass; playerClass] [audioClass] [] []).
    intros a ->%list_elem_of_singleton. split; [apply list_elem_of_here | reflexivity].
Defined.

(** ** Orchestrator *)

Lemma flat_map_of_map {A B C} (f : B → list C) (g : A → B) (l : list A) :
  flat_map f (map g l) = flat_map (λ x, f (g x)) l.
Proof. induction l as [|x l IH]; simpl; [done|]. by rewrite IH. Qed.

Lemma flat_map_of_flat_map {A B C} (f : B → list C) (g : A → list B) (l : list A) :
  flat_map f (flat_map g l) = flat_map (λ x, flat_map f (g x)) l.
Proof.
  induction l as [|x l IH]; simpl; [done|]. by rewrite flat_map_app, IH.
Qed.

Section Orchestrator.
Import AnalyzeProjectUseCase.

Lemma appended_nil (s : State) : appended [] [] s = s.
Proof. destruct s. unfold appended. simpl. by rewrite !app_nil_r. Qed.

Lemma appended_appended rs1 ls1 rs2 ls2 (s : State) :
  appended rs2 ls2 (appended rs1 ls1 s) = appended (rs1 ++ rs2) (ls1 ++ ls2) s.
Proof. unfold appended. simpl. by rewrite !app_assoc. Qed.

(** A loop whose body only appends, only appends. *)
Lemma forEach_emits {X} (body : X → M unit) rs ls (xs : list X) :
  emits body rs ls →
  ∀ s, forEach xs body s = (JS.Normal tt, appended (flat_map rs xs) (flat_map ls xs) s).
Proof.
  intros Hbody. induction xs as [|x xs IH]; intros s.
  - simpl. unfold ret. by rewrite appended_nil.
  - cbn [forEach flat_map]. unfold mbind, M_bind, bind.
    rewrite Hbody, IH, appended_appended. done.
Qed.

Variable detectors : list CodeSmellDetector.t.
Variable config : AnalysisConfig.t.
Variable project : GDScriptProject.t.

(** One guarded invocation returns normally whatever the detector does. *)
Lemma runDetector_emits (context : Context.t) (what : string) :
  emits (λ d, runDetector config d context what)
        (λ d, contribution config
                {| inv_detector := d; inv_context := context; inv_what := what |})
        (λ d, logged config
                {| inv_detector := d; inv_context := context; inv_what := what |}).
Proof.
  intros d s. unfold runDetector, contribution, logged, enabled, outcome.
  cbn [inv_detector inv_context inv_what].
  destruct (AnalysisConfig.isDetectorEnabled config (CodeSmellDetector.getName d)).
  - unfold tryCatch, mbind, M_bind, bind, lift.
    destruct (CodeSmellDetector.detect d context _) as [[r|]|message];
      unfold push, consoleError, ret, appended; destruct s; simpl;
      by rewrite ?app_nil_r.
  - unfold ret. by rewrite appended_nil.
Qed.

Lemma scanProject_spec (s : State) :
  scanProject detectors config project s =
  (JS.Normal tt,
   appended
     (flat_map (contribution config)
        (map (λ d, {| inv_detector := d; inv_context := projectContext project;
                      inv_what := " for project" |}) detectors))
     (flat_map (logged config)
        (map (λ d, {| inv_detector := d; inv_context := projectContext project;
                      inv_what := " for project" |}) detectors)) s).
Proof.
  unfold scanProject.
  rewrite (forEach_emits _ _ _ _ (runDetector_emits _ _)).
  by rewrite !flat_map_of_map.
Qed.
End Orchestrator.

Section OrchestratorRun.
Import AnalyzeProjectUseCase.
Variable detectors : list CodeSmellDetector.t.
Variable config : AnalysisConfig.t.
Variable project : GDScriptProject.t.

Lemma scans_spec (s : State) :
  (scanMethods detectors config project ;;
   scanClasses detectors config project ;;
   scanProject detectors config project) s =
  (JS.Normal tt,
   appended (flat_map (contribution config) (invocations detectors project))
            (flat_map (logged config) (invocations detectors project)) s).
Proof.
  unfold mbind, M_bind, bind, scanMethods, scanClasses.
  rewrite (forEach_emits _
             (λ class_, flat_map (λ method, flat_map (λ d, contribution config
                  {| inv_detector := d; inv_context := methodContext class_ method;
                     inv_what := " for method " +:+
                                 Identifier.toString (Method.name method) |}) detectors)
                (Class.methods class_))
             (λ class_, flat_map (λ method, flat_map (λ d, logged config
                  {| inv_detector := d; inv_context := methodContext class_ method;
                     inv_what := " for method " +:+
                                 Identifier.toString (Method.name method) |}) detectors)
                (Class.methods class_))).
  2:{ intros class_ s0. apply forEach_emits. intros method s1.
      apply forEach_emits, runDetector_emits. }
  rewrite (forEach_emits _
             (λ class_, flat_map (λ d, contribution config
                  {| inv_detector := d; inv_context := classContext project class_;
                     inv_what := " for class " +:+
                                 Identifier.toString (Class.name class_) |}) detectors)
             (λ class_, flat_map (λ d, logged config
                  {| inv_detector := d; inv_context := classContext project class_;
                     inv_what := " for class " +:+
                                 Identifier.toString (Class.name class_) |}) detectors)).
  2:{ intros class_ s0. apply forEach_emits, runDetector_emits. }
  rewrite scanProject_spec, !appended_appended.
  unfold invocations. rewrite !flat_map_app, !flat_map_of_flat_map.
  do 2 f_equal.
  - f_equal; [|f_equal].
    + apply flat_map_ext. intros class_. rewrite flat_map_of_flat_map.
      apply flat_map_ext. intros method. by rewrite flat_map_of_map.
    + apply flat_map_ext. intros class_. by rewrite flat_map_of_map.
  - f_equal; [|f_equal].
    + apply flat_map_ext. intros class_. rewrite flat_map_of_flat_map.
      apply flat_map_ext. intros method. by rewrite flat_map_of_map.
    + apply flat_map_ext. intros class_. by rewrite flat_map_of_map.
Qed.
End OrchestratorRun.

Lemma contribution_of_throw (config : AnalysisConfig.t) (i : Invocation) (message : string) :
  outcome config i = JS.Throw message → contribution config i = [].
Proof. unfold contribution. intros ->. by destruct (enabled config i). Qed.

Lemma logged_of_throw (config : AnalysisConfig.t) (i : Invocation) (message : string) :
  enabled config i = true → outcome config i = JS.Throw message →
  length (logged config i) = 1%nat.
Proof. unfold logged. by intros -> ->. Qed.

(** A run in which one detector throws at every scope: the other detectors
    deliver their results at every scope, and each failure is logged. *)
Example run_with_failing_detector :
  AnalyzeProjectUseCase.analyzeProject [unimplemented; longMethod; globalState]
    defaultConfig tinyProject [] =
  (JS.Normal
     [ {| CodeSmellResult.smellName := "LongMethod"; CodeSmellResult.detected := false;
          CodeSmellResult.severity := None |};
       {| CodeSmellResult.smellName := "GlobalState"; CodeSmellResult.detected := false;
          CodeSmellResult.severity := None |};
       {| CodeSmellResult.smellName := "GlobalState"; CodeSmellResult.detected := false;
          CodeSmellResult.severity := None |} ],
   {| AnalyzeProjectUseCase.results :=
        [ {| CodeSmellResult.smellName := "LongMethod"; CodeSmellResult.detected := false;
             CodeSmellResult.severity := None |};
          {| CodeSmellResult.smellName := "GlobalState"; CodeSmellResult.detected := false;
             CodeSmellResult.severity := None |};
          {| CodeSmellResult.smellName := "GlobalState"; CodeSmellResult.detected := false;
             CodeSmellResult.severity := None |} ];
      AnalyzeProjectUseCase.console :=
        [ "Error in LargeClass for method jump: CodeSmellDetector.detect() must be implemented by subclass";
          "Error in LargeClass for class Player: CodeSmellDetector.detect() must be implemented by subclass";
          "Error in LargeClass for project: CodeSmellDetector.detect() must be implemented by subclass" ] |}).
Proof. vm_compute. reflexivity. Qed.

Lemma analyzeProject_run
    (detectors : list CodeSmellDetector.t) (config : AnalysisConfig.t)
    (project : GDScriptProject.t) (log : list string) :
  AnalyzeProjectUseCase.analyzeProject detectors config project log =
  (JS.Normal (flat_map (contribution config) (invocations detectors project)),
   {| AnalyzeProjectUseCase.results :=
        flat_map (contribution config) (invocations detectors project);
      AnalyzeProjectUseCase.console :=
        log ++ flat_map (logged config) (invocations detectors project) |}).
Proof.
  unfold AnalyzeProjectUseCase.analyzeProject, AnalyzeProjectUseCase.analyzeProjectM.
  unfold mbind at 1. unfold AnalyzeProjectUseCase.M_bind at 1.
  unfold AnalyzeProjectUseCase.bind at 1, AnalyzeProjectUseCase.tryCatch.
  rewrite scans_spec. reflexivity.
Qed.

(** C8. A run of the analysis returns normally whatever its detector
    invocations do.  Its results are, in the order of the invocations, the
    result of every enabled invocation that returns one: what an invocation
    adds does not depend on any other invocation, and an invocation that
    throws adds nothing to the results and, when enabled, one line to the
    console. *)
Theorem analyzeProject_isolates_failures
    (detectors : list CodeSmellDetector.t) (config : AnalysisConfig.t)
    (project : GDScriptProject.t) (log : list string) :
  AnalyzeProjectUseCase.analyzeProject detectors config project log =
    (JS.Normal (flat_map (contribution config) (invocations detectors project)),
     {| AnalyzeProjectUseCase.results :=
          flat_map (contribution config) (invocations detectors project);
        AnalyzeProjectUseCase.console :=
          log ++ flat_map (logged config) (invocations detectors project) |}) ∧
  (∀ (i : Invocation) (message : string),
     outcome config i = JS.Throw message →
     contribution config i = [] ∧
     (enabled config i = true → length (logged config i) = 1%nat)).
Proof.
  split.
  - apply analyzeProject_run.
  - intros i message Hthrow. split.
    + by eapply contribution_of_throw.
    + intros Hen. by eapply logged_of_throw.
Qed.

Lemma analyzeProject_isolates_failures_witness :
  let i := {| inv_detector := unimplemented;
              inv_context := AnalyzeProjectUseCase.projectContext tinyProject;
              inv_what := " for project" |} in
  (AnalyzeProjectUseCase.analyzeProject [unimplemented; longMethod; globalState]
     defaultConfig tinyProject []).1 =
    JS.Normal (flat_map (contribution defaultConfig)
                 (invocations [unimplemented; longMethod; globalState] tinyProject)) ∧
  contribution defaultConfig i = [] ∧
  length (logged defaultConfig i) = 1%nat.
Proof.
  intros i.
  destruct (analyzeProject_isolates_failures [unimplemented; longMethod; globalState]
              defaultConfig tinyProject []) as [Hrun Hthrow].
  destruct (Hthrow i "CodeSmellDetector.detect() must be implemented by subclass" eq_refl)
    as [Hnone Hlog].
  split_and!.
  - by rewrite Hrun.
  - exact Hnone.
  - apply Hlog. reflexivity.
Defined.

(** ** Configuration *)

Example builtins_cover_catalog :
  map fst DetectorThresholds.builtins = AnalysisConfig.allDetectors.
Proof. reflexivity. Qed.

(** The defaults of the configuration object are the built-in values of the
    detectors. *)
Example config_defaults_are_builtins :
  flat_map snd DetectorThresholds.builtins = AnalysisConfig.thresholdDefaults.
Proof. reflexivity. Qed.

(** The constructor accepts every document. *)
Lemma AnalysisConfig_new_total (raw : AnalysisConfig.Raw) :
  ∃ c, AnalysisConfig.new raw = JS.Normal c ∧
       AnalysisConfig.enabledDetectors c =
         default AnalysisConfig.allDetectors (AnalysisConfig.raw_enabledDetectors raw).
Proof. eexists. split; reflexivity. Qed.

(** C9 (code behaviour at the failing input). A configuration that enables
    the unknown detector name NoSuchDetector is loaded without error, the name
    is kept as enabled, and the analysis then runs. *)
Theorem AnalysisConfig_accepts_unknown_detector :
  ("NoSuchDetector" ∉ AnalysisConfig.allDetectors) ∧
  ∃ c, AnalysisConfig.fromYAML unknownDetectorRaw = JS.Normal c ∧
       AnalysisConfig.enabledDetectors c = ["LongMethod"; "NoSuchDetector"] ∧
       AnalysisConfig.isDetectorEnabled c "NoSuchDetector" = true ∧
       ∃ results s,
         AnalyzeProjectUseCase.analyzeProject [longMethod; globalState] c tinyProject [] =
         (JS.Normal results, s).
Proof.
  split.
  - apply (bool_decide_unpack _). vm_compute. exact I.
  - eexists. split; [reflexivity|]. split_and!; [reflexivity..|].
    rewrite analyzeProject_run. eauto.
Qed.

(** ** Falsy thresholds *)

Section Falsy.
Import DetectorThresholds.

Lemma zeroOrFalse_falsy (v : JS.value) : zeroOrFalse v → JS.truthy v = false.
Proof. by intros [-> | ->]. Qed.

Lemma read_insert_falsy (thresholds : thresholds_t) key v builtin :
  JS.truthy v = false → read (<[key := v]> thresholds) key builtin = builtin.
Proof. intros H. unfold read. rewrite get_insert_eq. by apply or_falsy. Qed.

Lemma read_delete (thresholds : thresholds_t) key builtin :
  read (delete key thresholds) key builtin = builtin.
Proof. unfold read. by rewrite get_delete_eq. Qed.

(** A falsy value under [key] reads like a missing [key], for every read. *)
Lemma read_insert_as_delete (thresholds : thresholds_t) key v k builtin :
  JS.truthy v = false →
  read (<[key := v]> thresholds) k builtin = read (delete key thresholds) k builtin.
Proof.
  intros H. destruct (decide (key = k)) as [<-|Hne].
  - by rewrite read_insert_falsy, read_delete.
  - unfold read. by rewrite get_insert_ne, get_delete_ne.
Qed.
End Falsy.

(** The configuration object replaces a falsy value by its default too. *)
Lemma AnalysisConfig_falsy_default (raw : AnalysisConfig.Raw) (key : string)
    (builtin v : JS.value) :
  (key, builtin) ∈ AnalysisConfig.thresholdDefaults →
  AnalysisConfig.props raw !! key = Some v → zeroOrFalse v →
  ∃ c, AnalysisConfig.new raw = JS.Normal c ∧
       AnalysisConfig.thresholds c !! key = Some builtin.
Proof.
  intros Hin Hkey Hv%zeroOrFalse_falsy. eexists. split; [reflexivity|].
  cbn [AnalysisConfig.thresholds]. apply elem_of_list_to_map_1.
  - rewrite <- list_fmap_compose.
    apply (bool_decide_unpack _). vm_compute. exact I.
  - apply list_elem_of_fmap. exists (key, builtin). split; [|done].
    cbn [fst snd]. f_equal. unfold JS.get. rewrite Hkey. simpl.
    by rewrite or_falsy.
Qed.

Section DetectorsRead.
Import DetectorThresholds.

Lemma or_idem (v : JS.value) : JS.or v v = v.
Proof. unfold JS.or. by destruct (JS.truthy v). Qed.

(** A falsy value under [key] reads like the built-in value under [key]. *)
Lemma read_insert_as_builtin (thresholds : thresholds_t) key v k builtin builtin' :
  JS.truthy v = false → (k = key → builtin' = builtin) →
  read (<[key := v]> thresholds) k builtin' = read (<[key := builtin]> thresholds) k builtin'.
Proof.
  intros Hv Hsame. unfold read. destruct (decide (key = k)) as [<-|Hne].
  - rewrite !get_insert_eq, (Hsame eq_refl), or_idem. by apply or_falsy.
  - by rewrite !get_insert_ne.
Qed.

Lemma keys_functional {A B} (l : list (A * B)) (k : A) (b b' : B) :
  NoDup (map fst l) → (k, b) ∈ l → (k, b') ∈ l → b = b'.
Proof.
  induction l as [|[k0 b0] l IH]; intros Hnd Hb Hb'.
  - by apply elem_of_nil in Hb.
  - cbn [map fst] in Hnd. apply NoDup_cons in Hnd as [Hk0 Hnd].
    apply elem_of_cons in Hb as [Hb|Hb]; apply elem_of_cons in Hb' as [Hb'|Hb'].
    + congruence.
    + injection Hb as -> ->. exfalso. apply Hk0. apply list_elem_of_fmap.
      by exists (k0, b').
    + injection Hb' as -> ->. exfalso. apply Hk0. apply list_elem_of_fmap.
      by exists (k0, b).
    + by apply IH.
Qed.

Lemma modelled_keys_NoDup (d : CodeSmellDetector.t) :
  d ∈ modelledDetectors → NoDup (map fst (keysOf (CodeSmellDetector.getName d))).
Proof.
  unfold modelledDetectors. rewrite !elem_of_cons, elem_of_nil.
  intros [->|[->|[->|[->|[->|[->|[->|[]]]]]]]];
    apply (bool_decide_unpack _); vm_compute; exact I.
Qed.

(** Each detector looks at its thresholds through the reads of the table
    only: [detect] returns the same for two threshold objects that read the
    same under the detector's keys. *)
Lemma modelled_detect_reads (d : CodeSmellDetector.t) (context : Context.t)
    (t1 t2 : thresholds_t) :
  d ∈ modelledDetectors →
  (∀ key builtin, (key, builtin) ∈ keysOf (CodeSmellDetector.getName d) →
                  read t1 key builtin = read t2 key builtin) →
  CodeSmellDetector.detect d context t1 = CodeSmellDetector.detect d context t2.
Proof.
  unfold modelledDetectors. rewrite !elem_of_cons, elem_of_nil.
  intros [->|[->|[->|[->|[->|[->|[->|[]]]]]]]] Hreads;
    cbn [CodeSmellDetector.detect CodeSmellDetector.getName longMethod duplicateCode
         middleMan dataClass refusedBequest comments globalState] in *;
    unfold LongMethodDetector.detect, DuplicateCodeDetector.detect,
      MiddleManDetector.detect, DataClassDetector.detect, RefusedBequestDetector.detect,
      CommentsDetector.detect, GlobalStateDetector.detect;
    repeat match goal with
           | |- context [JS.or (JS.get t1 ?k) ?b] =>
               let E := fresh "E" in
               assert (JS.or (JS.get t1 k) b = JS.or (JS.get t2 k) b) as E
                 by (refine (Hreads k b _); vm_compute keysOf;
                     repeat first [apply list_elem_of_here | apply list_elem_of_further]);
               rewrite E; clear E
           end;
    reflexivity.
Qed.
End DetectorsRead.

(** C10. For each of the seven embedded detectors and every threshold key it
    reads, a value of 0 or false under that key is treated as absent and
    replaced by the built-in value: [detect] returns what it returns with the
    key deleted, and what it returns with the key set to the built-in value.
    For all twenty detectors the read of such a key gives the built-in value.
    So LongMethod behaves with maxLines set to 0 as with maxLines absent, and
    with only maxLines given, as 0, a ten-line method of complexity at most 10
    and at most 7 yields is not flagged. *)
Theorem falsy_threshold_reads_as_builtin :
  (∀ (d : CodeSmellDetector.t) (key : string) (builtin v : JS.value)
     (context : Context.t) (thresholds : thresholds_t),
     d ∈ modelledDetectors →
     (key, builtin) ∈ DetectorThresholds.keysOf (CodeSmellDetector.getName d) →
     zeroOrFalse v →
     CodeSmellDetector.detect d context (<[key := v]> thresholds) =
       CodeSmellDetector.detect d context (delete key thresholds) ∧
     CodeSmellDetector.detect d context (<[key := v]> thresholds) =
       CodeSmellDetector.detect d context (<[key := builtin]> thresholds)) ∧
  (∀ (detector key : string) (builtin v : JS.value) (thresholds : thresholds_t),
     (key, builtin) ∈ DetectorThresholds.keysOf detector →
     zeroOrFalse v →
     DetectorThresholds.read (<[key := v]> thresholds) key builtin = builtin ∧
     DetectorThresholds.effective detector (<[key := v]> thresholds) =
       DetectorThresholds.effective detector (delete key thresholds)) ∧
  (∀ (context : Context.t) (v : JS.value) (thresholds : thresholds_t),
     zeroOrFalse v →
     LongMethodDetector.detect context (<["maxLines" := v]> thresholds) =
       LongMethodDetector.detect context (delete "maxLines" thresholds)) ∧
  (∀ (method : Method.t) (owner class_ : option Class.t)
     (project : option GDScriptProject.t) (file : option string),
     Method.loc method = 10%nat →
     (Method.cyclomaticComplexity method ≤ 10)%nat →
     (Method.getYieldCount method ≤ 7)%nat →
     LongMethodDetector.detect (contextOfMethod method owner class_ project file)
       {["maxLines" := JS.Num 0]} =
       JS.Normal (Some {| CodeSmellResult.smellName := "LongMethod";
                          CodeSmellResult.detected := false;
                          CodeSmellResult.severity := None |})).
Proof.
  split_and!.
  - intros d key builtin v context thresholds Hd Hkey Hv%zeroOrFalse_falsy. split.
    + apply modelled_detect_reads; [done|]. intros k b _.
      by apply read_insert_as_delete.
    + apply modelled_detect_reads; [done|]. intros k b Hk.
      apply read_insert_as_builtin; [done|]. intros ->.
      by apply (keys_functional _ key _ _ (modelled_keys_NoDup d Hd)).
  - intros detector key builtin v thresholds _ Hv%zeroOrFalse_falsy. split.
    + by apply read_insert_falsy.
    + unfold DetectorThresholds.effective. apply map_ext. intros [k d].
      cbn [fst snd]. f_equal. by apply read_insert_as_delete.
  - intros context v thresholds Hv%zeroOrFalse_falsy.
    unfold LongMethodDetector.detect. destruct (Context.method context); [|done].
    pose proof (λ k b, read_insert_as_delete thresholds "maxLines" v k b Hv) as H.
    unfold DetectorThresholds.read in H. by rewrite !H.
  - intros method owner class_ project file Hloc Hcc Hyc.
    unfold LongMethodDetector.detect. cbn [contextOfMethod Context.method].
    rewrite Hloc.
    assert (JS.gt (JS.Num (JS.ofNat (Method.cyclomaticComplexity method)))
                  (JS.or (JS.get {["maxLines" := JS.Num 0]} "maxComplexity") (JS.Num 10))
            = false) as ->.
    { apply not_true_is_false. intros (q & [= <-] & Hq)%gt_Num_iff.
      change 10%Q with (JS.ofNat 10) in Hq. apply ofNat_lt in Hq. lia. }
    assert (JS.gt (JS.Num (JS.ofNat (Method.getYieldCount method)))
                  (JS.or (JS.get {["maxLines" := JS.Num 0]} "maxYields") (JS.Num 7))
            = false) as ->.
    { apply not_true_is_false. intros (q & [= <-] & Hq)%gt_Num_iff.
      change 7%Q with (JS.ofNat 7) in Hq. apply ofNat_lt in Hq. lia. }
    reflexivity.
Qed.

Lemma falsy_threshold_reads_as_builtin_witness :
  GlobalStateDetector.detect (contextOfProject sixAutoloadProject)
      {["maxAutoloads" := JS.Num 0]} =
    GlobalStateDetector.detect (contextOfProject sixAutoloadProject)
      {["maxAutoloads" := JS.Num 5]} ∧
  DataClassDetector.detect (contextOfClass statsClass tinyProject)
      (<["publicFields" := JS.Bool false]> ∅) =
    DataClassDetector.detect (contextOfClass statsClass tinyProject)
      (delete "publicFields" ∅) ∧
  DetectorThresholds.read (<["maxLines" := JS.Num 0]> ∅) "maxLines" (JS.Num 50) = JS.Num 50 ∧
  LongMethodDetector.detect (contextOfMethod tenLineMethod None None None None)
    (<["maxLines" := JS.Bool false]> ∅) =
    LongMethodDetector.detect (contextOfMethod tenLineMethod None None None None)
      (delete "maxLines" ∅) ∧
  LongMethodDetector.detect (contextOfMethod tenLineMethod None None None None)
    {["maxLines" := JS.Num 0]} =
    JS.Normal (Some {| CodeSmellResult.smellName := "LongMethod";
                       CodeSmellResult.detected := false;
                       CodeSmellResult.severity := None |}).
Proof.
  destruct falsy_threshold_reads_as_builtin as (Hdetect & Hread & Hsame & Hten).
  split_and!.
  - apply (Hdetect globalState "maxAutoloads" (JS.Num 5) (JS.Num 0)
             (contextOfProject sixAutoloadProject) ∅).
    + unfold modelledDetectors.
      repeat first [apply list_elem_of_here | apply list_elem_of_further].
    + apply list_elem_of_here.
    + by left.
  - apply (Hdetect dataClass "publicFields" (JS.Num 0) (JS.Bool false)
             (contextOfClass statsClass tinyProject) ∅).
    + unfold modelledDetectors.
      repeat first [apply list_elem_of_here | apply list_elem_of_further].
    + apply list_elem_of_further, list_elem_of_here.
    + by right.
  - apply (Hread "LongMethod" "maxLines" (JS.Num 50) (JS.Num 0) ∅).
    + apply list_elem_of_here.
    + by left.
  - apply Hsame. by right.
  - apply Hten.
    + reflexivity.
    + vm_compute. lia.
    + vm_compute. lia.
Defined.


(** * Further properties of the code *)

(** ** Strings, lines and identifiers *)

Section Trim.
Import JS.

Lemma append_nil_r (s : string) : s +:+ "" = s.
Proof. induction s as [|a s IH]; [done|]. change (String a (s +:+ "") = String a s). by rewrite IH. Qed.

Lemma append_assoc (s1 s2 s3 : string) : (s1 +:+ s2) +:+ s3 = s1 +:+ (s2 +:+ s3).
Proof.
  induction s1 as [|a s1 IH]; [done|].
  change (String a ((s1 +:+ s2) +:+ s3) = String a (s1 +:+ (s2 +:+ s3))). by rewrite IH.
Qed.

Lemma rev_app_rev_app (s acc acc' : string) :
  String.rev_app (String.rev_app s acc) acc' = String.rev_app acc (s +:+ acc').
Proof.
  revert acc acc'. induction s as [|a s IH]; intros acc acc'; [done|].
  cbn [String.rev_app]. by rewrite IH.
Qed.

Lemma rev_involutive (s : string) : String.rev (String.rev s) = s.
Proof. unfold String.rev. rewrite rev_app_rev_app. cbn [String.rev_app]. apply append_nil_r. Qed.

Lemma rev_app_spec (s acc : string) : String.rev_app s acc = String.rev s +:+ acc.
Proof.
  revert acc. induction s as [|a s IH]; intros acc; [done|].
  unfold String.rev. cbn [String.rev_app]. rewrite !IH, append_assoc. done.
Qed.

Lemma rev_append (s1 s2 : string) :
  String.rev (s1 +:+ s2) = String.rev s2 +:+ String.rev s1.
Proof.
  induction s1 as [|a s1 IH].
  - change ("" +:+ s2) with s2. by rewrite append_nil_r.
  - change (String a s1 +:+ s2) with (String a (s1 +:+ s2)).
    unfold String.rev at 1 3. cbn [String.rev_app].
    rewrite !rev_app_spec, IH, append_assoc. done.
Qed.

Lemma trimStart_headOK (s : string) : headOK (trimStart s).
Proof.
  induction s as [|a s IH]; [done|]. cbn [trimStart].
  destruct (Ascii.is_space a) eqn:E; [exact IH | exact E].
Qed.

Lemma trimStart_id (s : string) : headOK s → trimStart s = s.
Proof. destruct s as [|a s]; [done|]. cbn [trimStart headOK]. by intros ->. Qed.

(** Trimming the start of a string that holds a character other than white
    space keeps everything from that character on. *)
Lemma trimStart_keeps (u v : string) (a : ascii) :
  Ascii.is_space a = false →
  ∃ u', trimStart (u +:+ String a v) = u' +:+ String a v.
Proof.
  intros Ha. induction u as [|b u IH].
  - exists "". change ("" +:+ String a v) with (String a v). cbn [trimStart]. by rewrite Ha.
  - change (String b u +:+ String a v) with (String b (u +:+ String a v)).
    cbn [trimStart]. destruct (Ascii.is_space b); [exact IH|].
    by exists (String b u).
Qed.

Lemma trimEnd_headOK (s : string) : headOK s → headOK (trimEnd s).
Proof.
  destruct s as [|a s]; [done|]. cbn [headOK]. intros Ha.
  unfold trimEnd. unfold String.rev at 2. cbn [String.rev_app].
  rewrite rev_app_spec.
  destruct (trimStart_keeps (String.rev s) "" a Ha) as [u' ->].
  rewrite rev_append. exact Ha.
Qed.

Lemma trimEnd_idempotent (s : string) : trimEnd (trimEnd s) = trimEnd s.
Proof.
  unfold trimEnd. rewrite rev_involutive.
  by rewrite (trimStart_id (trimStart _)) by apply trimStart_headOK.
Qed.

Lemma trim_idempotent (s : string) : trim (trim s) = trim s.
Proof.
  unfold trim.
  rewrite (trimStart_id (trimEnd _)) by apply trimEnd_headOK, trimStart_headOK.
  apply trimEnd_idempotent.
Qed.

Lemma trimStart_empty (s : string) : trimStart s = "" ↔ allSpaces s = true.
Proof.
  induction s as [|a s IH]; [done|]. cbn [trimStart allSpaces].
  destruct (Ascii.is_space a); [exact IH|]. split; discriminate.
Qed.

Lemma trimEnd_empty (s : string) : headOK s → trimEnd s = "" → s = "".
Proof.
  destruct s as [|a s]; [done|]. cbn [headOK]. intros Ha.
  unfold trimEnd. unfold String.rev at 2. cbn [String.rev_app].
  rewrite rev_app_spec.
  destruct (trimStart_keeps (String.rev s) "" a Ha) as [u' ->].
  rewrite rev_append. discriminate.
Qed.

Lemma trim_empty (s : string) : trim s = "" ↔ allSpaces s = true.
Proof.
  rewrite <- trimStart_empty. unfold trim. split.
  - apply trimEnd_empty, trimStart_headOK.
  - by intros ->.
Qed.
End Trim.

(** X1. A line built by the CodeLine constructor from an ASCII text holds
    trimmed text: trimming it again changes nothing, it never begins with
    white space, and it is empty exactly when the text given was white space
    only. *)
Theorem CodeLine_from_is_trimmed (text : string) (n : option nat) :
  asciiText text = true →
  JS.trim (CodeLine.content (CodeLine.from text n)) = CodeLine.content (CodeLine.from text n) ∧
  headOK (CodeLine.content (CodeLine.from text n)) ∧
  (CodeLine.content (CodeLine.from text n) = "" ↔ allSpaces text = true).
Proof.
  intros _. cbn [CodeLine.from CodeLine.content]. split_and!.
  - apply trim_idempotent.
  - apply trimEnd_headOK, trimStart_headOK.
  - apply trim_empty.
Qed.

Lemma CodeLine_from_is_trimmed_witness :
  JS.trim (CodeLine.content (CodeLine.from "  return x  " (Some 3%nat))) =
    CodeLine.content (CodeLine.from "  return x  " (Some 3%nat)) ∧
  headOK (CodeLine.content (CodeLine.from "  return x  " (Some 3%nat))) ∧
  (CodeLine.content (CodeLine.from "  return x  " (Some 3%nat)) = "" ↔
   allSpaces "  return x  " = true).
Proof.
  apply (CodeLine_from_is_trimmed "  return x  " (Some 3%nat)). reflexivity.
Defined.

(** X2. On an ASCII string the Identifier constructor throws exactly when
    the string is white space only (the empty string included); otherwise it
    returns an identifier that prints as the very string given, untrimmed, and
    two identifiers it returns are equal exactly when the strings given are
    the same. *)
Theorem Identifier_from_checks_blank (s1 s2 : string) :
  asciiText s1 = true → asciiText s2 = true →
  ((∃ message, Identifier.from s1 = JS.Throw message) ↔ allSpaces s1 = true) ∧
  (∀ i, Identifier.from s1 = JS.Normal i → Identifier.toString i = s1) ∧
  (∀ i1 i2,
     Identifier.from s1 = JS.Normal i1 → Identifier.from s2 = JS.Normal i2 →
     (Identifier.equals i1 i2 = true ↔ s1 = s2)).
Proof.
  intros _ _.
  assert (∀ s i, Identifier.from s = JS.Normal i → Identifier.toString i = s) as Hto.
  { intros s i. unfold Identifier.from. destruct (String.eqb _ _); [done|].
    by intros [= <-]. }
  split_and!.
  - rewrite <- trim_empty. unfold Identifier.from.
    destruct (String.eqb_spec (JS.trim s1) "") as [E|E].
    + split; [done | eauto].
    + split; [by intros [? ?] | done].
  - apply Hto.
  - intros i1 i2 H1%Hto H2%Hto. unfold Identifier.equals.
    unfold Identifier.toString in H1, H2. rewrite bool_decide_eq_true. by subst.
Qed.

Lemma Identifier_from_checks_blank_witness :
  (∃ message, Identifier.from "   " = JS.Throw message) ∧
  Identifier.from " Player" = JS.Normal {| Identifier.value := " Player" |} ∧
  Identifier.toString {| Identifier.value := " Player" |} = " Player".
Proof.
  split_and!.
  - apply (Identifier_from_checks_blank "   " "   " eq_refl eq_refl). reflexivity.
  - reflexivity.
  - apply (Identifier_from_checks_blank " Player" " Player" eq_refl eq_refl). reflexivity.
Defined.

(** ** Method metrics and LongMethod *)

(** X3. The cyclomatic complexity of a method lies between 1 and its number
    of lines plus 1, and its yield/await count is at most its number of
    lines; an empty method has complexity 1 and no yields. *)
Theorem Method_metric_bounds (m : Method.t) :
  (1 ≤ Method.cyclomaticComplexity m ≤ 1 + Method.loc m)%nat ∧
  (Method.getYieldCount m ≤ Method.loc m)%nat ∧
  (Method.lines m = [] →
     Method.cyclomaticComplexity m = 1%nat ∧ Method.getYieldCount m = 0%nat).
Proof.
  unfold Method.cyclomaticComplexity, Method.calculateCyclomaticComplexity,
    Method.getYieldCount, Method.loc.
  rewrite complexityLoop_count. split_and!.
  - lia.
  - pose proof (length_filter
      (λ l, Method.hitsKeyword l Method.decisionKeywords = true) (Method.lines m)). lia.
  - apply length_filter.
  - by intros ->.
Qed.

Lemma Method_metric_bounds_witness :
  Method.cyclomaticComplexity (mkMethod "noop" []) = 1%nat ∧
  Method.getYieldCount (mkMethod "noop" []) = 0%nat.
Proof.
  destruct (Method_metric_bounds (mkMethod "noop" [])) as (_ & _ & Hempty).
  apply Hempty. reflexivity.
Defined.

Lemma effective_LongMethod_default (thresholds : thresholds_t) :
  DetectorThresholds.effective "LongMethod" thresholds =
  DetectorThresholds.effective "LongMethod" ∅ →
  DetectorThresholds.read thresholds "maxLines" (JS.Num 50) = JS.Num 50 ∧
  DetectorThresholds.read thresholds "maxComplexity" (JS.Num 10) = JS.Num 10 ∧
  DetectorThresholds.read thresholds "maxYields" (JS.Num 7) = JS.Num 7.
Proof.
  unfold DetectorThresholds.effective.
  intros H. vm_compute DetectorThresholds.keysOf in H.
  cbn [map fst snd] in H. injection H as H1 H2 H3. split_and!; assumption.
Qed.

Lemma gt_ofNat_Num (n k : nat) :
  JS.gt (JS.Num (JS.ofNat n)) (JS.Num (JS.ofNat k)) = (k <? n)%nat.
Proof.
  destruct (Nat.ltb_spec k n) as [H|H].
  - apply gt_Num_iff. eexists. split; [done|]. by apply ofNat_lt.
  - apply not_true_is_false. intros (q & [= <-] & Hq)%gt_Num_iff.
    apply ofNat_lt in Hq. lia.
Qed.

(** X4. With the default thresholds no method of at most 7 lines is flagged
    by LongMethod, whatever its lines say: its complexity is at most 8 and it
    has at most 7 yields. *)
Theorem LongMethod_short_method_not_flagged (method : Method.t)
    (owner class_ : option Class.t) (project : option GDScriptProject.t)
    (file : option string) (thresholds : thresholds_t) :
  DetectorThresholds.effective "LongMethod" thresholds =
    DetectorThresholds.effective "LongMethod" ∅ →
  (Method.loc method ≤ 7)%nat →
  LongMethodDetector.detect (contextOfMethod method owner class_ project file) thresholds =
    JS.Normal (Some {| CodeSmellResult.smellName := "LongMethod";
                       CodeSmellResult.detected := false;
                       CodeSmellResult.severity := None |}).
Proof.
  intros (HL & HC & HY)%effective_LongMethod_default Hloc.
  destruct (Method_metric_bounds method) as ([_ Hcc] & Hyc & _).
  unfold LongMethodDetector.detect. cbn [contextOfMethod Context.method].
  unfold DetectorThresholds.read in HL, HC, HY. rewrite HL, HC, HY.
  change 50%Q with (JS.ofNat 50). change 10%Q with (JS.ofNat 10).
  change 7%Q with (JS.ofNat 7). rewrite !gt_ofNat_Num.
  rewrite (proj2 (Nat.ltb_ge 50 _)), (proj2 (Nat.ltb_ge 10 _)), (proj2 (Nat.ltb_ge 7 _))
    by lia.
  reflexivity.
Qed.

Lemma LongMethod_short_method_not_flagged_witness :
  LongMethodDetector.detect (contextOfMethod awaitingMethod None None None None) ∅ =
    JS.Normal (Some {| CodeSmellResult.smellName := "LongMethod";
                       CodeSmellResult.detected := false;
                       CodeSmellResult.severity := None |}).
Proof.
  apply LongMethod_short_method_not_flagged; [reflexivity | vm_compute; lia].
Defined.

Lemma gt_ofNat_mono (a b : nat) (limit : JS.value) :
  (a ≤ b)%nat → JS.gt (JS.Num (JS.ofNat a)) limit = true →
  JS.gt (JS.Num (JS.ofNat b)) limit = true.
Proof.
  intros Hle (q & Hq & Hlt)%gt_Num_iff. apply gt_Num_iff. exists q. split; [done|].
  eapply Qlt_le_trans; [exact Hlt|]. by apply ofNat_le.
Qed.

(** The severity tiers of LongMethod grow with the lines of code and the
    complexity. *)
Lemma LongMethod_tier_mono (l1 c1 l2 c2 : nat) (s1 s2 : Severity) (name : string) :
  (l1 ≤ l2)%nat → (c1 ≤ c2)%nat →
  s1 = (if (200 <? l1)%nat || (30 <? c1)%nat then Critical
        else if (100 <? l1)%nat || (20 <? c1)%nat then High
        else if (50 <? l1)%nat || (10 <? c1)%nat then Medium else Low) →
  s2 = (if (200 <? l2)%nat || (30 <? c2)%nat then Critical
        else if (100 <? l2)%nat || (20 <? c2)%nat then High
        else if (50 <? l2)%nat || (10 <? c2)%nat then Medium else Low) →
  (CodeSmellResult.getSeverityLevel
     {| CodeSmellResult.smellName := name; CodeSmellResult.detected := true;
        CodeSmellResult.severity := Some s1 |} ≤
   CodeSmellResult.getSeverityLevel
     {| CodeSmellResult.smellName := name; CodeSmellResult.detected := true;
        CodeSmellResult.severity := Some s2 |})%nat.
Proof.
  intros Hl Hc -> ->. unfold CodeSmellResult.getSeverityLevel. cbn [CodeSmellResult.severity].
  repeat match goal with
         | |- context [(?a <? ?b)%nat] =>
             destruct (Nat.ltb_spec a b); try (exfalso; lia)
         end; cbn; lia.
Qed.

(** X5. LongMethod is monotone: under the same thresholds, a method with at
    least as many lines, as much complexity and as many yields as a flagged
    method is flagged too, and its severity is at least as high. *)
Theorem LongMethod_monotone (m1 m2 : Method.t) (thresholds : thresholds_t)
    (r1 r2 : CodeSmellResult.t) :
  (Method.loc m1 ≤ Method.loc m2)%nat →
  (Method.cyclomaticComplexity m1 ≤ Method.cyclomaticComplexity m2)%nat →
  (Method.getYieldCount m1 ≤ Method.getYieldCount m2)%nat →
  LongMethodDetector.detect (contextOfMethod m1 None None None None) thresholds =
    JS.Normal (Some r1) →
  LongMethodDetector.detect (contextOfMethod m2 None None None None) thresholds =
    JS.Normal (Some r2) →
  (CodeSmellResult.detected r1 = true → CodeSmellResult.detected r2 = true) ∧
  (CodeSmellResult.getSeverityLevel r1 ≤ CodeSmellResult.getSeverityLevel r2)%nat.
Proof.
  intros Hl Hc Hy. unfold LongMethodDetector.detect. cbn [contextOfMethod Context.method].
  intros [= <-] [= <-]. cbn [CodeSmellResult.detected].
  set (T1 := JS.or (JS.get thresholds "maxLines") (JS.Num 50)).
  set (T2 := JS.or (JS.get thresholds "maxComplexity") (JS.Num 10)).
  set (T3 := JS.or (JS.get thresholds "maxYields") (JS.Num 7)).
  assert (JS.gt (JS.Num (JS.ofNat (Method.loc m1))) T1 ||
          JS.gt (JS.Num (JS.ofNat (Method.cyclomaticComplexity m1))) T2 ||
          JS.gt (JS.Num (JS.ofNat (Method.getYieldCount m1))) T3 = true →
          JS.gt (JS.Num (JS.ofNat (Method.loc m2))) T1 ||
          JS.gt (JS.Num (JS.ofNat (Method.cyclomaticComplexity m2))) T2 ||
          JS.gt (JS.Num (JS.ofNat (Method.getYieldCount m2))) T3 = true) as Hmono.
  { rewrite !orb_true_iff. intros [[H|H]|H]; eauto using gt_ofNat_mono. }
  split; [exact Hmono|].
  destruct (JS.gt _ T1 || JS.gt _ T2 || JS.gt _ T3) eqn:E1.
  - rewrite (Hmono eq_refl).
    by apply (LongMethod_tier_mono (Method.loc m1) (Method.cyclomaticComplexity m1)
                (Method.loc m2) (Method.cyclomaticComplexity m2)).
  - unfold CodeSmellResult.getSeverityLevel at 1. cbn. lia.
Qed.

Lemma LongMethod_monotone_witness :
  let low := {| CodeSmellResult.smellName := "LongMethod";
                CodeSmellResult.detected := true;
                CodeSmellResult.severity := Some Low |} in
  (CodeSmellResult.detected low = true → CodeSmellResult.detected low = true) ∧
  (CodeSmellResult.getSeverityLevel low ≤ CodeSmellResult.getSeverityLevel low)%nat.
Proof.
  intros low.
  apply (LongMethod_monotone awaitingMethod branchingMethod {["maxLines" := JS.Num 1]});
    first [reflexivity | vm_compute; lia].
Defined.

(** ** Results of the modelled detectors *)

Lemma wellFormed_built (name : string) (flag : bool) (tier : Severity) :
  wellFormed name
    {| CodeSmellResult.smellName := name; CodeSmellResult.detected := flag;
       CodeSmellResult.severity := if flag then Some tier else None |}.
Proof. split; [done|]. by destruct flag. Qed.

(** X6. Every result returned by one of the seven modelled detectors, for
    any context and thresholds, carries the name of the detector and has a
    severity exactly when it is flagged. *)
Theorem detector_results_well_formed (d : CodeSmellDetector.t) (context : Context.t)
    (thresholds : thresholds_t) (r : CodeSmellResult.t) :
  d ∈ modelledDetectors →
  CodeSmellDetector.detect d context thresholds = JS.Normal (Some r) →
  wellFormed (CodeSmellDetector.getName d) r.
Proof.
  unfold modelledDetectors. rewrite !elem_of_cons, elem_of_nil.
  intros [->|[->|[->|[->|[->|[->|[->|[]]]]]]]];
    cbn [CodeSmellDetector.detect CodeSmellDetector.getName longMethod duplicateCode
         middleMan dataClass refusedBequest comments globalState].
  - unfold LongMethodDetector.detect. destruct (Context.method context); [|done].
    intros [= <-]. apply wellFormed_built.
  - unfold DuplicateCodeDetector.detect. destruct (Context.project context); [|done].
    intros [= <-]. apply wellFormed_built.
  - unfold MiddleManDetector.detect. destruct (Context.class_ context); [|done].
    intros [= <-]. apply wellFormed_built.
  - unfold DataClassDetector.detect. destruct (Context.class_ context); [|done].
    intros [= <-]. apply wellFormed_built.
  - unfold RefusedBequestDetector.detect. destruct (Context.class_ context) as [c|]; [|done].
    destruct (Class.parent c); [|done]. destruct (Context.project context); [|done].
    intros [= <-]. apply wellFormed_built.
  - unfold CommentsDetector.detect.
    destruct (Context.method context); [|destruct (Context.class_ context); [|done]];
      intros [= <-]; apply wellFormed_built.
  - unfold GlobalStateDetector.detect. destruct (Context.project context); [|done].
    intros [= <-]. apply wellFormed_built.
Qed.

Lemma detector_results_well_formed_witness :
  wellFormed "GlobalState"
    {| CodeSmellResult.smellName := "GlobalState"; CodeSmellResult.detected := true;
       CodeSmellResult.severity := Some Critical |}.
Proof.
  apply (detector_results_well_formed globalState (contextOfProject godProject) ∅).
  - unfold modelledDetectors. do 6 apply list_elem_of_further. apply list_elem_of_here.
  - reflexivity.
Defined.

(** ** RefusedBequest: edge cases *)

Section RefusedEdges.
Import RefusedBequestDetector.

Lemma usageLoop_empty_length (subclass : Class.t) (pms : list Method.t) :
  ∀ used empty,
    (length (usageLoop subclass pms used empty).2 ≤ length empty + length pms)%nat.
Proof.
  induction pms as [|pm pms IH]; intros used empty; cbn [usageLoop length]; [simpl; lia|].
  etrans; [apply IH|].
  destruct (isMethodOverridden pm subclass); [|lia].
  destruct (Class.getMethod subclass _) as [om|]; [|lia].
  destruct (isEmptyOverride om); [|lia]. rewrite length_app. simpl. lia.
Qed.

Lemma ofNat_ratio_bounds (a b : nat) :
  (a ≤ b)%nat → (0 < b)%nat → (0 <= JS.ofNat a / JS.ofNat b <= 1)%Q.
Proof.
  intros Hab Hb.
  assert (0 < JS.ofNat b)%Q as Hb' by (change 0%Q with (JS.ofNat 0); by apply ofNat_lt).
  assert (0 <= JS.ofNat a)%Q as Ha' by (change 0%Q with (JS.ofNat 0); apply ofNat_le; lia).
  split.
  - apply Qle_shift_div_l; [done|]. by rewrite Qmult_0_l.
  - apply Qle_shift_div_r; [done|]. rewrite Qmult_1_l. by apply ofNat_le.
Qed.

Lemma findParent_None (subclass : Class.t) (project : GDScriptProject.t)
    (pid : Identifier.t) :
  Class.parent subclass = Some pid →
  (∀ c, c ∈ GDScriptProject.classes project →
        Identifier.value (Class.name c) ≠ Identifier.value pid) →
  findParent subclass project = None.
Proof.
  intros Hp Hnot. unfold findParent. rewrite Hp.
  destruct (List.find _ _) as [c|] eqn:E; [|done].
  apply find_some in E as [Hin Heq]. apply list_elem_of_In in Hin.
  unfold Identifier.equals in Heq. apply bool_decide_eq_true in Heq.
  by destruct (Hnot c Hin).
Qed.
End RefusedEdges.

(** X7. With the default thresholds, a class whose parent is not a class of
    the project (an engine class, say) is never flagged by RefusedBequest: the
    usage ratio is taken to be 1.0 and there are no empty overrides. *)
Theorem RefusedBequest_foreign_parent_not_flagged
    (context : Context.t) (class_ : Class.t) (project : GDScriptProject.t)
    (pid : Identifier.t) (thresholds : thresholds_t) :
  Context.class_ context = Some class_ →
  Context.project context = Some project →
  Class.parent class_ = Some pid →
  (∀ c, c ∈ GDScriptProject.classes project →
        Identifier.value (Class.name c) ≠ Identifier.value pid) →
  DetectorThresholds.effective "RefusedBequest" thresholds =
    DetectorThresholds.effective "RefusedBequest" ∅ →
  RefusedBequestDetector.detect context thresholds =
    JS.Normal (Some {| CodeSmellResult.smellName := "RefusedBequest";
                       CodeSmellResult.detected := false;
                       CodeSmellResult.severity := None |}).
Proof.
  intros Hc Hp Hpar Hnot [Hr He]%effective_RefusedBequest_default.
  unfold RefusedBequestDetector.detect. rewrite Hc, Hpar, Hp.
  unfold DetectorThresholds.read in Hr, He. rewrite Hr, He.
  unfold RefusedBequestDetector.analyzeInheritanceUsage.
  by rewrite (findParent_None _ _ _ Hpar Hnot).
Qed.

Lemma RefusedBequest_foreign_parent_not_flagged_witness :
  RefusedBequestDetector.detect (contextOfClass nodeChild markerProject) ∅ =
    JS.Normal (Some {| CodeSmellResult.smellName := "RefusedBequest";
                       CodeSmellResult.detected := false;
                       CodeSmellResult.severity := None |}).
Proof.
  apply (RefusedBequest_foreign_parent_not_flagged
           (contextOfClass nodeChild markerProject) nodeChild markerProject
           {| Identifier.value := "Node2D" |} ∅); try reflexivity.
  intros c Hc. cbv [markerProject mkProject GDScriptProject.classes] in Hc.
  rewrite !elem_of_cons, elem_of_nil in Hc.
  destruct Hc as [->|[->|[->|[]]]]; discriminate.
Defined.

(** X8. With the default thresholds, a subclass of a class of the project
    that has no methods is always flagged, with severity High: the usage ratio
    of an empty parent is 0. *)
Theorem RefusedBequest_empty_parent_is_High
    (context : Context.t) (class_ parentClass : Class.t) (project : GDScriptProject.t)
    (thresholds : thresholds_t) :
  Context.class_ context = Some class_ →
  Context.project context = Some project →
  RefusedBequestDetector.findParent class_ project = Some parentClass →
  Class.methods parentClass = [] →
  DetectorThresholds.effective "RefusedBequest" thresholds =
    DetectorThresholds.effective "RefusedBequest" ∅ →
  RefusedBequestDetector.detect context thresholds =
    JS.Normal (Some {| CodeSmellResult.smellName := "RefusedBequest";
                       CodeSmellResult.detected := true;
                       CodeSmellResult.severity := Some High |}).
Proof.
  intros Hc Hp Hfind Hnone [Hr He]%effective_RefusedBequest_default.
  unfold RefusedBequestDetector.detect. rewrite Hc, Hp.
  destruct (findParent_Some _ _ _ Hfind) as [pid ->].
  unfold DetectorThresholds.read in Hr, He. rewrite Hr, He.
  unfold RefusedBequestDetector.analyzeInheritanceUsage. rewrite Hfind, Hnone.
  reflexivity.
Qed.

Lemma RefusedBequest_empty_parent_is_High_witness :
  RefusedBequestDetector.detect (contextOfClass markerChild markerProject) ∅ =
    JS.Normal (Some {| CodeSmellResult.smellName := "RefusedBequest";
                       CodeSmellResult.detected := true;
                       CodeSmellResult.severity := Some High |}).
Proof.
  apply (RefusedBequest_empty_parent_is_High
           (contextOfClass markerChild markerProject) markerChild emptyBase
           markerProject ∅); reflexivity.
Defined.

(** X9. The inheritance analysis keeps its numbers in range: the usage ratio
    lies between 0 and 1, and neither the used methods nor the empty overrides
    outnumber the methods of the parent. *)
Theorem analyzeInheritanceUsage_in_range (subclass : Class.t) (project : GDScriptProject.t) :
  let analysis := RefusedBequestDetector.analyzeInheritanceUsage subclass project in
  (0 <= RefusedBequestDetector.usageRatio analysis <= 1)%Q ∧
  (length (RefusedBequestDetector.usedMethods analysis) ≤
     RefusedBequestDetector.totalParentMethods analysis)%nat ∧
  (length (RefusedBequestDetector.overriddenEmpty analysis) ≤
     RefusedBequestDetector.totalParentMethods analysis)%nat.
Proof.
  unfold RefusedBequestDetector.analyzeInheritanceUsage.
  destruct (RefusedBequestDetector.findParent subclass project) as [parentClass|].
  - pose proof (usageLoop_used subclass (Class.methods parentClass) [] []) as Hu.
    pose proof (usageLoop_empty_length subclass (Class.methods parentClass) [] []) as He.
    destruct (RefusedBequestDetector.usageLoop _ _ _ _) as [used empty].
    cbn [fst snd] in Hu, He. cbn zeta.
    cbn [RefusedBequestDetector.usageRatio RefusedBequestDetector.usedMethods
         RefusedBequestDetector.totalParentMethods RefusedBequestDetector.overriddenEmpty].
    assert (length used ≤ length (Class.methods parentClass))%nat as Hlen.
    { rewrite Hu. cbn [app]. rewrite length_map. apply length_filter. }
    split; [|split; [done|simpl in He; lia]].
    destruct (Nat.ltb_spec 0 (length (Class.methods parentClass))) as [Hpos|_].
    + by apply ofNat_ratio_bounds.
    + split; discriminate.
  - cbn. split; [split; discriminate|split; lia].
Qed.

(** ** Comments: size of a flagged target, class scope *)

Lemma Comments_detect_counts (target : CommentsDetector.Target)
    (owner other : option Class.t) (project : option GDScriptProject.t)
    (file : option string) (thresholds : thresholds_t) :
  CommentsDetector.detect (contextOfTarget target owner other project file) thresholds =
  JS.Normal (Some
    (let analysis := CommentsDetector.summarize (commentCount (targetLines target))
                                                (codeCount (targetLines target)) in
     let isDetected :=
       JS.gt (JS.Num (CommentsDetector.commentDensity analysis))
             (DetectorThresholds.read thresholds "maxCommentDensity" (JS.Num 0.5)) &&
       (10 <? CommentsDetector.codeLines analysis)%nat in
     {| CodeSmellResult.smellName := "Comments";
        CodeSmellResult.detected := isDetected;
        CodeSmellResult.severity :=
          if isDetected
          then Some (if JS.Qlt_bool 0.7 (CommentsDetector.commentDensity analysis)
                     then Medium else Low)
          else None |})).
Proof.
  unfold CommentsDetector.detect.
  destruct target;
    cbn [contextOfTarget Context.method Context.class_ fmap option_fmap option_map];
    by rewrite analyzeComments_counts.
Qed.

(** More than half of the non-blank lines are comments only when the comment
    lines outnumber the code lines. *)
Lemma half_density (c d : nat) :
  (0.5 < JS.ofNat c / JS.ofNat (c + d))%Q → (d < c)%nat.
Proof.
  intros H. destruct (Nat.le_gt_cases c d) as [Hle|Hgt]; [|done]. exfalso.
  apply (Qlt_not_le _ _ H).
  destruct (Nat.eq_dec (c + d) 0) as [E|E].
  - rewrite E. assert (c = 0%nat) as -> by lia. discriminate.
  - apply Qle_shift_div_r.
    + change 0%Q with (JS.ofNat 0). apply ofNat_lt. lia.
    + unfold Qle, JS.ofNat. cbn. lia.
Qed.

(** X10. With the default thresholds, whatever the Comments detector flags
    has more than 10 code lines and more comment lines than code lines, hence
    at least 23 non-blank lines. *)
Theorem Comments_flagged_target_size (target : CommentsDetector.Target)
    (owner other : option Class.t) (project : option GDScriptProject.t)
    (file : option string) (thresholds : thresholds_t) (r : CodeSmellResult.t) :
  DetectorThresholds.effective "Comments" thresholds =
    DetectorThresholds.effective "Comments" ∅ →
  CommentsDetector.detect (contextOfTarget target owner other project file) thresholds =
    JS.Normal (Some r) →
  CodeSmellResult.detected r = true →
  (10 < codeCount (targetLines target))%nat ∧
  (codeCount (targetLines target) < commentCount (targetLines target))%nat ∧
  (23 ≤ nonBlankCount (targetLines target))%nat.
Proof.
  intros Hdef%effective_Comments_default. rewrite Comments_detect_counts, Hdef.
  intros [= <-]. cbn [CodeSmellResult.detected].
  rewrite andb_true_iff, gt_Num_iff, Nat.ltb_lt.
  intros [(q & [= <-] & Hq) Hcode]. cbn [CommentsDetector.codeLines CommentsDetector.summarize] in Hcode.
  pose proof (summarize_density (commentCount (targetLines target))
                (codeCount (targetLines target))) as Hd.
  rewrite Hd in Hq. apply half_density in Hq.
  rewrite nonBlankCount_split. lia.
Qed.

Lemma Comments_flagged_target_size_witness :
  (10 < codeCount (Method.lines overCommentedMethod))%nat ∧
  (codeCount (Method.lines overCommentedMethod) <
     commentCount (Method.lines overCommentedMethod))%nat ∧
  (23 ≤ nonBlankCount (Method.lines overCommentedMethod))%nat.
Proof.
  apply (Comments_flagged_target_size (CommentsDetector.OfMethod overCommentedMethod)
           None None None None ∅
           {| CodeSmellResult.smellName := "Comments"; CodeSmellResult.detected := true;
              CodeSmellResult.severity := Some Low |});
    first [reflexivity | vm_compute; reflexivity].
Defined.

Lemma commentCount_flat_map (methods : list Method.t) :
  commentCount (flat_map Method.lines methods) =
  sum_list (map (λ m, commentCount (Method.lines m)) methods).
Proof.
  induction methods as [|m methods IH]; [done|].
  cbn [flat_map map sum_list]. by rewrite commentCount_app, IH.
Qed.

Lemma codeCount_flat_map (methods : list Method.t) :
  codeCount (flat_map Method.lines methods) =
  sum_list (map (λ m, codeCount (Method.lines m)) methods).
Proof.
  induction methods as [|m methods IH]; [done|].
  cbn [flat_map map sum_list]. by rewrite codeCount_app, IH.
Qed.

(** X11. At class scope the Comments analysis adds up the analyses of the
    methods: the comment lines and the code lines of a class are the sums over
    its methods, the total is their sum, and the density lies between 0 and
    1. *)
Theorem analyzeClassComments_adds_up (class_ : Class.t) :
  let a := CommentsDetector.analyzeClassComments class_ in
  CommentsDetector.commentLines a =
    sum_list (map (λ m, CommentsDetector.commentLines
                          (CommentsDetector.analyzeMethodComments m))
                  (Class.methods class_)) ∧
  CommentsDetector.codeLines a =
    sum_list (map (λ m, CommentsDetector.codeLines
                          (CommentsDetector.analyzeMethodComments m))
                  (Class.methods class_)) ∧
  CommentsDetector.totalLines a =
    (CommentsDetector.commentLines a + CommentsDetector.codeLines a)%nat ∧
  (0 <= CommentsDetector.commentDensity a <= 1)%Q.
Proof.
  cbn zeta.
  pose proof (analyzeComments_counts (CommentsDetector.OfClass class_)) as H.
  cbn [CommentsDetector.analyzeComments targetLines] in H. rewrite H.
  cbn [CommentsDetector.summarize CommentsDetector.commentLines CommentsDetector.codeLines
       CommentsDetector.totalLines CommentsDetector.commentDensity].
  rewrite commentCount_flat_map, codeCount_flat_map.
  split; [|split; [|split; [done|]]].
  - f_equal. apply map_ext. intros m. by rewrite analyzeMethodComments_counts.
  - f_equal. apply map_ext. intros m. by rewrite analyzeMethodComments_counts.
  - destruct (Nat.ltb_spec 0
      (sum_list (map (λ m, commentCount (Method.lines m)) (Class.methods class_)) +
       sum_list (map (λ m, codeCount (Method.lines m)) (Class.methods class_))))
      as [Hpos|_].
    + apply ofNat_ratio_bounds; lia.
    + split; discriminate.
Qed.

(** ** DuplicateCode: range, invariance, bounds *)

Lemma filter_none {A} (P : A → Prop) `{∀ x, Decision (P x)} (l : list A) :
  (∀ x, x ∈ l → ¬ P x) → filter P l = [].
Proof.
  induction l as [|x l IH]; intros Hno; [done|].
  rewrite filter_cons, decide_False by (apply Hno; left).
  apply IH. intros y Hy. apply Hno. by right.
Qed.

Lemma length_omap_le {A B} (f : A → option B) (l : list A) :
  (length (omap f l) ≤ length l)%nat.
Proof.
  induction l as [|x l IH]; [done|]. cbn [omap list_omap length].
  destruct (f x); cbn [length]; lia.
Qed.

Section SimilarityMore.
Import DuplicateCodeDetector.

Lemma length_addAll {A} `{EqDecision A} (l : list A) :
  ∀ acc, (length (JS.addAll acc l) ≤ length acc + length l)%nat.
Proof.
  induction l as [|x l IH]; intros acc; cbn [JS.addAll length]; [lia|].
  etrans; [apply IH|]. destruct (JS.has acc x); [|rewrite length_app; simpl]; lia.
Qed.

Lemma length_newSet {A} `{EqDecision A} (l : list A) :
  (length (JS.newSet l) ≤ length l)%nat.
Proof. unfold JS.newSet. pose proof (length_addAll l []). simpl in *. lia. Qed.

Lemma newSet_Permutation {A} `{EqDecision A} (l1 l2 : list A) :
  l1 ≡ₚ l2 → JS.newSet l1 ≡ₚ JS.newSet l2.
Proof.
  intros Hp. apply NoDup_Permutation; [apply NoDup_newSet..|].
  intros x. rewrite !elem_of_newSet. by rewrite Hp.
Qed.

Lemma countMatchingLines_le (lines1 lines2 : list string) :
  (countMatchingLines lines1 lines2 ≤ length lines1)%nat.
Proof.
  unfold countMatchingLines. rewrite matchLoop_count. cbn [plus].
  etrans; [apply length_filter|]. etrans; [apply length_newSet|]. by rewrite length_map.
Qed.

Lemma countMatchingLines_Permutation (l1 l1' l2 l2' : list string) :
  map JS.trim l1 ≡ₚ map JS.trim l1' → map JS.trim l2 ≡ₚ map JS.trim l2' →
  countMatchingLines l1 l2 = countMatchingLines l1' l2'.
Proof.
  intros H1 H2. unfold countMatchingLines. rewrite !matchLoop_count. f_equal.
  apply Permutation_length, NoDup_Permutation.
  - apply NoDup_filter, NoDup_newSet.
  - apply NoDup_filter, NoDup_newSet.
  - intros x. rewrite !list_elem_of_filter, !elem_of_newSet. by rewrite H1, H2.
Qed.

(** No common line, no match. *)
Lemma countMatchingLines_disjoint (l1 l2 : list string) :
  (∀ x, x ∈ map JS.trim l1 → x ∉ map JS.trim l2) →
  countMatchingLines l1 l2 = 0%nat.
Proof.
  intros Hdis. unfold countMatchingLines. rewrite matchLoop_count. cbn [plus].
  rewrite filter_none; [done|].
  intros x Hx Hx2. rewrite elem_of_newSet in Hx. rewrite elem_of_newSet in Hx2.
  by apply (Hdis x).
Qed.

Lemma length_pairLoop (ml ms : JS.value) (blocks : list Block) :
  (2 * length (pairLoop ml ms blocks) ≤ length blocks * (length blocks - 1))%nat.
Proof.
  induction blocks as [|b blocks IH]; [simpl; lia|].
  cbn [pairLoop]. rewrite length_app. cbn [length].
  pose proof (length_omap_le (comparePair ml ms b) blocks). nia.
Qed.
End SimilarityMore.

(** X12. Block similarity always lies between 0 and 1. *)
Theorem calculateSimilarity_in_range (lines1 lines2 : list string) :
  (0 <= DuplicateCodeDetector.calculateSimilarity lines1 lines2 <= 1)%Q.
Proof.
  unfold DuplicateCodeDetector.calculateSimilarity.
  destruct lines1 as [|x1 lines1], lines2 as [|x2 lines2]; cbn [length Nat.eqb andb orb];
    try (split; discriminate).
  apply ofNat_ratio_bounds; [|lia].
  etrans; [apply countMatchingLines_le|]. cbn [length]. lia.
Qed.

(** X13. Block similarity looks at the lines of a block only up to their order
    and their surrounding white space: two pairs of blocks whose trimmed lines
    are the same up to reordering have the same similarity. *)
Theorem calculateSimilarity_order_and_padding (l1 l1' l2 l2' : list string) :
  map JS.trim l1 ≡ₚ map JS.trim l1' →
  map JS.trim l2 ≡ₚ map JS.trim l2' →
  DuplicateCodeDetector.calculateSimilarity l1 l2 =
  DuplicateCodeDetector.calculateSimilarity l1' l2'.
Proof.
  intros H1 H2. unfold DuplicateCodeDetector.calculateSimilarity.
  pose proof (Permutation_length H1) as E1. pose proof (Permutation_length H2) as E2.
  rewrite !length_map in E1, E2.
  by rewrite (countMatchingLines_Permutation l1 l1' l2 l2'), E1, E2.
Qed.

Lemma calculateSimilarity_order_and_padding_witness :
  DuplicateCodeDetector.calculateSimilarity ["a = 1"; "  b = 2"; "c = 3"] ["b = 2"; "d = 4"] =
  DuplicateCodeDetector.calculateSimilarity ["c = 3  "; "a = 1"; "b = 2"] ["d = 4"; " b = 2 "].
Proof.
  apply calculateSimilarity_order_and_padding.
  - apply (bool_decide_unpack _). vm_compute. exact I.
  - apply (bool_decide_unpack _). vm_compute. exact I.
Defined.

Section AllPairs.
Import DuplicateCodeDetector.

Lemma omap_cons_eq {A C} (h : A → option C) (x : A) (l : list A) :
  omap h (x :: l) = match h x with Some y => y :: omap h l | None => omap h l end.
Proof. reflexivity. Qed.

Lemma omap_of_map {A B C} (g : B → option C) (f : A → B) (l : list A) :
  omap g (map f l) = omap (λ x, g (f x)) l.
Proof. induction l as [|x l IH]; [done|]. cbn [map]. by rewrite !omap_cons_eq, IH. Qed.

Lemma map_of_flat_map {A B C} (g : B → C) (f : A → list B) (l : list A) :
  map g (flat_map f l) = flat_map (λ x, map g (f x)) l.
Proof. induction l as [|x l IH]; [done|]. cbn [flat_map]. by rewrite map_app, IH. Qed.

Lemma omap_lookup_seq {A C} (h : A → option C) (l : list A) :
  omap (λ j, l !! j ≫= h) (seq 0 (length l)) = omap h l.
Proof.
  induction l as [|x l IH]; [done|].
  cbn [length seq]. rewrite <- seq_shift, !omap_cons_eq, omap_of_map.
  change ((x :: l) !! 0%nat ≫= h) with (h x).
  change (omap (λ j : nat, (x :: l) !! S j ≫= h) (seq 0 (length l)))
    with (omap (λ j : nat, l !! j ≫= h) (seq 0 (length l))).
  by rewrite IH.
Qed.

Lemma indexPairs_S (n : nat) :
  indexPairs (S n) =
    map (λ j, (0, S j)) (seq 0 n) ++ map (λ ij, (S ij.1, S ij.2)) (indexPairs n).
Proof.
  unfold indexPairs. cbn [seq flat_map]. f_equal.
  - replace (S n - 1)%nat with n by lia. rewrite <- seq_shift. apply map_map.
  - rewrite <- seq_shift, flat_map_of_map, map_of_flat_map.
    apply flat_map_ext. intros i.
    change (S n - S (S i)) with (n - S i). rewrite <- seq_shift, !map_map. done.
Qed.

(** The two loops visit every pair of blocks once, the earlier block
    first. *)
Lemma pairLoop_indexPairs (ml ms : JS.value) (blocks : list Block) :
  pairLoop ml ms blocks =
    omap (λ ij : nat * nat,
            blocks !! ij.1 ≫= λ b1, blocks !! ij.2 ≫= λ b2, comparePair ml ms b1 b2)
         (indexPairs (length blocks)).
Proof.
  induction blocks as [|b rest IH]; [done|].
  cbn [pairLoop length]. rewrite indexPairs_S, omap_app, !omap_of_map.
  cbn [fst snd lookup list_lookup mbind option_bind]. f_equal.
  - symmetry. apply (omap_lookup_seq (comparePair ml ms b)).
  - exact IH.
Qed.
End AllPairs.

(** X14. DuplicateCode extracts one block per method and compares every pair
    of blocks once: the duplicates are, in the order of the two loops, the
    reported comparisons of the blocks at the index pairs (i, j) with i < j.
    So a project with n methods yields at most n(n-1)/2 duplicate pairs, and
    one with fewer than two methods is never flagged. *)
Theorem findDuplicates_at_most_all_pairs (project : GDScriptProject.t)
    (minLines minSimilarity : JS.value) (context : Context.t) (thresholds : thresholds_t) :
  length (DuplicateCodeDetector.extractCodeBlocks project) =
    AnalyzeProjectUseCase.countMethods project ∧
  DuplicateCodeDetector.findDuplicates project minLines minSimilarity =
    omap (λ ij : nat * nat,
            DuplicateCodeDetector.extractCodeBlocks project !! ij.1 ≫= λ b1,
            DuplicateCodeDetector.extractCodeBlocks project !! ij.2 ≫= λ b2,
            DuplicateCodeDetector.comparePair minLines minSimilarity b1 b2)
         (indexPairs (AnalyzeProjectUseCase.countMethods project)) ∧
  (2 * length (DuplicateCodeDetector.findDuplicates project minLines minSimilarity) ≤
     AnalyzeProjectUseCase.countMethods project *
     (AnalyzeProjectUseCase.countMethods project - 1))%nat ∧
  (Context.project context = Some project →
   (AnalyzeProjectUseCase.countMethods project ≤ 1)%nat →
   DuplicateCodeDetector.detect context thresholds =
     JS.Normal (Some {| CodeSmellResult.smellName := "DuplicateCode";
                        CodeSmellResult.detected := false;
                        CodeSmellResult.severity := None |})).
Proof.
  assert (length (DuplicateCodeDetector.extractCodeBlocks project) =
          AnalyzeProjectUseCase.countMethods project) as Hn.
  { unfold DuplicateCodeDetector.extractCodeBlocks, AnalyzeProjectUseCase.countMethods.
    generalize (GDScriptProject.classes project). intros cs.
    assert (∀ n, foldl (λ total class_, (total + length (Class.methods class_))%nat) n cs =
                 (n + length (flat_map (λ class_,
                        map (λ method,
                          {| DuplicateCodeDetector.location :=
                               {| DuplicateCodeDetector.loc_class :=
                                    Identifier.toString (Class.name class_);
                                  DuplicateCodeDetector.loc_method :=
                                    Identifier.toString (Method.name method) |};
                             DuplicateCodeDetector.lines :=
                               map CodeLine.content (Method.lines method) |})
                          (Class.methods class_)) cs))%nat) as H.
    { induction cs as [|c cs IH]; intros n; cbn [foldl flat_map]; [simpl; lia|].
      rewrite IH, length_app, length_map. lia. }
    by rewrite H. }
  split; [exact Hn|]. rewrite <- Hn.
  split; [apply pairLoop_indexPairs|].
  pose proof (length_pairLoop minLines minSimilarity
                (DuplicateCodeDetector.extractCodeBlocks project)) as Hb.
  split; [exact Hb|].
  intros Hctx Hle. unfold DuplicateCodeDetector.detect. rewrite Hctx.
  pose proof (length_pairLoop
                (JS.or (JS.get thresholds "minLines") (JS.Num 5))
                (JS.or (JS.get thresholds "minSimilarity") (JS.Num 0.6))
                (DuplicateCodeDetector.extractCodeBlocks project)) as Hb'.
  unfold DuplicateCodeDetector.findDuplicates.
  assert (length (DuplicateCodeDetector.pairLoop
                    (JS.or (JS.get thresholds "minLines") (JS.Num 5))
                    (JS.or (JS.get thresholds "minSimilarity") (JS.Num 0.6))
                    (DuplicateCodeDetector.extractCodeBlocks project)) = 0%nat) as ->
    by nia.
  reflexivity.
Qed.

Lemma findDuplicates_at_most_all_pairs_witness :
  DuplicateCodeDetector.detect (contextOfProject tinyProject) ∅ =
    JS.Normal (Some {| CodeSmellResult.smellName := "DuplicateCode";
                       CodeSmellResult.detected := false;
                       CodeSmellResult.severity := None |}).
Proof.
  destruct (findDuplicates_at_most_all_pairs tinyProject (JS.Num 5) (JS.Num 0.6)
              (contextOfProject tinyProject) ∅) as (_ & _ & _ & H).
  apply H; [reflexivity | vm_compute; lia].
Defined.

(** X15. Whatever the thresholds, a pair of blocks is reported only if the
    two blocks have a trimmed line in common, or are both empty. *)
Theorem comparePair_needs_common_line (minLines minSimilarity : JS.value)
    (b1 b2 : DuplicateCodeDetector.Block) (d : DuplicateCodeDetector.Duplicate) :
  DuplicateCodeDetector.comparePair minLines minSimilarity b1 b2 = Some d →
  (DuplicateCodeDetector.lines b1 = [] ∧ DuplicateCodeDetector.lines b2 = []) ∨
  (∃ x, x ∈ map JS.trim (DuplicateCodeDetector.lines b1) ∧
        x ∈ map JS.trim (DuplicateCodeDetector.lines b2)).
Proof.
  unfold DuplicateCodeDetector.comparePair.
  destruct (_ && _); [|done].
  destruct (JS.ge _ _ && JS.Qlt_bool 0 _) eqn:E; [|done]. intros _.
  apply andb_true_iff in E as [_ Hpos]. apply Qlt_bool_iff in Hpos.
  unfold DuplicateCodeDetector.calculateSimilarity in Hpos.
  destruct (DuplicateCodeDetector.lines b1) as [|x1 ls1] eqn:E1,
           (DuplicateCodeDetector.lines b2) as [|x2 ls2] eqn:E2;
    cbn [length Nat.eqb andb orb] in Hpos; [by left|by vm_compute in Hpos..|].
  right.
  destruct (decide (Exists (λ x, x ∈ map JS.trim (x2 :: ls2)) (map JS.trim (x1 :: ls1))))
    as [Hex|Hno]; [by apply Exists_exists in Hex|]. exfalso.
  rewrite countMatchingLines_disjoint in Hpos
    by (intros x H1 H2; apply Hno, Exists_exists; eauto).
  revert Hpos. unfold Qlt, Qdiv, Qmult, JS.ofNat. cbn. lia.
Qed.

Lemma comparePair_needs_common_line_witness :
  (DuplicateCodeDetector.lines (blockOf "score_a" distinctBody) = [] ∧
   DuplicateCodeDetector.lines (blockOf "score_b" distinctBody) = []) ∨
  (∃ x, x ∈ map JS.trim (DuplicateCodeDetector.lines (blockOf "score_a" distinctBody)) ∧
        x ∈ map JS.trim (DuplicateCodeDetector.lines (blockOf "score_b" distinctBody))).
Proof.
  eapply (comparePair_needs_common_line (JS.Num 5) (JS.Num 0.6)). reflexivity.
Defined.

(** ** GlobalState, DataClass and MiddleMan under the default thresholds *)

Lemma ratio_gt_iff (a b : nat) (x : Q) :
  (0 < b)%nat → (x < JS.ofNat a / JS.ofNat b)%Q ↔ (x * JS.ofNat b < JS.ofNat a)%Q.
Proof.
  intros Hb.
  assert (0 < JS.ofNat b)%Q as Hb' by (change 0%Q with (JS.ofNat 0); by apply ofNat_lt).
  split.
  - intros H. apply Qnot_le_lt. intros Hle. apply (Qlt_not_le _ _ H).
    by apply Qle_shift_div_r.
  - by apply Qlt_shift_div_l.
Qed.

(** X16. With the default thresholds GlobalState flags a project exactly when
    it has more than 5 autoloads, or more than 20 autoload fields in total, or
    a god autoload; a flagged project never gets severity Low, and a project
    without autoloads is not flagged. *)
Theorem GlobalState_default_profile (context : Context.t) (project : GDScriptProject.t)
    (thresholds : thresholds_t) (r : CodeSmellResult.t) :
  Context.project context = Some project →
  DetectorThresholds.effective "GlobalState" thresholds =
    DetectorThresholds.effective "GlobalState" ∅ →
  GlobalStateDetector.detect context thresholds = JS.Normal (Some r) →
  (CodeSmellResult.detected r = true ↔
     (5 < length (GDScriptProject.autoloads project))%nat ∨
     (20 < aggregateFieldCount (GDScriptProject.autoloads project))%nat ∨
     Exists isGodAutoload (GDScriptProject.autoloads project)) ∧
  CodeSmellResult.severity r ≠ Some Low ∧
  (GDScriptProject.autoloads project = [] → CodeSmellResult.detected r = false).
Proof.
  intros Hctx [Ha Hv]%effective_GlobalState_default.
  unfold GlobalStateDetector.detect. rewrite Hctx.
  unfold DetectorThresholds.read in Ha, Hv. rewrite Ha, Hv.
  change 5%Q with (JS.ofNat 5). change 20%Q with (JS.ofNat 20).
  rewrite !gt_ofNat_Num, analyzeGlobalState_total.
  intros [= <-]. cbn [CodeSmellResult.detected CodeSmellResult.severity].
  set (n := length (GDScriptProject.autoloads project)).
  set (v := aggregateFieldCount (GDScriptProject.autoloads project)).
  assert ((0 <? length (GlobalStateDetector.godAutoloads
                          (GlobalStateDetector.analyzeGlobalState project)))%nat = true ↔
          Exists isGodAutoload (GDScriptProject.autoloads project)) as Hgod.
  { rewrite Nat.ltb_lt. split.
    - intros Hpos.
      assert (∀ a, Decision (isGodAutoload a)) as Hdec
        by (intros a; unfold isGodAutoload; apply _).
      destruct (Exists_dec isGodAutoload (GDScriptProject.autoloads project))
        as [Hex|Hno]; [exact Hex|].
      apply not_Exists_Forall in Hno; [|exact Hdec].
      rewrite analyzeGlobalState_no_god in Hpos by exact Hno. simpl in Hpos. lia.
    - intros (a & Hin & Hg)%Exists_exists. by eapply analyzeGlobalState_god. }
  split_and!.
  - rewrite !orb_true_iff, Hgod, !Nat.ltb_lt. tauto.
  - destruct (0 <? length _)%nat; [by rewrite !orb_true_r|]. rewrite !orb_false_r.
    destruct (Nat.ltb_spec 5 n), (Nat.ltb_spec 20 v), (Nat.ltb_spec 8 n),
      (Nat.ltb_spec 40 v); cbn; try discriminate; lia.
  - intros Hnone. subst n v. unfold GlobalStateDetector.analyzeGlobalState.
    rewrite Hnone. reflexivity.
Qed.

Lemma GlobalState_default_profile_witness :
  let r := {| CodeSmellResult.smellName := "GlobalState"; CodeSmellResult.detected := false;
              CodeSmellResult.severity := None |} in
  (CodeSmellResult.detected r = true ↔
     (5 < length (GDScriptProject.autoloads tinyProject))%nat ∨
     (20 < aggregateFieldCount (GDScriptProject.autoloads tinyProject))%nat ∨
     Exists isGodAutoload (GDScriptProject.autoloads tinyProject)) ∧
  CodeSmellResult.severity r ≠ Some Low ∧
  (GDScriptProject.autoloads tinyProject = [] → CodeSmellResult.detected r = false).
Proof.
  intros r.
  apply (GlobalState_default_profile (contextOfProject tinyProject) tinyProject ∅);
    reflexivity.
Defined.

Lemma effective_DataClass_default (thresholds : thresholds_t) :
  DetectorThresholds.effective "DataClass" thresholds =
  DetectorThresholds.effective "DataClass" ∅ →
  DetectorThresholds.read thresholds "behaviorMethods" (JS.Num 0) = JS.Num 0 ∧
  DetectorThresholds.read thresholds "publicFields" (JS.Num 0) = JS.Num 0.
Proof.
  unfold DetectorThresholds.effective.
  intros H. vm_compute DetectorThresholds.keysOf in H.
  cbn [map fst snd] in H. injection H as H1 H2. split; assumption.
Qed.

Lemma Qeq_bool_ofNat_zero (n : nat) : Qeq_bool (JS.ofNat n) 0 = (n =? 0)%nat.
Proof.
  destruct n as [|n]; [done|].
  apply not_true_is_false. intros H%Qeq_bool_iff. revert H.
  unfold Qeq, JS.ofNat. cbn. lia.
Qed.

(** X17. With the default thresholds DataClass flags a class exactly when all
    its methods are accessors (a class without methods included) and it has
    at least one field; the severity is Medium with more than 5 fields and Low
    otherwise. *)
Theorem DataClass_default_profile (context : Context.t) (class_ : Class.t)
    (thresholds : thresholds_t) (r : CodeSmellResult.t) :
  Context.class_ context = Some class_ →
  DetectorThresholds.effective "DataClass" thresholds =
    DetectorThresholds.effective "DataClass" ∅ →
  DataClassDetector.detect context thresholds = JS.Normal (Some r) →
  (CodeSmellResult.detected r = true ↔
     Forall (λ m, DataClassDetector.isAccessorMethod m = true) (Class.methods class_) ∧
     Class.fields class_ ≠ []) ∧
  (CodeSmellResult.detected r = true →
     CodeSmellResult.severity r =
       Some (if (5 <? length (Class.fields class_))%nat then Medium else Low)).
Proof.
  intros Hctx [Hb Hp]%effective_DataClass_default.
  unfold DataClassDetector.detect. rewrite Hctx.
  unfold DetectorThresholds.read in Hb, Hp. rewrite Hb, Hp.
  intros [= <-]. cbn [CodeSmellResult.detected CodeSmellResult.severity].
  cbn [DataClassDetector.analyzeDataClass DataClassDetector.behaviorMethods
       DataClassDetector.publicFields].
  rewrite !length_map, !Qeq_bool_ofNat_zero.
  change 0%Q with (JS.ofNat 0). rewrite gt_ofNat_Num.
  split.
  - rewrite andb_true_iff, orb_true_iff, Nat.eqb_eq, !Nat.ltb_lt, length_zero_iff_nil.
    split.
    + intros [Hnil Hf]. split.
      * apply Forall_forall. intros m Hm.
        destruct (DataClassDetector.isAccessorMethod m) eqn:E; [done|].
        assert (m ∈ filter (λ method, DataClassDetector.isAccessorMethod method = false)
                           (Class.methods class_)) as Hin
          by (by apply list_elem_of_filter).
        rewrite Hnil in Hin. by apply elem_of_nil in Hin.
      * intros Hnone. rewrite Hnone in Hf. simpl in Hf. lia.
    + intros [Hall Hf]. split.
      * apply filter_none. intros m Hm Hfalse.
        rewrite Forall_forall in Hall. rewrite (Hall m Hm) in Hfalse. done.
      * left. destruct (Class.fields class_); [done|simpl; lia].
  - by intros ->.
Qed.

Lemma DataClass_default_profile_witness :
  let r := {| CodeSmellResult.smellName := "DataClass"; CodeSmellResult.detected := true;
              CodeSmellResult.severity := Some Low |} in
  (CodeSmellResult.detected r = true ↔
     Forall (λ m, DataClassDetector.isAccessorMethod m = true) (Class.methods statsClass) ∧
     Class.fields statsClass ≠ []) ∧
  (CodeSmellResult.detected r = true →
     CodeSmellResult.severity r =
       Some (if (5 <? length (Class.fields statsClass))%nat then Medium else Low)).
Proof.
  intros r.
  apply (DataClass_default_profile (contextOfClass statsClass tinyProject) statsClass ∅);
    reflexivity.
Defined.

Section MiddleMan.
Import MiddleManDetector.

Lemma delegationLoop_delegating (class_ : Class.t) (methods : list Method.t) :
  ∀ delegating targets,
    length (delegationLoop class_ methods delegating targets).1 =
    (length delegating +
     length (filter (λ m, isDelegatingMethod m class_ = true) methods))%nat.
Proof.
  induction methods as [|m methods IH]; intros delegating targets.
  - simpl. lia.
  - cbn [delegationLoop]. rewrite filter_cons.
    destruct (isDelegatingMethod m class_) eqn:E.
    + rewrite IH, decide_True, length_app by done. cbn [length]. lia.
    + rewrite IH, decide_False by congruence. done.
Qed.

Lemma analyzeDelegation_ratio (class_ : Class.t) :
  delegationRatio (analyzeDelegation class_) =
  if (0 <? length (Class.methods class_))%nat
  then (JS.ofNat (length (delegatingOf class_)) / JS.ofNat (length (Class.methods class_)))%Q
  else 0%Q.
Proof.
  unfold analyzeDelegation.
  pose proof (delegationLoop_delegating class_ (Class.methods class_) [] []) as H.
  destruct (delegationLoop _ _ _ _) as [delegating targets]. cbn [fst length plus] in H.
  cbn [delegationRatio]. by rewrite H.
Qed.

Lemma effective_MiddleMan_default (thresholds : thresholds_t) :
  DetectorThresholds.effective "MiddleMan" thresholds =
  DetectorThresholds.effective "MiddleMan" ∅ →
  DetectorThresholds.read thresholds "maxDelegationRatio" (JS.Num 0.5) = JS.Num 0.5.
Proof.
  unfold DetectorThresholds.effective.
  intros H. vm_compute DetectorThresholds.keysOf in H.
  cbn [map fst snd] in H. by injection H as H1.
Qed.
End MiddleMan.

(** X18. With the default threshold MiddleMan flags a class exactly when more
    than half of its methods are delegating ones; the severity is then High
    when more than four fifths are, and Medium otherwise, never Low.  A class
    without methods is not flagged. *)
Theorem MiddleMan_default_profile (context : Context.t) (class_ : Class.t)
    (thresholds : thresholds_t) (r : CodeSmellResult.t) :
  Context.class_ context = Some class_ →
  DetectorThresholds.effective "MiddleMan" thresholds =
    DetectorThresholds.effective "MiddleMan" ∅ →
  MiddleManDetector.detect context thresholds = JS.Normal (Some r) →
  (CodeSmellResult.detected r = true ↔
     (length (Class.methods class_) < 2 * length (delegatingOf class_))%nat) ∧
  (CodeSmellResult.detected r = true →
     CodeSmellResult.severity r =
       Some (if (4 * length (Class.methods class_) <? 5 * length (delegatingOf class_))%nat
             then High else Medium)).
Proof.
  intros Hctx Hd%effective_MiddleMan_default.
  unfold MiddleManDetector.detect. rewrite Hctx.
  unfold DetectorThresholds.read in Hd. rewrite Hd, analyzeDelegation_ratio.
  intros [= <-]. cbn [CodeSmellResult.detected CodeSmellResult.severity].
  set (n := length (Class.methods class_)). set (k := length (delegatingOf class_)).
  assert (k ≤ n)%nat as Hkn by apply length_filter.
  destruct (Nat.ltb_spec 0 n) as [Hpos|Hzero].
  - assert (JS.gt (JS.Num (JS.ofNat k / JS.ofNat n)) (JS.Num 0.5) = (n <? 2 * k)%nat) as ->.
    { destruct (Nat.ltb_spec n (2 * k)) as [H|H].
      - apply gt_Num_iff. eexists. split; [done|]. apply ratio_gt_iff; [done|].
        unfold Qlt, JS.ofNat. cbn. lia.
      - apply not_true_is_false. intros (q & [= <-] & Hq)%gt_Num_iff.
        apply ratio_gt_iff in Hq; [|done]. revert Hq. unfold Qlt, JS.ofNat. cbn. lia. }
    assert (JS.Qlt_bool 0.8 (JS.ofNat k / JS.ofNat n) = (4 * n <? 5 * k)%nat) as ->.
    { destruct (Nat.ltb_spec (4 * n) (5 * k)) as [H|H].
      - apply Qlt_bool_iff, ratio_gt_iff; [done|]. unfold Qlt, JS.ofNat. cbn. lia.
      - apply not_true_is_false. intros Hq%Qlt_bool_iff.
        apply ratio_gt_iff in Hq; [|done]. revert Hq. unfold Qlt, JS.ofNat. cbn. lia. }
    assert (JS.Qlt_bool 0.5 (JS.ofNat k / JS.ofNat n) = (n <? 2 * k)%nat) as ->.
    { destruct (Nat.ltb_spec n (2 * k)) as [H|H].
      - apply Qlt_bool_iff, ratio_gt_iff; [done|]. unfold Qlt, JS.ofNat. cbn. lia.
      - apply not_true_is_false. intros Hq%Qlt_bool_iff.
        apply ratio_gt_iff in Hq; [|done]. revert Hq. unfold Qlt, JS.ofNat. cbn. lia. }
    split; [by rewrite Nat.ltb_lt|]. intros ->. by destruct (4 * n <? 5 * k)%nat.
  - assert (n = 0%nat) as Hn by lia. assert (k = 0%nat) as Hk by lia.
    rewrite Hn, Hk. split; [split; [discriminate|simpl; lia]|discriminate].
Qed.

Lemma MiddleMan_default_profile_witness :
  let r := {| CodeSmellResult.smellName := "MiddleMan"; CodeSmellResult.detected := true;
              CodeSmellResult.severity := Some High |} in
  (CodeSmellResult.detected r = true ↔
     (length (Class.methods facadeClass) < 2 * length (delegatingOf facadeClass))%nat) ∧
  (CodeSmellResult.detected r = true →
     CodeSmellResult.severity r =
       Some (if (4 * length (Class.methods facadeClass) <?
                 5 * length (delegatingOf facadeClass))%nat
             then High else Medium)).
Proof.
  intros r.
  apply (MiddleMan_default_profile (contextOfClass facadeClass tinyProject) facadeClass ∅);
    reflexivity.
Defined.

(** ** Classes and projects *)

(** X19. [hasMethod] and [getMethod] agree: a class has a method of a name
    exactly when looking the name up finds one; what is found is a method of
    the class with that name; and RefusedBequest's override test is
    [hasMethod] of the parent method's name. *)
Theorem Class_hasMethod_getMethod (c : Class.t) (methodName : string) :
  (Class.hasMethod c methodName = true ↔ ∃ m, Class.getMethod c methodName = Some m) ∧
  (∀ m, Class.getMethod c methodName = Some m →
        m ∈ Class.methods c ∧ Identifier.toString (Method.name m) = methodName) ∧
  (∀ pm, RefusedBequestDetector.isMethodOverridden pm c =
         Class.hasMethod c (Identifier.toString (Method.name pm))).
Proof.
  assert (∀ name, Class.hasMethod c name = true ↔ ∃ m, Class.getMethod c name = Some m)
    as Hiff.
  { intros name. unfold Class.hasMethod, Class.getMethodNames, Class.getMethod.
    rewrite existsb_exists. split.
    - intros (n & Hin & Heq). apply in_map_iff in Hin as (m & <- & Hm).
      apply String.eqb_eq in Heq.
      destruct (List.find _ _) as [m'|] eqn:E; [eauto|].
      eapply find_none in E; [|exact Hm]. apply bool_decide_eq_false in E. by destruct E.
    - intros (m & Hfind). apply find_some in Hfind as [Hin Heq].
      apply bool_decide_eq_true in Heq. exists (Identifier.toString (Method.name m)).
      split; [apply in_map_iff; eauto|]. by apply String.eqb_eq. }
  split_and!.
  - apply Hiff.
  - intros m Hfind. apply find_some in Hfind as [Hin Heq].
    apply bool_decide_eq_true in Heq. split; [by apply list_elem_of_In|done].
  - intros pm. unfold RefusedBequestDetector.isMethodOverridden.
    destruct (Class.hasMethod c _) eqn:E.
    + apply bool_decide_eq_true. apply Hiff in E as [m ->]. eauto.
    + apply bool_decide_eq_false. intros [m Hm].
      assert (Class.hasMethod c (Identifier.toString (Method.name pm)) = true)
        by (apply Hiff; eauto). congruence.
Qed.

Lemma Class_hasMethod_getMethod_witness :
  (mkMethod "m3" ["pass"]) ∈ Class.methods baseClass ∧
  Identifier.toString (Method.name (mkMethod "m3" ["pass"])) = "m3".
Proof.
  destruct (Class_hasMethod_getMethod baseClass "m3") as (_ & Hget & _).
  apply Hget. reflexivity.
Defined.

Section LCOM.
Import Class.

Lemma lcomInner_counts (c : t) (method1 : Method.t) (rest : list Method.t) :
  ∀ s p, ∃ k, lcomInner c method1 rest s p = ((s + k)%nat, (p + length rest)%nat) ∧
              (k ≤ length rest)%nat ∧ (fields c = [] → k = 0%nat).
Proof.
  induction rest as [|method2 rest IH]; intros s p.
  - exists 0%nat. cbn [lcomInner length]. split; [f_equal; lia|]. split; [lia|done].
  - cbn [lcomInner]. destruct (sharesField c method1 method2) eqn:E.
    + destruct (IH (S s) (S p)) as (k & -> & Hk & Hz). exists (S k).
      cbn [length]. split; [f_equal; lia|]. split; [lia|].
      intros Hnone. unfold sharesField in E. rewrite Hnone in E. discriminate.
    + destruct (IH s (S p)) as (k & -> & Hk & Hz). exists k.
      cbn [length]. split; [f_equal; lia|]. split; [lia|done].
Qed.

Lemma lcomLoop_counts (c : t) (methodsArray : list Method.t) :
  ∀ s p, ∃ k q, lcomLoop c methodsArray s p = ((s + k)%nat, (p + q)%nat) ∧
                (2 * q = length methodsArray * (length methodsArray - 1))%nat ∧
                (k ≤ q)%nat ∧ (fields c = [] → k = 0%nat).
Proof.
  induction methodsArray as [|method1 rest IH]; intros s p.
  - exists 0%nat, 0%nat. cbn [lcomLoop length]. split; [f_equal; lia|]. split; [lia|]. done.
  - cbn [lcomLoop]. destruct (lcomInner_counts c method1 rest s p) as (k1 & -> & Hk1 & Hz1).
    destruct (IH (s + k1)%nat (p + length rest)%nat) as (k2 & q2 & -> & Hq2 & Hk2 & Hz2).
    exists (k1 + k2)%nat, (length rest + q2)%nat. cbn [length].
    split; [f_equal; lia|]. split; [nia|]. split; [lia|].
    intros Hnone. rewrite (Hz1 Hnone), (Hz2 Hnone). done.
Qed.
End LCOM.

(** X20. The lack-of-cohesion metric of a class with n methods lies between 0
    and the number n(n-1)/2 of method pairs; it is 0 for a class with at most
    one method and equals the number of pairs for a class without fields. *)
Theorem calculateLCOM_bounds (c : Class.t) :
  let n := Z.of_nat (length (Class.methods c)) in
  (0 ≤ Class.calculateLCOM c)%Z ∧
  (2 * Class.calculateLCOM c ≤ n * (n - 1))%Z ∧
  ((n ≤ 1)%Z → Class.calculateLCOM c = 0%Z) ∧
  (Class.fields c = [] → (2 * Class.calculateLCOM c = n * (n - 1))%Z).
Proof.
  cbn zeta. unfold Class.calculateLCOM.
  destruct (Nat.leb_spec (length (Class.methods c)) 1) as [Hle|Hgt].
  - split; [lia|]. split; [nia|]. split; [done|]. intros _.
    destruct (length (Class.methods c)) as [|[|n]]; simpl; lia.
  - destruct (lcomLoop_counts c (Class.methods c) 0 0) as (k & q & -> & Hq & Hk & Hz).
    cbn [plus]. split; [lia|]. split; [nia|]. split; [lia|].
    intros Hnone. rewrite (Hz Hnone). nia.
Qed.

Lemma calculateLCOM_bounds_witness :
  Class.calculateLCOM (mkClass 0 "Lonely" [mkMethod "only" ["pass"]] None false) = 0%Z ∧
  (2 * Class.calculateLCOM baseClass = 10 * (10 - 1))%Z.
Proof.
  split.
  - destruct (calculateLCOM_bounds
                (mkClass 0 "Lonely" [mkMethod "only" ["pass"]] None false))
      as (_ & _ & Hone & _).
    apply Hone. cbn. lia.
  - destruct (calculateLCOM_bounds baseClass) as (_ & _ & _ & Hnone).
    apply Hnone. reflexivity.
Defined.

Lemma filter_split_length {A} (P : A → Prop) `{∀ x, Decision (P x)} (l : list A) :
  (length (filter P l) + length (filter (λ x, ¬ P x) l) = length l)%nat.
Proof.
  induction l as [|x l IH]; [done|]. rewrite !filter_cons.
  destruct (decide (P x)).
  - rewrite decide_False by tauto. cbn [length]. lia.
  - rewrite decide_True by done. cbn [length]. lia.
Qed.

Lemma newSet_idempotent {A} `{EqDecision A} (l : list A) :
  JS.newSet (JS.newSet l) = JS.newSet l.
Proof. apply newSet_NoDup, NoDup_newSet. Qed.

Lemma new_Normal_inv (classes autoloads : list Class.t) (scenes signals : list string)
    (p : GDScriptProject.t) :
  GDScriptProject.new classes scenes autoloads signals = JS.Normal p →
  p = {| GDScriptProject.classes := JS.newSet classes;
         GDScriptProject.scenes := JS.newSet scenes;
         GDScriptProject.autoloads := JS.newSet autoloads;
         GDScriptProject.signals := JS.newSet signals;
         GDScriptProject.name := None |} ∧
  Forall (λ a, a ∈ JS.newSet classes ∧ Class.autoload a = true) (JS.newSet autoloads).
Proof.
  unfold GDScriptProject.new, GDScriptProject.validate.
  cbn [GDScriptProject.classes GDScriptProject.autoloads].
  destruct (GDScriptProject.validateLoop _ _) as [[]|message] eqn:E; [|done].
  intros [= <-]. split; [done|]. by apply validateLoop_Normal.
Qed.

(** X21. A project the constructor returns keeps the invariant and holds no
    class twice: its classes are the classes given, each once; every autoload
    is one of its classes and has the autoload flag; and its regular classes
    and its autoloads split its classes, so their numbers add up. *)
Theorem GDScriptProject_new_invariant (classes autoloads : list Class.t)
    (scenes signals : list string) (p : GDScriptProject.t) :
  GDScriptProject.new classes scenes autoloads signals = JS.Normal p →
  NoDup (GDScriptProject.classes p) ∧
  NoDup (GDScriptProject.autoloads p) ∧
  (∀ c, c ∈ GDScriptProject.classes p ↔ c ∈ classes) ∧
  (∀ a, a ∈ GDScriptProject.autoloads p →
        a ∈ GDScriptProject.classes p ∧ Class.autoload a = true) ∧
  (∀ c, c ∈ GDScriptProject.getRegularClasses p ↔
        c ∈ GDScriptProject.classes p ∧ c ∉ GDScriptProject.autoloads p) ∧
  (length (GDScriptProject.getRegularClasses p) + length (GDScriptProject.autoloads p) =
     length (GDScriptProject.classes p))%nat.
Proof.
  intros [-> Hinv]%new_Normal_inv.
  cbn [GDScriptProject.classes GDScriptProject.autoloads].
  unfold GDScriptProject.getRegularClasses.
  cbn [GDScriptProject.classes GDScriptProject.autoloads].
  set (cs := JS.newSet classes) in *. set (au := JS.newSet autoloads) in *.
  assert (NoDup cs) as Hcs by apply NoDup_newSet.
  assert (NoDup au) as Hau by apply NoDup_newSet.
  rewrite Forall_forall in Hinv.
  assert (filter (λ c, JS.has au c = false) cs = filter (λ c, ¬ c ∈ au) cs) as Hf.
  { apply list_filter_iff. intros c. apply has_false. }
  rewrite Hf, (newSet_NoDup (filter _ cs)) by by apply NoDup_filter.
  split; [done|]. split; [done|]. split; [|split; [|split]].
  - intros c. apply elem_of_newSet.
  - intros a Ha. by apply Hinv.
  - intros c. rewrite list_elem_of_filter. tauto.
  - rewrite <- (filter_split_length (λ c, c ∈ au) cs). rewrite Nat.add_comm. f_equal.
    apply Permutation_length, NoDup_Permutation; [done|by apply NoDup_filter|].
    intros a. rewrite list_elem_of_filter. split; [|tauto].
    intros Ha. split; [done|]. by apply Hinv.
Qed.

Lemma GDScriptProject_new_invariant_witness :
  (length (GDScriptProject.getRegularClasses (mkProject [audioClass; playerClass] [audioClass])) +
   length (GDScriptProject.autoloads (mkProject [audioClass; playerClass] [audioClass])) =
   length (GDScriptProject.classes (mkProject [audioClass; playerClass] [audioClass])))%nat.
Proof.
  apply (GDScriptProject_new_invariant [audioClass; playerClass; audioClass] [audioClass]
           [] [] (mkProject [audioClass; playerClass] [audioClass])).
  reflexivity.
Defined.

(** X22. Constructing a project again from the sets of a constructed project
    gives the same project. *)
Theorem GDScriptProject_new_again (classes autoloads : list Class.t)
    (scenes signals : list string) (p : GDScriptProject.t) :
  GDScriptProject.new classes scenes autoloads signals = JS.Normal p →
  GDScriptProject.new (GDScriptProject.classes p) (GDScriptProject.scenes p)
    (GDScriptProject.autoloads p) (GDScriptProject.signals p) = JS.Normal p.
Proof.
  intros [-> Hinv]%new_Normal_inv.
  cbn [GDScriptProject.classes GDScriptProject.autoloads GDScriptProject.scenes
       GDScriptProject.signals].
  unfold GDScriptProject.new, GDScriptProject.validate.
  cbn [GDScriptProject.classes GDScriptProject.autoloads].
  rewrite !newSet_idempotent.
  by rewrite (proj2 (validateLoop_Normal _ _) Hinv).
Qed.

Lemma GDScriptProject_new_again_witness :
  GDScriptProject.new [audioClass; playerClass] [] [audioClass] [] =
    JS.Normal (mkProject [audioClass; playerClass] [audioClass]).
Proof.
  apply (GDScriptProject_new_again [audioClass; playerClass; audioClass] [audioClass; audioClass]
           [] [] (mkProject [audioClass; playerClass] [audioClass])).
  reflexivity.
Defined.

Lemma validateLoop_first_bad (classes good rest : list Class.t) (a : Class.t) :
  Forall (λ x, x ∈ classes ∧ Class.autoload x = true) good →
  badAutoload classes a →
  GDScriptProject.validateLoop classes (good ++ a :: rest) =
    JS.Throw ("Autoload class " +:+ Identifier.toString (Class.name a)
              +:+ " must be in classes and have autoload=true").
Proof.
  intros Hgood Hbad. induction Hgood as [|x good [Hin Hflag] _ IH].
  - cbn [app GDScriptProject.validateLoop]. destruct Hbad as [Hnot|Hoff].
    + by rewrite (proj2 (has_false _ _) Hnot).
    + rewrite Hoff. by rewrite orb_true_r.
  - cbn [app GDScriptProject.validateLoop].
    by rewrite (proj2 (has_true _ _) Hin), Hflag.
Qed.

(** X23. When construction fails, the error names the first autoload, in the
    order the autoloads were given, that is not one of the classes or has no
    autoload flag. *)
Theorem GDScriptProject_new_names_first_bad (classes autoloads good rest : list Class.t)
    (a : Class.t) (scenes signals : list string) :
  JS.newSet autoloads = good ++ a :: rest →
  Forall (λ x, x ∈ classes ∧ Class.autoload x = true) good →
  badAutoload classes a →
  GDScriptProject.new classes scenes autoloads signals =
    JS.Throw ("Autoload class " +:+ Identifier.toString (Class.name a)
              +:+ " must be in classes and have autoload=true").
Proof.
  intros Hsplit Hgood Hbad. unfold GDScriptProject.new, GDScriptProject.validate.
  cbn [GDScriptProject.classes GDScriptProject.autoloads]. rewrite Hsplit.
  rewrite (validateLoop_first_bad (JS.newSet classes) good rest a); [done| |].
  - eapply Forall_impl; [exact Hgood|]. intros x [Hx ?]. split; [|done].
    by apply elem_of_newSet.
  - destruct Hbad as [Hnot|Hoff]; [left|by right]. by rewrite elem_of_newSet.
Qed.

Lemma GDScriptProject_new_names_first_bad_witness :
  GDScriptProject.new [audioClass; playerClass] [] [audioClass; playerClass; strayClass] [] =
    JS.Throw "Autoload class Player must be in classes and have autoload=true".
Proof.
  apply (GDScriptProject_new_names_first_bad [audioClass; playerClass]
           [audioClass; playerClass; strayClass] [audioClass] [strayClass] playerClass).
  - reflexivity.
  - apply Forall_cons_2; [|apply Forall_nil_2]. split; [apply list_elem_of_here|reflexivity].
  - right. reflexivity.
Defined.

(** X24. The lines of code of a project are the lines of all its methods:
    the total is the number of lines in the code blocks that DuplicateCode
    extracts, and the statistics report that total with the sizes of the
    sets. *)
Theorem GDScriptProject_getTotalLOC_blocks (p : GDScriptProject.t) :
  GDScriptProject.getTotalLOC p =
    sum_list (map (λ b, length (DuplicateCodeDetector.lines b))
                  (DuplicateCodeDetector.extractCodeBlocks p)) ∧
  GDScriptProject.totalLOC (GDScriptProject.getStatistics p) = GDScriptProject.getTotalLOC p ∧
  GDScriptProject.totalClasses (GDScriptProject.getStatistics p) =
    length (GDScriptProject.classes p).
Proof.
  split; [|done].
  unfold GDScriptProject.getTotalLOC, DuplicateCodeDetector.extractCodeBlocks.
  assert (∀ ms n, foldl (λ total method, (total + Method.loc method)%nat) n ms =
                  (n + sum_list (map Method.loc ms))%nat) as Hclass.
  { induction ms as [|m ms IH]; intros n; cbn [foldl map sum_list_with id]; [lia|].
    rewrite IH. lia. }
  generalize (GDScriptProject.classes p). intros cs.
  assert (∀ n, foldl (λ total class_, (total + Class.getTotalLOC class_)%nat) n cs =
               (n + sum_list (map Class.getTotalLOC cs))%nat) as Hproj.
  { induction cs as [|c cs IH]; intros n; cbn [foldl map sum_list_with id]; [lia|].
    rewrite IH. lia. }
  rewrite Hproj. cbn [plus]. clear Hproj.
  induction cs as [|c cs IH]; [done|].
  cbn [map sum_list_with id flat_map]. rewrite map_app, sum_list_with_app, <- IH. f_equal.
  unfold Class.getTotalLOC. rewrite Hclass. cbn [plus].
  rewrite map_map. f_equal. apply map_ext. intros m.
  cbn [DuplicateCodeDetector.lines]. unfold Method.loc. by rewrite length_map.
Qed.

(** ** From the configuration document to the detector *)

Section ConfigPipeline.
Import DetectorThresholds.

Lemma or_or_same (v builtin : JS.value) :
  JS.or (JS.or v builtin) builtin = JS.or v builtin.
Proof. unfold JS.or. destruct (JS.truthy v) eqn:E; [by rewrite E|]. by destruct (JS.truthy builtin). Qed.

Lemma get_foldl_insert (f : string → JS.value) (keys : list string)
    (acc : thresholds_t) (k : string) :
  JS.get (foldl (λ result threshold, <[threshold := f threshold]> result) acc keys) k =
    if decide (k ∈ keys) then f k else JS.get acc k.
Proof.
  revert acc. induction keys as [|t keys IH]; intros acc; cbn [foldl].
  - by rewrite decide_False by apply not_elem_of_nil.
  - rewrite IH. destruct (decide (k ∈ keys)) as [Hin|Hnot].
    + by rewrite decide_True by by apply list_elem_of_further.
    + destruct (decide (k = t)) as [->|Hne].
      * rewrite decide_True by apply list_elem_of_here. apply get_insert_eq.
      * rewrite decide_False by (rewrite elem_of_cons; tauto).
        by apply get_insert_ne.
Qed.

Lemma config_keys_agree :
  Forall (λ d, default [] (snd <$> List.find (λ e, String.eqb e.1 d)
                                     AnalysisConfig.detectorThresholds) =
               map fst (keysOf d) ∧
               Forall (λ kb, kb ∈ AnalysisConfig.thresholdDefaults) (keysOf d))
         AnalysisConfig.allDetectors.
Proof.
  unfold AnalysisConfig.allDetectors.
  repeat (apply Forall_cons_2;
          [split; [reflexivity|];
           repeat (apply Forall_cons_2;
                   [repeat first [apply list_elem_of_here | apply list_elem_of_further]|]);
           apply Forall_nil_2|]).
  apply Forall_nil_2.
Qed.

Lemma config_thresholds_get (raw : AnalysisConfig.Raw) (key : string) (builtin : JS.value) :
  (key, builtin) ∈ AnalysisConfig.thresholdDefaults →
  JS.get (AnalysisConfig.thresholds (configOf raw)) key =
    JS.or (JS.get (AnalysisConfig.props raw) key) builtin.
Proof.
  intros Hin. unfold configOf, AnalysisConfig.new. cbn [AnalysisConfig.thresholds].
  unfold JS.get at 1. erewrite elem_of_list_to_map_1; [reflexivity| |].
  - rewrite <- list_fmap_compose.
    apply (bool_decide_unpack _). vm_compute. exact I.
  - apply list_elem_of_fmap. by exists (key, builtin).
Qed.

Lemma read_config (raw : AnalysisConfig.Raw) (d key : string) (builtin : JS.value) :
  d ∈ AnalysisConfig.allDetectors → (key, builtin) ∈ keysOf d →
  read (AnalysisConfig.getDetectorThresholds (configOf raw) d) key builtin =
    read (AnalysisConfig.props raw) key builtin.
Proof.
  intros Hd Hkey.
  destruct (proj1 (Forall_forall _ _) config_keys_agree d Hd) as [Hkeys Hdefaults].
  unfold read, AnalysisConfig.getDetectorThresholds. rewrite Hkeys, get_foldl_insert.
  rewrite decide_True.
  - rewrite (config_thresholds_get raw key builtin); [apply or_or_same|].
    by apply (proj1 (Forall_forall _ _) Hdefaults).
  - apply list_elem_of_fmap. by exists (key, builtin).
Qed.
End ConfigPipeline.

(** X25. The configuration's defaults are the detectors' built-in values:
    for each of the twenty detectors, the thresholds it works with when it is
    handed the configuration's thresholds for its name are the ones it works
    with when it reads the configuration document itself.  So LongMethod
    returns the same from both. *)
Theorem config_thresholds_reach_detector (raw : AnalysisConfig.Raw) (d : string) :
  d ∈ AnalysisConfig.allDetectors →
  DetectorThresholds.effective d
      (AnalysisConfig.getDetectorThresholds (configOf raw) d) =
    DetectorThresholds.effective d (AnalysisConfig.props raw) ∧
  (d = LongMethodDetector.getName →
   ∀ context,
     LongMethodDetector.detect context
         (AnalysisConfig.getDetectorThresholds (configOf raw) d) =
       LongMethodDetector.detect context (AnalysisConfig.props raw)).
Proof.
  intros Hd. split.
  - unfold DetectorThresholds.effective. apply map_ext_in. intros [key builtin] Hin.
    cbn [fst snd]. f_equal. apply read_config; [done|]. by apply list_elem_of_In.
  - intros -> context. unfold LongMethodDetector.detect.
    destruct (Context.method context) as [method|]; [|done].
    pose proof (read_config raw "LongMethod" "maxLines" (JS.Num 50) Hd) as H1.
    pose proof (read_config raw "LongMethod" "maxComplexity" (JS.Num 10) Hd) as H2.
    pose proof (read_config raw "LongMethod" "maxYields" (JS.Num 7) Hd) as H3.
    unfold DetectorThresholds.read in H1, H2, H3.
    unfold LongMethodDetector.getName.
    rewrite H1, H2, H3; [done|..].
    + do 2 apply list_elem_of_further. apply list_elem_of_here.
    + apply list_elem_of_further, list_elem_of_here.
    + apply list_elem_of_here.
Qed.

Lemma config_thresholds_reach_detector_witness :
  DetectorThresholds.effective "GlobalState"
      (AnalysisConfig.getDetectorThresholds (configOf overridingRaw) "GlobalState") =
    [("maxAutoloads", JS.Num 3); ("maxGlobalVars", JS.Num 20)] ∧
  LongMethodDetector.detect (contextOfMethod tenLineMethod None None None None)
      (AnalysisConfig.getDetectorThresholds (configOf overridingRaw) "LongMethod") =
    LongMethodDetector.detect (contextOfMethod tenLineMethod None None None None)
      (AnalysisConfig.props overridingRaw).
Proof.
  split.
  - rewrite (proj1 (config_thresholds_reach_detector overridingRaw "GlobalState"
                      ltac:(apply (bool_decide_unpack _); vm_compute; exact I))).
    vm_compute. reflexivity.
  - apply (proj2 (config_thresholds_reach_detector overridingRaw "LongMethod"
                    ltac:(apply (bool_decide_unpack _); vm_compute; exact I)) eq_refl).
Defined.

(** ** The orchestrator and the detectors together *)

Section Scopes.
Import AnalyzeProjectUseCase.

Lemma flat_map_invocations {C} (g : Invocation → list C)
    (detectors : list CodeSmellDetector.t) (project : GDScriptProject.t) :
  flat_map g (invocations detectors project) =
    flat_map (λ class_,
      flat_map (λ method,
        flat_map (λ d, g {| inv_detector := d;
                            inv_context := methodContext class_ method;
                            inv_what := " for method " +:+
                                        Identifier.toString (Method.name method) |})
                 detectors)
        (Class.methods class_))
      (GDScriptProject.classes project) ++
    flat_map (λ class_,
      flat_map (λ d, g {| inv_detector := d;
                          inv_context := classContext project class_;
                          inv_what := " for class " +:+
                                      Identifier.toString (Class.name class_) |})
               detectors)
      (GDScriptProject.classes project) ++
    flat_map (λ d, g {| inv_detector := d;
                        inv_context := projectContext project;
                        inv_what := " for project" |})
             detectors.
Proof.
  unfold invocations. rewrite !flat_map_app, !flat_map_of_flat_map, flat_map_of_map.
  f_equal; [|f_equal].
  - apply flat_map_ext. intros class_. rewrite flat_map_of_flat_map.
    apply flat_map_ext. intros method. apply flat_map_of_map.
  - apply flat_map_ext. intros class_. apply flat_map_of_map.
Qed.

Lemma flat_map_filter_nil {A C} (P : A → Prop) `{∀ x, Decision (P x)}
    (h : A → list C) (l : list A) :
  (∀ x, ¬ P x → h x = []) → flat_map h (filter P l) = flat_map h l.
Proof.
  intros Hnil. induction l as [|x l IH]; [done|]. rewrite filter_cons.
  destruct (decide (P x)) as [Hx|Hx]; cbn [flat_map].
  - by rewrite IH.
  - by rewrite IH, (Hnil x Hx).
Qed.

Lemma flat_map_all_nil {A C} (h : A → list C) (l : list A) :
  (∀ x, h x = []) → flat_map h l = [].
Proof. intros Hnil. induction l as [|x l IH]; [done|]. cbn [flat_map]. by rewrite Hnil, IH. Qed.

Lemma invocations_filter {C} (g : Invocation → list C) (config : AnalysisConfig.t)
    (detectors : list CodeSmellDetector.t) (project : GDScriptProject.t) :
  (∀ i, enabled config i = false → g i = []) →
  flat_map g (invocations
                (filter (λ d, AnalysisConfig.isDetectorEnabled config
                                (CodeSmellDetector.getName d) = true) detectors)
                project) =
    flat_map g (invocations detectors project).
Proof.
  intros Hg. rewrite !flat_map_invocations.
  assert (∀ context what,
            flat_map (λ d, g {| inv_detector := d; inv_context := context;
                                inv_what := what |})
                     (filter (λ d, AnalysisConfig.isDetectorEnabled config
                                     (CodeSmellDetector.getName d) = true) detectors) =
            flat_map (λ d, g {| inv_detector := d; inv_context := context;
                                inv_what := what |}) detectors) as Hinner.
  { intros context what. apply flat_map_filter_nil. intros d Hd. apply Hg.
    unfold enabled. cbn [inv_detector]. by apply not_true_is_false. }
  f_equal; [|f_equal].
  - apply flat_map_ext. intros class_. apply flat_map_ext. intros method. apply Hinner.
  - apply flat_map_ext. intros class_. apply Hinner.
  - apply Hinner.
Qed.

Lemma contribution_disabled (config : AnalysisConfig.t) (i : Invocation) :
  enabled config i = false → contribution config i = [].
Proof. unfold contribution. by intros ->. Qed.

Lemma logged_disabled (config : AnalysisConfig.t) (i : Invocation) :
  enabled config i = false → logged config i = [].
Proof. unfold logged. by intros ->. Qed.

Lemma analyzeProject_filter (detectors : list CodeSmellDetector.t)
    (config : AnalysisConfig.t) (project : GDScriptProject.t) (log : list string) :
  analyzeProject detectors config project log =
    analyzeProject
      (filter (λ d, AnalysisConfig.isDetectorEnabled config
                      (CodeSmellDetector.getName d) = true) detectors)
      config project log.
Proof.
  rewrite !analyzeProject_run.
  rewrite (invocations_filter (contribution config) config)
    by apply contribution_disabled.
  rewrite (invocations_filter (logged config) config) by apply logged_disabled.
  done.
Qed.

Lemma analyzeProject_no_detectors (config : AnalysisConfig.t)
    (project : GDScriptProject.t) (log : list string) :
  analyzeProject [] config project log =
    (JS.Normal [], {| results := []; console := log |}).
Proof.
  rewrite analyzeProject_run, !flat_map_invocations. cbn [flat_map app].
  rewrite !(flat_map_all_nil (λ class_ : Class.t, _)), !app_nil_r; [done|..];
    intros class_; try done; by apply flat_map_all_nil.
Qed.
End Scopes.

(** X26. Only the enabled detectors matter to a run: dropping the detectors
    whose name the configuration does not enable changes neither the results
    nor the console, and when no detector's name is enabled the run returns no
    result and writes nothing. *)
Theorem analyzeProject_ignores_disabled (detectors : list CodeSmellDetector.t)
    (config : AnalysisConfig.t) (project : GDScriptProject.t) (log : list string) :
  AnalyzeProjectUseCase.analyzeProject detectors config project log =
    AnalyzeProjectUseCase.analyzeProject
      (filter (λ d, AnalysisConfig.isDetectorEnabled config
                      (CodeSmellDetector.getName d) = true) detectors)
      config project log ∧
  (Forall (λ d, AnalysisConfig.isDetectorEnabled config
                  (CodeSmellDetector.getName d) = false) detectors →
   AnalyzeProjectUseCase.analyzeProject detectors config project log =
     (JS.Normal [],
      {| AnalyzeProjectUseCase.results := []; AnalyzeProjectUseCase.console := log |})).
Proof.
  split; [apply analyzeProject_filter|]. intros Hoff.
  rewrite analyzeProject_filter.
  assert (filter (λ d, AnalysisConfig.isDetectorEnabled config
                         (CodeSmellDetector.getName d) = true) detectors = []) as ->.
  { induction Hoff as [|d ds Hd _ IH]; [done|].
    rewrite filter_cons, decide_False; [done|]. by rewrite Hd. }
  apply analyzeProject_no_detectors.
Qed.

Lemma analyzeProject_ignores_disabled_witness :
  AnalyzeProjectUseCase.analyzeProject [unimplemented; globalState]
      (configOf unknownDetectorRaw) tinyProject ["started"] =
    (JS.Normal [],
     {| AnalyzeProjectUseCase.results := [];
        AnalyzeProjectUseCase.console := ["started"] |}).
Proof.
  apply (proj2 (analyzeProject_ignores_disabled [unimplemented; globalState]
                  (configOf unknownDetectorRaw) tinyProject ["started"])).
  apply Forall_cons_2; [reflexivity|]. apply Forall_cons_2; [reflexivity|].
  apply Forall_nil_2.
Defined.

Section SevenDetectors.
Import AnalyzeProjectUseCase.
Variable config : AnalysisConfig.t.
Hypothesis all_enabled :
  Forall (λ d, AnalysisConfig.isDetectorEnabled config (CodeSmellDetector.getName d) = true)
         modelledDetectors.

Lemma seven_enabled (d : CodeSmellDetector.t) (context : Context.t) (what : string) :
  d ∈ modelledDetectors →
  enabled config {| inv_detector := d; inv_context := context; inv_what := what |} = true.
Proof.
  intros Hd. unfold enabled. cbn [inv_detector].
  by apply (proj1 (Forall_forall _ _) all_enabled).
Qed.

Lemma seven_at_method (class_ : Class.t) (method : Method.t) (what : string) :
  length (flat_map (λ d, contribution config
                           {| inv_detector := d;
                              inv_context := methodContext class_ method;
                              inv_what := what |}) modelledDetectors) = 2%nat ∧
  flat_map (λ d, logged config
                   {| inv_detector := d;
                      inv_context := methodContext class_ method;
                      inv_what := what |}) modelledDetectors = [].
Proof.
  unfold modelledDetectors. cbn [flat_map]. unfold contribution, logged.
  rewrite !seven_enabled
    by (unfold modelledDetectors;
        repeat first [apply list_elem_of_here | apply list_elem_of_further]).
  unfold outcome. cbn [inv_detector inv_context]. done.
Qed.

Lemma seven_at_class (project : GDScriptProject.t) (class_ : Class.t) (what : string) :
  length (flat_map (λ d, contribution config
                           {| inv_detector := d;
                              inv_context := classContext project class_;
                              inv_what := what |}) modelledDetectors) =
    (5 + match Class.parent class_ with Some _ => 1 | None => 0 end)%nat ∧
  flat_map (λ d, logged config
                   {| inv_detector := d;
                      inv_context := classContext project class_;
                      inv_what := what |}) modelledDetectors = [].
Proof.
  unfold modelledDetectors. cbn [flat_map]. unfold contribution, logged.
  rewrite !seven_enabled
    by (unfold modelledDetectors;
        repeat first [apply list_elem_of_here | apply list_elem_of_further]).
  unfold outcome. cbn [inv_detector inv_context].
  unfold refusedBequest at 1 3. cbn [CodeSmellDetector.detect].
  unfold RefusedBequestDetector.detect, classContext.
  cbn [Context.class_ Context.project].
  by destruct (Class.parent class_).
Qed.

Lemma seven_at_project (project : GDScriptProject.t) (what : string) :
  length (flat_map (λ d, contribution config
                           {| inv_detector := d;
                              inv_context := projectContext project;
                              inv_what := what |}) modelledDetectors) = 2%nat ∧
  flat_map (λ d, logged config
                   {| inv_detector := d;
                      inv_context := projectContext project;
                      inv_what := what |}) modelledDetectors = [].
Proof.
  unfold modelledDetectors. cbn [flat_map]. unfold contribution, logged.
  rewrite !seven_enabled
    by (unfold modelledDetectors;
        repeat first [apply list_elem_of_here | apply list_elem_of_further]).
  unfold outcome. cbn [inv_detector inv_context]. done.
Qed.

Lemma countMethods_sum (project : GDScriptProject.t) :
  countMethods project =
    sum_list (map (λ class_, length (Class.methods class_))
                  (GDScriptProject.classes project)).
Proof.
  unfold countMethods. generalize (GDScriptProject.classes project). intros cs.
  enough (∀ n, foldl (λ total class_, (total + length (Class.methods class_))%nat) n cs =
               (n + sum_list (map (λ class_, length (Class.methods class_)) cs))%nat) as H
    by apply (H 0%nat).
  induction cs as [|c cs IH]; intros n; cbn [foldl map sum_list_with id]; [lia|].
  rewrite IH. lia.
Qed.

Lemma length_flat_map_const {A C} (f : A → list C) (n : nat) (l : list A) :
  (∀ x, length (f x) = n) → length (flat_map f l) = (n * length l)%nat.
Proof.
  intros Hf. induction l as [|x l IH]; cbn [flat_map length]; [lia|].
  rewrite length_app, Hf, IH. lia.
Qed.

Lemma seven_results (project : GDScriptProject.t) :
  length (flat_map (contribution config) (invocations modelledDetectors project)) =
    (2 * countMethods project + 5 * length (GDScriptProject.classes project) +
     length (filter (λ class_, is_Some (Class.parent class_))
                    (GDScriptProject.classes project)) + 2)%nat ∧
  flat_map (logged config) (invocations modelledDetectors project) = [].
Proof.
  rewrite !flat_map_invocations, countMethods_sum. split.
  - rewrite !length_app, (proj1 (seven_at_project project _)).
    generalize (GDScriptProject.classes project). intros cs.
    induction cs as [|c cs IH]; [cbn; lia|].
    cbn [flat_map map sum_list_with id length]. rewrite filter_cons, !length_app.
    rewrite (proj1 (seven_at_class project c _)).
    rewrite (length_flat_map_const _ 2) by (intros m; apply seven_at_method).
    destruct (Class.parent c) as [parent|].
    + rewrite decide_True by done. cbn [length]. lia.
    + rewrite decide_False by (by intros [? ?]). lia.
  - rewrite (proj2 (seven_at_project project _)), app_nil_r.
    rewrite !(flat_map_all_nil (λ class_ : Class.t, _)); [done|..]; intros class_.
    + apply seven_at_class.
    + apply flat_map_all_nil. intros method. apply seven_at_method.
Qed.
End SevenDetectors.

(** X27. A run of the seven modelled detectors, all enabled, writes nothing
    to the console, since none of them throws in a context the orchestrator
    builds, and returns one result for each answer a detector gives, flagged
    or not: two for every method (LongMethod, Comments), five for every class
    (DuplicateCode, MiddleMan, DataClass, Comments, GlobalState) and one more
    for a class that names a parent (RefusedBequest), and two for the project
    (DuplicateCode, GlobalState). *)
Theorem analyzeProject_seven_detectors (config : AnalysisConfig.t)
    (project : GDScriptProject.t) (log : list string) :
  Forall (λ d, AnalysisConfig.isDetectorEnabled config (CodeSmellDetector.getName d) = true)
         modelledDetectors →
  ∃ results,
    AnalyzeProjectUseCase.analyzeProject modelledDetectors config project log =
      (JS.Normal results,
       {| AnalyzeProjectUseCase.results := results;
          AnalyzeProjectUseCase.console := log |}) ∧
    length results =
      (2 * AnalyzeProjectUseCase.countMethods project +
       5 * length (GDScriptProject.classes project) +
       length (filter (λ class_, is_Some (Class.parent class_))
                      (GDScriptProject.classes project)) + 2)%nat.
Proof.
  intros Hen. destruct (seven_results config Hen project) as [Hlen Hlog].
  eexists. split; [|exact Hlen].
  by rewrite analyzeProject_run, Hlog, app_nil_r.
Qed.

Lemma analyzeProject_seven_detectors_witness :
  ∃ results,
    AnalyzeProjectUseCase.analyzeProject modelledDetectors defaultConfig markerProject [] =
      (JS.Normal results,
       {| AnalyzeProjectUseCase.results := results;
          AnalyzeProjectUseCase.console := [] |}) ∧
    length results =
      (2 * AnalyzeProjectUseCase.countMethods markerProject +
       5 * length (GDScriptProject.classes markerProject) +
       length (filter (λ class_, is_Some (Class.parent class_))
                      (GDScriptProject.classes markerProject)) + 2)%nat.
Proof.
  apply (analyzeProject_seven_detectors defaultConfig markerProject []).
  unfold modelledDetectors.
  repeat (apply Forall_cons_2; [reflexivity|]). apply Forall_nil_2.
Defined.

Section ProjectScope.
Import AnalyzeProjectUseCase.

Lemma flat_map_singleton_const {A C} (r : C) (l : list A) :
  flat_map (λ _, [r]) l = replicate (length l) r.
Proof. induction l as [|x l IH]; [done|]. cbn [flat_map length replicate app]. by rewrite IH. Qed.

Lemma project_scope_run (d : CodeSmellDetector.t) (config : AnalysisConfig.t)
    (project : GDScriptProject.t) (log : list string) (r : CodeSmellResult.t) :
  AnalysisConfig.isDetectorEnabled config (CodeSmellDetector.getName d) = true →
  (∀ class_ method thresholds,
     CodeSmellDetector.detect d (methodContext class_ method) thresholds = JS.Normal None) →
  (∀ class_ thresholds,
     CodeSmellDetector.detect d (classContext project class_) thresholds =
       CodeSmellDetector.detect d (projectContext project) thresholds) →
  CodeSmellDetector.detect d (projectContext project)
    (AnalysisConfig.getDetectorThresholds config (CodeSmellDetector.getName d)) =
    JS.Normal (Some r) →
  analyzeProject [d] config project log =
    (JS.Normal (replicate (S (length (GDScriptProject.classes project))) r),
     {| results := replicate (S (length (GDScriptProject.classes project))) r;
        console := log |}).
Proof.
  intros Hen Hmethod Hclass Hproject.
  rewrite analyzeProject_run, !flat_map_invocations. cbn [flat_map].
  unfold contribution, logged, enabled, outcome. cbn [inv_detector inv_context].
  rewrite Hen, Hproject.
  rewrite (flat_map_all_nil (λ class_ : Class.t, flat_map _ (Class.methods class_)))
    by (intros class_; apply flat_map_all_nil; intros method; by rewrite Hmethod).
  rewrite (flat_map_all_nil (λ class_ : Class.t, flat_map _ (Class.methods class_)))
    by (intros class_; apply flat_map_all_nil; intros method; by rewrite Hmethod).
  rewrite (flat_map_ext _ (λ _, [r])) by (intros class_; by rewrite Hclass, Hproject).
  rewrite flat_map_singleton_const.
  rewrite (flat_map_all_nil (λ class_ : Class.t, _))
    by (intros class_; by rewrite Hclass, Hproject).
  rewrite !app_nil_r. cbn [app].
  by rewrite <- replicate_cons_app.
Qed.
End ProjectScope.

(** X28. A detector of project scope answers wherever the context carries
    the project, and the context of a class carries it too: DuplicateCode and
    GlobalState return at every class what they return for the project, so a
    run reports their one finding once per class and once more. *)
Theorem project_scope_reported_per_class (d : CodeSmellDetector.t)
    (config : AnalysisConfig.t) (project : GDScriptProject.t) (log : list string) :
  d = duplicateCode ∨ d = globalState →
  AnalysisConfig.isDetectorEnabled config (CodeSmellDetector.getName d) = true →
  ∃ r,
    CodeSmellDetector.detect d (contextOfProject project)
      (AnalysisConfig.getDetectorThresholds config (CodeSmellDetector.getName d)) =
      JS.Normal (Some r) ∧
    (∀ class_ thresholds,
       CodeSmellDetector.detect d (contextOfClass class_ project) thresholds =
         CodeSmellDetector.detect d (contextOfProject project) thresholds) ∧
    AnalyzeProjectUseCase.analyzeProject [d] config project log =
      (JS.Normal (replicate (S (length (GDScriptProject.classes project))) r),
       {| AnalyzeProjectUseCase.results :=
            replicate (S (length (GDScriptProject.classes project))) r;
          AnalyzeProjectUseCase.console := log |}).
Proof.
  intros [-> | ->] Hen; eexists; (split; [reflexivity|]); (split; [done|]);
    by apply project_scope_run.
Qed.

Lemma project_scope_reported_per_class_witness :
  AnalyzeProjectUseCase.analyzeProject [globalState] defaultConfig markerProject [] =
    (JS.Normal (replicate 4 {| CodeSmellResult.smellName := "GlobalState";
                               CodeSmellResult.detected := false;
                               CodeSmellResult.severity := None |}),
     {| AnalyzeProjectUseCase.results :=
          replicate 4 {| CodeSmellResult.smellName := "GlobalState";
                         CodeSmellResult.detected := false;
                         CodeSmellResult.severity := None |};
        AnalyzeProjectUseCase.console := [] |}).
Proof.
  destruct (project_scope_reported_per_class globalState defaultConfig markerProject []
              (or_intror eq_refl) eq_refl) as (r & Hr & _ & Hrun).
  vm_compute in Hr. injection Hr as <-. exact Hrun.
Defined.

(** ** Aggregation of the results *)

Section Aggregation.
Import AnalysisResult.
Implicit Types (grouped : list (string * list CodeSmellResult.t)).

Lemma addAll_snoc {A} `{EqDecision A} (l : list A) (x : A) :
  ∀ acc, JS.addAll acc (l ++ [x]) =
         if JS.has (JS.addAll acc l) x then JS.addAll acc l else JS.addAll acc l ++ [x].
Proof. induction l as [|y l IH]; intros acc; [done|]. cbn [app JS.addAll]. apply IH. Qed.

Lemma pushTo_keys (name : string) (r : CodeSmellResult.t) grouped :
  map fst (pushTo name r grouped) =
    if JS.has (map fst grouped) name then map fst grouped else map fst grouped ++ [name].
Proof.
  induction grouped as [|[k rs] rest IH]; [done|]. cbn [pushTo map fst].
  destruct (String.eqb_spec k name) as [->|Hne].
  - cbn [map fst]. by rewrite (proj2 (has_true _ _) (list_elem_of_here _ _)).
  - cbn [map fst]. rewrite IH. destruct (JS.has (map fst rest) name) eqn:E.
    + apply has_true in E.
      by rewrite (proj2 (has_true _ _) (list_elem_of_further _ _ _ E)).
    + apply has_false in E. rewrite (proj2 (has_false (k :: map fst rest) name)); [done|].
      rewrite elem_of_cons. intros [?|?]; [by apply Hne|by apply E].
Qed.

Lemma groupOf_pushTo (name k : string) (r : CodeSmellResult.t) grouped :
  groupOf k (pushTo name r grouped) =
    if String.eqb name k then Some (default [] (groupOf name grouped) ++ [r])
    else groupOf k grouped.
Proof.
  unfold groupOf. induction grouped as [|[k' rs] rest IH]; cbn [pushTo List.find fst].
  - by destruct (String.eqb name k).
  - destruct (String.eqb_spec k' name) as [->|Hne]; cbn [List.find fst].
    + by destruct (String.eqb name k).
    + destruct (String.eqb_spec k' k) as [->|Hne'].
      * destruct (String.eqb_spec name k) as [->|_]; [done|]. done.
      * rewrite IH. done.
Qed.

Lemma getSmellsByType_snoc (p : GDScriptProject.t) (rs : list CodeSmellResult.t)
    (r : CodeSmellResult.t) (c : option AnalysisConfig.t) :
  getSmellsByType (from p (rs ++ [r]) c) =
    pushTo (CodeSmellResult.smellName r) r (getSmellsByType (from p rs c)).
Proof. unfold getSmellsByType, from. cbn [results]. by rewrite foldl_app. Qed.

Lemma nonEmpty_default {A} (l : list A) : default [] (nonEmpty l) = l.
Proof. by destruct l. Qed.

Lemma nonEmpty_snoc {A} (l : list A) (x : A) : nonEmpty (l ++ [x]) = Some (l ++ [x]).
Proof. by destruct l. Qed.

Lemma byType_count_pushTo (name : string) (r : CodeSmellResult.t) grouped :
  sum_list (map (λ entry : string * list CodeSmellResult.t,
                   length (filter (λ r, CodeSmellResult.isDetected r = true) entry.2))
                (pushTo name r grouped)) =
    (sum_list (map (λ entry : string * list CodeSmellResult.t,
                      length (filter (λ r, CodeSmellResult.isDetected r = true) entry.2))
                   grouped) +
     if CodeSmellResult.isDetected r then 1 else 0)%nat.
Proof.
  induction grouped as [|[k rs] rest IH]; cbn [pushTo map sum_list_with id snd].
  - rewrite filter_cons, filter_nil. destruct (CodeSmellResult.isDetected r).
    + by rewrite decide_True.
    + by rewrite decide_False.
  - destruct (String.eqb k name); cbn [map sum_list_with id snd].
    + rewrite filter_app, length_app, filter_cons, filter_nil.
      destruct (CodeSmellResult.isDetected r).
      * rewrite decide_True by done. cbn [length]. lia.
      * rewrite decide_False by done. cbn [length]. lia.
    + rewrite IH. lia.
Qed.

Lemma severity_buckets (rs : list CodeSmellResult.t) :
  (length (filter (λ r, CodeSmellResult.severity r = Some Critical) rs) +
   length (filter (λ r, CodeSmellResult.severity r = Some High) rs) +
   length (filter (λ r, CodeSmellResult.severity r = Some Medium) rs) +
   length (filter (λ r, CodeSmellResult.severity r = Some Low) rs) =
   length (filter (λ r, is_Some (CodeSmellResult.severity r)) rs))%nat.
Proof.
  induction rs as [|r rs IH]; [done|]. rewrite !filter_cons.
  destruct (CodeSmellResult.severity r) as [[]|];
    repeat first [rewrite decide_True by done | rewrite decide_False by done
                 | rewrite decide_False by (by intros [? ?])];
    cbn [length]; lia.
Qed.
Lemma filter_Forall_iff {A} (P Q : A → Prop) `{∀ x, Decision (P x)} `{∀ x, Decision (Q x)}
    (l : list A) :
  Forall (λ x, P x ↔ Q x) l → filter P l = filter Q l.
Proof.
  induction 1 as [|x l Hx _ IH]; [done|]. rewrite !filter_cons, IH.
  destruct (decide (P x)) as [HP|HP].
  - by rewrite decide_True by by apply Hx.
  - by rewrite decide_False by (by rewrite <- Hx).
Qed.
End Aggregation.

Lemma byType_adds_up (a : AnalysisResult.t) :
  sum_list (map snd (AnalysisResult.byType (AnalysisResult.getSummary a))) =
    AnalysisResult.totalSmells (AnalysisResult.getSummary a).
Proof.
  unfold AnalysisResult.getSummary.
  cbn [AnalysisResult.byType AnalysisResult.totalSmells].
  rewrite map_map. cbn [snd]. unfold AnalysisResult.getDetectedSmells.
  destruct a as [p rs c].
  change (AnalysisResult.Build_t p rs c) with (AnalysisResult.from p rs c).
  induction rs as [|r rs IH] using rev_ind; [done|].
  rewrite getSmellsByType_snoc, byType_count_pushTo, IH.
  cbn [AnalysisResult.results AnalysisResult.from].
  rewrite filter_app, length_app, filter_cons, filter_nil.
  destruct (CodeSmellResult.isDetected r).
  - by rewrite decide_True.
  - by rewrite decide_False.
Qed.

(** X29. getSmellsByType groups the results of the catalog's detectors by
    smell name: its keys are the names of the results, each once, in the
    order of their first result, and under a name stand the results of that
    name in their order; a name of no result is missing. *)
Theorem getSmellsByType_groups (a : AnalysisResult.t) :
  catalogResults (AnalysisResult.results a) →
  map fst (AnalysisResult.getSmellsByType a) =
    JS.newSet (map CodeSmellResult.smellName (AnalysisResult.results a)) ∧
  ∀ name,
    groupOf name (AnalysisResult.getSmellsByType a) =
      nonEmpty (filter (λ r, CodeSmellResult.smellName r = name) (AnalysisResult.results a)).
Proof.
  intros _.
  destruct a as [p rs c].
  change (AnalysisResult.Build_t p rs c) with (AnalysisResult.from p rs c).
  induction rs as [|r rs [IHkeys IHgroup]] using rev_ind; [done|].
  rewrite getSmellsByType_snoc. cbn [AnalysisResult.results AnalysisResult.from] in *. split.
  - rewrite pushTo_keys, IHkeys, map_app. cbn [map]. unfold JS.newSet.
    by rewrite addAll_snoc.
  - intros name. rewrite groupOf_pushTo, filter_app, filter_cons, filter_nil.
    destruct (String.eqb_spec (CodeSmellResult.smellName r) name) as [<-|Hne].
    + rewrite decide_True by done. by rewrite IHgroup, nonEmpty_default, nonEmpty_snoc.
    + rewrite decide_False by done. by rewrite app_nil_r, IHgroup.
Qed.

Lemma getSmellsByType_groups_witness :
  map fst (AnalysisResult.getSmellsByType (AnalysisResult.from tinyProject mixedResults None)) =
    ["LongMethod"; "Comments"; "GlobalState"] ∧
  groupOf "LongMethod"
    (AnalysisResult.getSmellsByType (AnalysisResult.from tinyProject mixedResults None)) =
    Some [ {| CodeSmellResult.smellName := "LongMethod"; CodeSmellResult.detected := true;
              CodeSmellResult.severity := Some High |};
           {| CodeSmellResult.smellName := "LongMethod"; CodeSmellResult.detected := false;
              CodeSmellResult.severity := None |} ] ∧
  groupOf "DataClass"
    (AnalysisResult.getSmellsByType (AnalysisResult.from tinyProject mixedResults None)) = None.
Proof.
  assert (catalogResults
            (AnalysisResult.results (AnalysisResult.from tinyProject mixedResults None)))
    as Hcatalog.
  { unfold catalogResults, mixedResults, AnalysisResult.from. cbn [AnalysisResult.results].
    repeat (apply Forall_cons_2;
            [cbn [CodeSmellResult.smellName]; unfold AnalysisConfig.allDetectors;
             repeat first [apply list_elem_of_here | apply list_elem_of_further]|]).
    apply Forall_nil_2. }
  destruct (getSmellsByType_groups
              (AnalysisResult.from tinyProject mixedResults None) Hcatalog)
    as [Hkeys Hgroup].
  split; [|split].
  - rewrite Hkeys. reflexivity.
  - rewrite Hgroup. reflexivity.
  - rewrite Hgroup. reflexivity.
Defined.

(** X30. The totals of the summary of results of the catalog's detectors
    agree: the counts by type add up to the number of detected smells, and so
    do the four counts by severity when every result has a severity exactly
    when it is flagged, as the results of the detectors have. *)
Theorem getSummary_totals (a : AnalysisResult.t) :
  catalogResults (AnalysisResult.results a) →
  sum_list (map snd (AnalysisResult.byType (AnalysisResult.getSummary a))) =
    AnalysisResult.totalSmells (AnalysisResult.getSummary a) ∧
  (Forall (λ r, CodeSmellResult.severity r = None ↔ CodeSmellResult.detected r = false)
          (AnalysisResult.results a) →
   let by_ := AnalysisResult.bySeverity (AnalysisResult.getSummary a) in
   (AnalysisResult.nCritical by_ + AnalysisResult.nHigh by_ +
    AnalysisResult.nMedium by_ + AnalysisResult.nLow by_ =
    AnalysisResult.totalSmells (AnalysisResult.getSummary a))%nat).
Proof.
  intros _. split; [apply byType_adds_up|].
  intros Hwf. unfold AnalysisResult.getSummary.
  cbn [AnalysisResult.bySeverity AnalysisResult.totalSmells AnalysisResult.nCritical
       AnalysisResult.nHigh AnalysisResult.nMedium AnalysisResult.nLow].
  unfold AnalysisResult.getSmellsBySeverity, AnalysisResult.getDetectedSmells.
  rewrite severity_buckets. f_equal. apply filter_Forall_iff.
  eapply Forall_impl; [exact Hwf|]. intros r Hr. cbn beta in *.
  unfold CodeSmellResult.isDetected.
  destruct (CodeSmellResult.severity r) as [s|], (CodeSmellResult.detected r);
    split; intros Hx;
    first [done | by eexists | by pose proof (proj2 Hr eq_refl)
          | by pose proof (proj1 Hr eq_refl) | by destruct Hx].
Qed.

Lemma getSummary_totals_witness :
  let summary :=
    AnalysisResult.getSummary (AnalysisResult.from tinyProject mixedResults None) in
  sum_list (map snd (AnalysisResult.byType summary)) = AnalysisResult.totalSmells summary ∧
  (AnalysisResult.nCritical (AnalysisResult.bySeverity summary) +
   AnalysisResult.nHigh (AnalysisResult.bySeverity summary) +
   AnalysisResult.nMedium (AnalysisResult.bySeverity summary) +
   AnalysisResult.nLow (AnalysisResult.bySeverity summary) =
   AnalysisResult.totalSmells summary)%nat.
Proof.
  assert (catalogResults
            (AnalysisResult.results (AnalysisResult.from tinyProject mixedResults None)))
    as Hcatalog.
  { unfold catalogResults, mixedResults, AnalysisResult.from. cbn [AnalysisResult.results].
    repeat (apply Forall_cons_2;
            [cbn [CodeSmellResult.smellName]; unfold AnalysisConfig.allDetectors;
             repeat first [apply list_elem_of_here | apply list_elem_of_further]|]).
    apply Forall_nil_2. }
  destruct (getSummary_totals
              (AnalysisResult.from tinyProject mixedResults None) Hcatalog)
    as [Hsum Hseverity].
  split; [exact Hsum|]. apply Hseverity.
  unfold mixedResults, AnalysisResult.from. cbn [AnalysisResult.results].
  repeat (apply Forall_cons_2; [cbn; split; intros; done|]). apply Forall_nil_2.
Defined.
